(** * Lot telemetry protocol: sensor and collector

    A shallow embedding of [src/sensor/sensor_base.py], [src/sensor/sensor.py]
    and [src/server/server.py], and the properties of the protocol engine:
    packet framing, sequence tracking, the reorder buffer, heartbeat liveness,
    and acknowledged delivery.

    Conventions of the embedding.
    - Python [int] is [Z]; [bytes] is [list byte]; a [dict] keyed by device id
      is a [gmap Z _]; the rows appended to a CSV file and the datagrams handed
      to a socket are lists, oldest first.
    - Python [float] (every value that comes from [time.time()]) is an abstract
      type with the handful of operations the code applies to it, see
      [Builtins] and [Timing]; exact rationals give a sample instance.
    - A method is a computation in the monad [M], which threads the object
      together with its environment and records a raised exception in the
      outcome.  Each call of [time.time()] consumes one reading of the clock;
      each call of [recvfrom] consumes one event of the socket's inbox; each
      call of [generate_reading] consumes one value of the readings to come.
    - [print] is modelled by appending an event to a console trace; the event
      carries the values the line interpolates, not its formatting. *)

From Stdlib Require Import ZArith QArith DecimalString Lia Bool.
From Stdlib.Strings Require Import Byte.
From stdpp Require Import base option list sorting gmap strings.

Local Open Scope Z_scope.

(** ** Outcomes and the state monad with exceptions *)

Inductive exn : Type :=
| StructError      (* struct.error: value out of range for its format *)
| KeyError         (* subscript of a dict at an absent key *)
| ValueError       (* int() of something that is no integer literal *)
| IndexError.      (* subscript of a list out of range *)

Inductive outcome (A : Type) : Type :=
| Ok (a : A)       (* the call returned [a] *)
| Raise (e : exn)  (* the call raised [e] *)
| Blocked.         (* recvfrom on an inbox with no event left *)

Arguments Ok {A} a.
Arguments Raise {A} e.
Arguments Blocked {A}.

Definition M (S A : Type) : Type := S -> S * outcome A.

Definition ret {S A} (a : A) : M S A := fun s => (s, Ok a).

Definition bind {S A B} (m : M S A) (k : A -> M S B) : M S B :=
  fun s =>
    match m s with
    | (s', Ok a) => k a s'
    | (s', Raise e) => (s', Raise e)
    | (s', Blocked) => (s', Blocked)
    end.

Definition raise {S A} (e : exn) : M S A := fun s => (s, Raise e).
Definition get {S} : M S S := fun s => (s, Ok s).
Definition gets {S A} (f : S -> A) : M S A := fun s => (s, Ok (f s)).
Definition modify {S} (f : S -> S) : M S unit := fun s => (f s, Ok tt).

(** [struct.pack], a dict subscript and the like either give a value or
    raise. *)
Definition lift {S A} (e : exn) (o : option A) : M S A :=
  match o with Some a => ret a | None => raise e end.

Declare Scope py_scope.
Delimit Scope py_scope with py.
Notation "x <- m ;; k" := (bind m (fun x => k))
  (at level 100, m at next level, right associativity) : py_scope.
Notation "m ;;; k" := (bind m (fun _ => k))
  (at level 100, right associativity) : py_scope.
Local Open Scope py_scope.

(** [for x in xs: body x] *)
Fixpoint for_each {S A} (xs : list A) (body : A -> M S unit) : M S unit :=
  match xs with
  | [] => ret tt
  | x :: rest => body x ;;; for_each rest body
  end.

(** ** Bytes and [struct] *)

Definition Z_of_byte (b : byte) : Z := Z.of_N (Byte.to_N b).

Definition byte_of_Z (z : Z) : byte :=
  match Byte.of_N (Z.to_N (z mod 256)) with
  | Some b => b
  | None => Byte.x00
  end.

(** The [n] low-order bytes of [v], most significant first. *)
Fixpoint be_bytes (n : nat) (v : Z) : list byte :=
  match n with
  | O => []
  | S k => byte_of_Z (Z.shiftr v (8 * Z.of_nat k)) :: be_bytes k v
  end.

(** The unsigned integer a big-endian byte string denotes. *)
Fixpoint be_value (bs : list byte) : Z :=
  match bs with
  | [] => 0
  | b :: rest => Z_of_byte b * 2 ^ (8 * Z.of_nat (length rest)) + be_value rest
  end.

(** [struct.pack] of one unsigned field of [n] bytes in network order
    (formats [B], [H], [I] under [!]): a value outside [0, 256^n) raises
    [struct.error]. *)
Definition pack_uint (n : nat) (v : Z) : option (list byte) :=
  if (0 <=? v) && (v <? 2 ^ (8 * Z.of_nat n)) then Some (be_bytes n v) else None.

(** [struct.pack("!I", v)] *)
Definition pack_I (v : Z) : option (list byte) := pack_uint 4 v.

(** [struct.unpack("!I", chunk)[0]]: the chunk must be exactly 4 bytes. *)
Definition unpack_I (chunk : list byte) : option Z :=
  if (length chunk =? 4)%nat then Some (be_value chunk) else None.

(** [HEADER_FMT = "!B H H I B"] and [HEADER_SIZE = struct.calcsize(HEADER_FMT)]:
    no padding under [!], so 1 + 2 + 2 + 4 + 1 bytes. *)
Definition HEADER_SIZE : nat := 10.

(** [struct.pack(HEADER_FMT, raw_byte, device_id, seq, timestamp, flags)] *)
Definition pack_header (raw_byte device_id seq timestamp flags : Z)
  : option (list byte) :=
  b0 ← pack_uint 1 raw_byte;
  b1 ← pack_uint 2 device_id;
  b2 ← pack_uint 2 seq;
  b3 ← pack_uint 4 timestamp;
  b4 ← pack_uint 1 flags;
  Some (b0 ++ b1 ++ b2 ++ b3 ++ b4).

(** [struct.unpack(HEADER_FMT, header)]: the buffer must be exactly
    [HEADER_SIZE] bytes. *)
Definition unpack_header (header : list byte) : option (Z * Z * Z * Z * Z) :=
  if (length header =? HEADER_SIZE)%nat then
    Some (be_value (take 1 header),
          be_value (take 2 (drop 1 header)),
          be_value (take 2 (drop 3 header)),
          be_value (take 4 (drop 5 header)),
          be_value (take 1 (drop 9 header)))
  else None.

(** [range(start, stop, step)] for a positive step. *)
Fixpoint range_from (fuel start stop step : nat) : list nat :=
  match fuel with
  | O => []
  | S f => if (start <? stop)%nat
           then start :: range_from f (start + step) stop step
           else []
  end.

Definition py_range (start stop step : nat) : list nat :=
  range_from stop start stop step.

(** [b''.join([struct.pack("!I", v) for v in readings])] *)
Fixpoint payload_join (readings : list Z) : option (list byte) :=
  match readings with
  | [] => Some []
  | v :: rest => b ← pack_I v; p ← payload_join rest; Some (b ++ p)
  end.

(** [payload = b''] followed by [for v in readings: payload += struct.pack("!I", v)] *)
Definition payload_loop (readings : list Z) : option (list byte) :=
  foldl (fun payload v => p ← payload; b ← pack_I v; Some (p ++ b)) (Some []) readings.

(** [data.startswith(prefix)] *)
Fixpoint startswith (data prefix : list byte) : bool :=
  match prefix, data with
  | [], _ => true
  | p :: ps, d :: ds => if Byte.eqb p d then startswith ds ps else false
  | _ :: _, [] => false
  end.

(** [b"ACK"] *)
Definition ACK_bytes : list byte := [x41; x43; x4b].

(** [f"ACK {seq}".encode()] *)
Definition ack_message (seq : Z) : list byte :=
  ACK_bytes ++ [x20] ++
  String.list_byte_of_string
    (if seq <? 0 then String.append "-" (NilZero.string_of_uint (N.to_uint (Z.to_N (- seq))))
     else NilZero.string_of_uint (N.to_uint (Z.to_N seq))).

(** ** Built-ins taken as given

    [F] stands for Python's [float].  The operations are the ones the code
    applies to clock readings; nothing is assumed about them.  [int_of_bytes]
    is [int(b)] on a [bytes] object, [None] for [ValueError]. *)
Class Builtins (F : Type) : Type := {
  fsub : F -> F -> F;            (* a - b *)
  fsum : list F -> F;            (* sum(xs) *)
  fdiv_int : F -> Z -> F;        (* a / n for an int n *)
  int_fmul : Z -> F -> F;        (* n * a for an int n *)
  fgt : F -> F -> bool;          (* a > b *)
  fone : F;                      (* 1.0 *)
  int_of_float : F -> Z;         (* int(a) *)
  int_of_bytes : list byte -> option Z
}.

(** ** A sample instance

    Exact rationals stand in for [float]: differences, sums, quotients and
    products are computed without rounding, which doubles do not do.  The
    instance serves the sample inputs and the counterexamples, at values
    that doubles represent and combine exactly; every theorem about the
    methods is stated for an arbitrary [Builtins F]. *)

(** [int(b)] for a [bytes] object [b]: ASCII whitespace on either side, an
    optional sign, then decimal digits with single underscores allowed
    between them; anything else is a [ValueError]. *)
Definition digit_of_byte (b : byte) : option Z :=
  let n := Z_of_byte b in
  if (48 <=? n) && (n <=? 57) then Some (n - 48) else None.

(** Space, tab, newline, vertical tab, form feed, carriage return. *)
Definition is_space (b : byte) : bool :=
  let n := Z_of_byte b in
  ((9 <=? n) && (n <=? 13)) || (n =? 32).

Fixpoint lstrip (bs : list byte) : list byte :=
  match bs with
  | b :: rest => if is_space b then lstrip rest else bs
  | [] => []
  end.

Definition strip (bs : list byte) : list byte :=
  reverse (lstrip (reverse (lstrip bs))).

(** The digits after the sign; [after_digit] tells whether the byte before
    was a digit, which an underscore and the end require. *)
Fixpoint digits_from (acc : Z) (after_digit : bool) (bs : list byte) : option Z :=
  match bs with
  | [] => if after_digit then Some acc else None
  | b :: rest =>
      match digit_of_byte b with
      | Some d => digits_from (10 * acc + d) true rest
      | None =>
          if (Z_of_byte b =? 95) && after_digit then digits_from acc false rest
          else None
      end
  end.

Definition decimal_of_bytes (bs : list byte) : option Z :=
  match strip bs with
  | [] => None
  | b :: rest =>
      if Z_of_byte b =? 43 then digits_from 0 false rest
      else if Z_of_byte b =? 45 then Z.opp <$> digits_from 0 false rest
      else digits_from 0 false (b :: rest)
  end.

Definition Qgt_bool (a b : Q) : bool := negb (Qle_bool a b).

Definition Qtrunc (a : Q) : Z := Z.quot (Qnum a) (Zpos (Qden a)).

#[global] Instance Q_builtins : Builtins Q := {|
  fsub := Qminus;
  fsum := foldl Qplus (0%Q);
  fdiv_int := fun a n => Qdiv a (inject_Z n);
  int_fmul := fun n a => Qmult (inject_Z n) a;
  fgt := Qgt_bool;
  fone := 1%Q;
  int_of_float := Qtrunc;
  int_of_bytes := decimal_of_bytes
|}.

(** A clock that ticks once per reading, starting at [t0] seconds. *)
Definition ticking_clock (t0 : Z) : nat -> Q := fun n => inject_Z (t0 + Z.of_nat n).

(** * The sensor: [sensor_base.py] and [sensor.py] *)
Module Sensor.

(** [MAX_PAYLOAD_BYTES = 200 - 10] *)
Definition MAX_PAYLOAD_BYTES : Z := 200 - 10.
(** [MAX_READINGS_PER_BATCH = (MAX_PAYLOAD_BYTES // 4)] *)
Definition MAX_READINGS_PER_BATCH : Z := MAX_PAYLOAD_BYTES / 4.

(** [sensor.py] *)
Definition MAX_RETRIES : Z := 3.
Definition HIGH_TEMP_THRESHOLD : Z := 3500.

(** What one [recvfrom] on the sensor's socket observes: the timeout set by
    [settimeout(ACK_TIMEOUT)] expiring, or a datagram. *)
Inductive recv_event : Type :=
| Timeout
| Datagram (data : list byte).

(** Lines printed by the sensor. *)
Inductive console_event : Type :=
| PacketSizeWarning (total_size : Z)
| PayloadTooLarge (device_id : Z)
| BatchData (device_id seq : Z) (values : list Z)
| BatchDataAwaitingAck (device_id seq : Z) (values : list Z)
| AckReceived (device_id seq : Z)
| NoAckRetry (device_id retries max_retries : Z)
| Heartbeat (device_id seq : Z).

(** The attributes of a [TelemetrySensor] that the methods below read or
    write.  ([server_ip], [server_port], [report_interval] and
    [heartbeat_interval] are read by the scheduler only.) *)
Record sensor (F : Type) : Type := mk_sensor {
  device_id : Z;
  batch_size : Z;
  batch_buffer : list Z;
  seq : Z;
  last_heartbeat_time : F;
  last_data_time : F
}.
Arguments mk_sensor {F}.
Arguments device_id {F}.
Arguments batch_size {F}.
Arguments batch_buffer {F}.
Arguments seq {F}.
Arguments last_heartbeat_time {F}.
Arguments last_data_time {F}.

(** The sensor object in its environment. *)
Record world (F : Type) : Type := mk_world {
  self : sensor F;
  clock : nat -> F;               (* the successive values of time.time() *)
  clock_reads : nat;              (* how many have been read *)
  sock_sent : list (list byte);   (* datagrams given to sendto, oldest first *)
  sock_inbox : list recv_event;   (* what the next recvfrom calls observe *)
  console : list console_event
}.
Arguments mk_world {F}.
Arguments self {F}.
Arguments clock {F}.
Arguments clock_reads {F}.
Arguments sock_sent {F}.
Arguments sock_inbox {F}.
Arguments console {F}.

Section Methods.
Context {F : Type} {B : Builtins F}.

Definition with_batch_buffer (b : list Z) (s : sensor F) : sensor F :=
  mk_sensor (device_id s) (batch_size s) b (seq s)
            (last_heartbeat_time s) (last_data_time s).
Definition with_seq (n : Z) (s : sensor F) : sensor F :=
  mk_sensor (device_id s) (batch_size s) (batch_buffer s) n
            (last_heartbeat_time s) (last_data_time s).
Definition with_last_heartbeat_time (t : F) (s : sensor F) : sensor F :=
  mk_sensor (device_id s) (batch_size s) (batch_buffer s) (seq s)
            t (last_data_time s).
Definition with_last_data_time (t : F) (s : sensor F) : sensor F :=
  mk_sensor (device_id s) (batch_size s) (batch_buffer s) (seq s)
            (last_heartbeat_time s) t.

Definition update_self (f : sensor F -> sensor F) : M (world F) unit :=
  modify (fun w => mk_world (f (self w)) (clock w) (clock_reads w)
                            (sock_sent w) (sock_inbox w) (console w)).

(** [time.time()] *)
Definition time_time : M (world F) F :=
  fun w => (mk_world (self w) (clock w) (S (clock_reads w))
                     (sock_sent w) (sock_inbox w) (console w),
            Ok (clock w (clock_reads w))).

(** [self.sock.sendto(pkt, (self.server_ip, self.server_port))] *)
Definition sendto (pkt : list byte) : M (world F) unit :=
  modify (fun w => mk_world (self w) (clock w) (clock_reads w)
                            (sock_sent w ++ [pkt]) (sock_inbox w) (console w)).

(** [self.sock.recvfrom(1024)] under the socket's timeout. *)
Definition recvfrom : M (world F) recv_event :=
  fun w =>
    match sock_inbox w with
    | [] => (w, Blocked)
    | ev :: rest =>
        (mk_world (self w) (clock w) (clock_reads w)
                  (sock_sent w) rest (console w), Ok ev)
    end.

(** [print(...)] *)
Definition say (e : console_event) : M (world F) unit :=
  modify (fun w => mk_world (self w) (clock w) (clock_reads w)
                            (sock_sent w) (sock_inbox w) (console w ++ [e])).

(** [TelemetrySensor.__init__]: the object right after construction, in an
    environment with the given clock and inbox.  The constructor reads the
    clock twice. *)
Definition init (device_id batch_size : Z) (clk : nat -> F)
    (inbox : list recv_event) : world F :=
  mk_world
    (mk_sensor device_id (Z.min batch_size MAX_READINGS_PER_BATCH) [] 0
               (clk 0%nat) (clk 1%nat))
    clk 2%nat [] inbox [].

(** [TelemetrySensor.build_packet(self, msg_type, payload=b'', flags=0)] *)
Definition build_packet (msg_type : Z) (payload : list byte) (flags : Z)
  : M (world F) (list byte) :=
  let version := Z.land 1 0x0F in
  let msg_type := Z.land msg_type 0x0F in
  let raw_byte := Z.land (Z.lor (Z.shiftl version 4) msg_type) 0xFF in
  now <- time_time ;;
  let timestamp := int_of_float now in
  update_self (fun s => with_seq (Z.land (seq s + 1) 0xFFFF) s) ;;;
  s <- gets self ;;
  header <- lift StructError
    (pack_header raw_byte (device_id s) (seq s) timestamp flags) ;;
  let total_size := Z.of_nat (length header) + Z.of_nat (length payload) in
  (if 200 <? total_size then say (PacketSizeWarning total_size) else ret tt) ;;;
  ret (header ++ payload).

(** [TelemetrySensor.check_payload_size(self, payload)] *)
Definition check_payload_size (payload : list byte) : bool :=
  let header_size := Z.of_nat HEADER_SIZE in
  let total_size := header_size + Z.of_nat (length payload) in
  total_size <=? 200.

(** [TelemetrySensor.send_batch_packet(self)], inherited by the humidity
    and light sensors. *)
Definition send_batch_packet : M (world F) bool :=
  s <- gets self ;;
  if Z.of_nat (length (batch_buffer s)) <? batch_size s then ret false else
  payload <- lift StructError (payload_loop (batch_buffer s)) ;;
  payload <-
    (if negb (check_payload_size payload) then
       say (PayloadTooLarge (device_id s)) ;;;
       let max_readings := Z.to_nat MAX_READINGS_PER_BATCH in
       update_self (fun s => with_batch_buffer (take max_readings (batch_buffer s)) s) ;;;
       s <- gets self ;;
       lift StructError (payload_loop (take max_readings (batch_buffer s)))
     else ret payload) ;;
  let flags := 0x01 in
  pkt <- build_packet 1 payload flags ;;
  sendto pkt ;;;
  s <- gets self ;;
  say (BatchData (device_id s) (seq s) (batch_buffer s)) ;;;
  now <- time_time ;;
  update_self (with_last_data_time now) ;;;
  update_self (with_batch_buffer []) ;;;
  ret true.

(** [TelemetrySensor.send_heartbeat(self)] *)
Definition send_heartbeat : M (world F) unit :=
  pkt <- build_packet 2 [] 0 ;;
  sendto pkt ;;;
  s <- gets self ;;
  say (Heartbeat (device_id s) (seq s)) ;;;
  now <- time_time ;;
  update_self (with_last_heartbeat_time now).

(** The [while retries < MAX_RETRIES and not ack_received] loop of
    [TemperatureSensor.send_batch_packet].  Every iteration that comes back
    from [recvfrom] has consumed one event of the inbox, so [fuel] one above
    the inbox length is never used up. *)
Fixpoint ack_loop (fuel : nat) (pkt : list byte) (retries : Z)
    (ack_received : bool) : M (world F) unit :=
  if (retries <? MAX_RETRIES) && negb ack_received then
    match fuel with
    | O => fun w => (w, Blocked)
    | S fuel' =>
        sendto pkt ;;;
        s <- gets self ;;
        say (BatchDataAwaitingAck (device_id s) (seq s) (batch_buffer s)) ;;;
        ev <- recvfrom ;;
        match ev with
        | Datagram data =>
            if startswith data ACK_bytes then
              ack_seq <- lift ValueError (int_of_bytes (drop 4 data)) ;;
              if ack_seq =? seq s then
                say (AckReceived (device_id s) (seq s)) ;;;
                ack_loop fuel' pkt retries true
              else ack_loop fuel' pkt retries ack_received
            else ack_loop fuel' pkt retries ack_received
        | Timeout =>
            let retries := retries + 1 in
            say (NoAckRetry (device_id s) retries MAX_RETRIES) ;;;
            ack_loop fuel' pkt retries ack_received
        end
    end
  else ret tt.

(** [TemperatureSensor.send_batch_packet(self)] *)
Definition temperature_send_batch_packet : M (world F) bool :=
  s <- gets self ;;
  if Z.of_nat (length (batch_buffer s)) <? batch_size s then ret false else
  payload <- lift StructError (payload_join (batch_buffer s)) ;;
  let flags :=
    if existsb (fun v => HIGH_TEMP_THRESHOLD <=? v) (batch_buffer s)
    then 0x02 else 0x00 in
  pkt <- build_packet 1 payload flags ;;
  let need_ack := existsb (fun v => HIGH_TEMP_THRESHOLD <=? v) (batch_buffer s) in
  (if need_ack then
     w <- get ;;
     ack_loop (S (length (sock_inbox w))) pkt 0 false
   else
     sendto pkt ;;;
     s <- gets self ;;
     say (BatchData (device_id s) (seq s) (batch_buffer s))) ;;;
  now <- time_time ;;
  update_self (with_last_data_time now) ;;;
  update_self (with_batch_buffer []) ;;;
  ret true.

(** One pass of the body of [run] past the heartbeat check, for a reading
    [reading] returned by [generate_reading]: buffer it, then try to send.
    [send] is the class's [send_batch_packet]. *)
Definition report (send : M (world F) bool) (reading : Z) : M (world F) bool :=
  update_self (fun s => with_batch_buffer (batch_buffer s ++ [reading]) s) ;;;
  send.

End Methods.
End Sensor.

(** [list.sort(key=...)]: Python's sort is stable, and a stable sort is
    determined by its key (see [stable_sort_unique]); insertion from the
    right, placing an element before the first one whose key is not
    smaller, is one. *)
Fixpoint insert_by {A} (key : A -> Z) (x : A) (l : list A) : list A :=
  match l with
  | [] => [x]
  | y :: rest => if key x <=? key y then x :: y :: rest
                 else y :: insert_by key x rest
  end.

Fixpoint sort_by {A} (key : A -> Z) (l : list A) : list A :=
  match l with
  | [] => []
  | x :: rest => insert_by key x (sort_by key rest)
  end.

(** Truth value of a Python [int]. *)
Definition truthy (n : Z) : bool := negb (n =? 0).

(** [d[k] += n]: the subscript raises [KeyError] at an absent key. *)
Definition dict_add (d : gmap Z Z) (k n : Z) : option (gmap Z Z) :=
  v ← d !! k; Some (<[k := v + n]> d).

(** * The collector: [server.py] *)
Module Server.

Inductive status : Type := ONLINE | OFFLINE.

Definition status_eqb (a b : status) : bool :=
  match a, b with
  | ONLINE, ONLINE | OFFLINE, OFFLINE => true
  | _, _ => false
  end.

(** Source address of a datagram: host and port. *)
Definition address : Type := string * Z.

(** The tuple appended to [reorder_buffer[device_id]]. *)
Record entry : Type := mk_entry {
  e_timestamp : Z;
  e_device_id : Z;
  e_seq : Z;
  e_msg_type : Z;
  e_payload : list byte;
  e_duplicate_flag : Z;
  e_gap_flag : Z;
  e_flags : Z;
  e_reading_count : Z
}.

(** The last column of a telemetry row: the parsed values, or the string
    ["HEARTBEAT"]. *)
Inductive row_value : Type :=
| Values (values : list Z)
| HEARTBEAT.

(** A row of [telemetry_log.csv]. *)
Record log_row : Type := mk_log_row {
  r_device_id : Z;
  r_seq : Z;
  r_msg_type : Z;
  r_timestamp_sent : Z;
  r_timestamp_arrival : Z;
  r_duplicate_flag : Z;
  r_gap_flag : Z;
  r_flags : Z;
  r_payload_value : row_value
}.

(** A row of [device_status.csv]. *)
Record status_row : Type := mk_status_row {
  sr_device_id : Z;
  sr_timestamp : Z;
  sr_status : status
}.

(** The counters of the global [metrics] dict that [handle_packet] and
    [detect_seq_state] update. *)
Record metrics : Type := mk_metrics {
  total_packets : Z;
  total_readings : Z;
  duplicate_count : Z;
  gap_count : Z;
  total_bytes : Z
}.

(** Lines printed by the server. *)
Inductive console_event (F : Type) : Type :=
| PacketTooShort
| ErrorUnpackingHeader
| ReceivedPacket (addr : address) (arrival : F)
    (version msg_type device_id seq sent flags : Z)
| DuplicatePacket (device_id seq : Z)
| GapDetected (device_id missing : Z)
| PredictedValues (device_id : Z) (values : list Z)
| DeviceValues (device_id : Z) (values : list Z)
| SentAck (device_id seq : Z)
| UnknownMessageType (msg_type device_id : Z)
| OutOfOrder (device_id seq last : Z)
| DeviceStatus (device_id : Z) (st : status)
| HeartbeatReceived (device_id : Z) (avg_interval : F)
| BlankLine.
Arguments PacketTooShort {F}.
Arguments ErrorUnpackingHeader {F}.
Arguments ReceivedPacket {F}.
Arguments DuplicatePacket {F}.
Arguments GapDetected {F}.
Arguments PredictedValues {F}.
Arguments DeviceValues {F}.
Arguments SentAck {F}.
Arguments UnknownMessageType {F}.
Arguments OutOfOrder {F}.
Arguments DeviceStatus {F}.
Arguments HeartbeatReceived {F}.
Arguments BlankLine {F}.

(** The dicts of a [TelemetryServer]. *)
Record server (F : Type) : Type := mk_server {
  last_seq : gmap Z Z;
  duplicate_counts : gmap Z Z;
  gap_counts : gmap Z Z;
  reorder_buffer : gmap Z (list entry);
  device_heartbeats : gmap Z (list F);
  device_status : gmap Z status;
  last_values : gmap Z (list Z)
}.
Arguments mk_server {F}.
Arguments last_seq {F}.
Arguments duplicate_counts {F}.
Arguments gap_counts {F}.
Arguments reorder_buffer {F}.
Arguments device_heartbeats {F}.
Arguments device_status {F}.
Arguments last_values {F}.

(** The server object in its environment. *)
Record world (F : Type) : Type := mk_world {
  self : server F;
  counters : metrics;
  clock : nat -> F;                       (* the successive values of time.time() *)
  clock_reads : nat;
  sock_sent : list (list byte * address); (* datagrams given to sendto *)
  status_csv : list status_row;           (* rows appended to device_status.csv *)
  log_file : list log_row;                (* rows appended to telemetry_log.csv *)
  console : list (console_event F)
}.
Arguments mk_world {F}.
Arguments self {F}.
Arguments counters {F}.
Arguments clock {F}.
Arguments clock_reads {F}.
Arguments sock_sent {F}.
Arguments status_csv {F}.
Arguments log_file {F}.
Arguments console {F}.

(** [TelemetryServer.__init__] then [init_logging]: empty dicts, zeroed
    counters, both CSV files holding their header line only.  The
    constructor reads the clock once, for [metrics['start_time']]. *)
Definition init {F} (clk : nat -> F) : world F :=
  mk_world (mk_server ∅ ∅ ∅ ∅ ∅ ∅ ∅) (mk_metrics 0 0 0 0 0) clk 1%nat [] [] [] [].

Section Methods.
Context {F : Type} {B : Builtins F}.

Definition update_self (f : server F -> server F) : M (world F) unit :=
  modify (fun w => mk_world (f (self w)) (counters w) (clock w) (clock_reads w)
                            (sock_sent w) (status_csv w) (log_file w) (console w)).

Definition update_counters (f : metrics -> metrics) : M (world F) unit :=
  modify (fun w => mk_world (self w) (f (counters w)) (clock w) (clock_reads w)
                            (sock_sent w) (status_csv w) (log_file w) (console w)).

Definition with_last_seq (m : gmap Z Z) (s : server F) : server F :=
  mk_server m (duplicate_counts s) (gap_counts s) (reorder_buffer s)
            (device_heartbeats s) (device_status s) (last_values s).
Definition with_duplicate_counts (m : gmap Z Z) (s : server F) : server F :=
  mk_server (last_seq s) m (gap_counts s) (reorder_buffer s)
            (device_heartbeats s) (device_status s) (last_values s).
Definition with_gap_counts (m : gmap Z Z) (s : server F) : server F :=
  mk_server (last_seq s) (duplicate_counts s) m (reorder_buffer s)
            (device_heartbeats s) (device_status s) (last_values s).
Definition with_reorder_buffer (m : gmap Z (list entry)) (s : server F) : server F :=
  mk_server (last_seq s) (duplicate_counts s) (gap_counts s) m
            (device_heartbeats s) (device_status s) (last_values s).
Definition with_device_heartbeats (m : gmap Z (list F)) (s : server F) : server F :=
  mk_server (last_seq s) (duplicate_counts s) (gap_counts s) (reorder_buffer s)
            m (device_status s) (last_values s).
Definition with_device_status (m : gmap Z status) (s : server F) : server F :=
  mk_server (last_seq s) (duplicate_counts s) (gap_counts s) (reorder_buffer s)
            (device_heartbeats s) m (last_values s).
Definition with_last_values (m : gmap Z (list Z)) (s : server F) : server F :=
  mk_server (last_seq s) (duplicate_counts s) (gap_counts s) (reorder_buffer s)
            (device_heartbeats s) (device_status s) m.

(** [time.time()] *)
Definition time_time : M (world F) F :=
  fun w => (mk_world (self w) (counters w) (clock w) (S (clock_reads w))
                     (sock_sent w) (status_csv w) (log_file w) (console w),
            Ok (clock w (clock_reads w))).

(** [print(...)] *)
Definition say (e : console_event F) : M (world F) unit :=
  modify (fun w => mk_world (self w) (counters w) (clock w) (clock_reads w)
                            (sock_sent w) (status_csv w) (log_file w)
                            (console w ++ [e])).

(** [writer.writerow(...)] on [self.status_csv] opened for appending. *)
Definition write_status_row (r : status_row) : M (world F) unit :=
  modify (fun w => mk_world (self w) (counters w) (clock w) (clock_reads w)
                            (sock_sent w) (status_csv w ++ [r]) (log_file w)
                            (console w)).

(** [writer.writerow(...)] on [self.log_file] opened for appending. *)
Definition write_log_row (r : log_row) : M (world F) unit :=
  modify (fun w => mk_world (self w) (counters w) (clock w) (clock_reads w)
                            (sock_sent w) (status_csv w) (log_file w ++ [r])
                            (console w)).

(** [TelemetryServer.send_ack(self, addr, device_id, seq)] *)
Definition send_ack (addr : address) (device_id seq : Z) : M (world F) unit :=
  let msg := ack_message seq in
  modify (fun w => mk_world (self w) (counters w) (clock w) (clock_reads w)
                            (sock_sent w ++ [(msg, addr)]) (status_csv w)
                            (log_file w) (console w)) ;;;
  say (SentAck device_id seq).

(** [TelemetryServer.detect_seq_state(self, device_id, seq)] *)
Definition detect_seq_state (device_id seq : Z) : M (world F) (Z * Z * Z) :=
  let duplicate_flag := 0 in
  let gap_flag := 0 in
  let gap_count_here := 0 in
  s <- gets self ;;
  match last_seq s !! device_id with
  | None =>
      update_self (fun s => with_last_seq (<[device_id := seq]> (last_seq s)) s) ;;;
      update_self (fun s => with_duplicate_counts (<[device_id := 0]> (duplicate_counts s)) s) ;;;
      update_self (fun s => with_gap_counts (<[device_id := 0]> (gap_counts s)) s) ;;;
      ret (duplicate_flag, gap_flag, gap_count_here)
  | Some last =>
      if seq =? last then
        let duplicate_flag := 1 in
        d <- lift KeyError (dict_add (duplicate_counts s) device_id 1) ;;
        update_self (with_duplicate_counts d) ;;;
        update_counters (fun m =>
          mk_metrics (total_packets m) (total_readings m) (duplicate_count m + 1)
                     (gap_count m) (total_bytes m)) ;;;
        ret (duplicate_flag, gap_flag, gap_count_here)
      else if seq =? Z.land (last + 1) 0xFFFF then
        update_self (fun s => with_last_seq (<[device_id := seq]> (last_seq s)) s) ;;;
        ret (duplicate_flag, gap_flag, gap_count_here)
      else if (Z.land last 0xFFFF <? Z.land seq 0xFFFF) && (last + 1 <? seq) then
        let gap_flag := 1 in
        let gap_count_here := seq - last - 1 in
        g <- lift KeyError (dict_add (gap_counts s) device_id gap_count_here) ;;
        update_self (with_gap_counts g) ;;;
        update_self (fun s => with_last_seq (<[device_id := seq]> (last_seq s)) s) ;;;
        ret (duplicate_flag, gap_flag, gap_count_here)
      else
        say (OutOfOrder device_id seq last) ;;;
        ret (duplicate_flag, gap_flag, gap_count_here)
  end.

(** [TelemetryServer.parse_values(self, payload)] *)
Definition parse_values (payload : list byte) : option (list Z) :=
  if (length payload =? 0)%nat then Some [] else
  foldl (fun values i =>
           vs ← values;
           let chunk := take 4 (drop i payload) in
           if (length chunk <? 4)%nat then Some vs
           else v ← unpack_I chunk; Some (vs ++ [v]))
        (Some []) (py_range 0 (length payload) 4).

(** [intervals = [t2 - t1 for t1, t2 in zip(last_times[:-1], last_times[1:])]] *)
Definition intervals_of (last_times : list F) : list F :=
  (fun p => fsub (snd p) (fst p)) <$>
    zip (take (length last_times - 1) last_times) (drop 1 last_times).

(** Lines 220 to 224 of [handle_heartbeat]: the dynamic interval. *)
Definition avg_interval_of (last_times : list F) : F :=
  if (2 <=? length last_times)%nat then
    let intervals := intervals_of last_times in
    fdiv_int (fsum intervals) (Z.of_nat (length intervals))
  else fone.

(** [TelemetryServer.handle_heartbeat(self, device_id)] *)
Definition handle_heartbeat (device_id : Z) : M (world F) unit :=
  current_time <- time_time ;;
  s <- gets self ;;
  let last_times := default [] (device_heartbeats s !! device_id) in
  let last_times := last_times ++ [current_time] in
  update_self (fun s => with_device_heartbeats
    (<[device_id := drop (length last_times - 10) last_times]> (device_heartbeats s)) s) ;;;
  let avg_interval := avg_interval_of last_times in
  let prev_status := default ONLINE (device_status s !! device_id) in
  offline <-
    (if status_eqb prev_status ONLINE && (2 <=? length last_times)%nat then
       t <- lift IndexError (last_times !! (length last_times - 2)%nat) ;;
       ret (fgt (fsub current_time t) (int_fmul 2 avg_interval))
     else ret false) ;;
  let st := if offline : bool then OFFLINE else ONLINE in
  (if negb (status_eqb prev_status st) || bool_decide (device_status s !! device_id = None) then
     update_self (fun s => with_device_status (<[device_id := st]> (device_status s)) s) ;;;
     write_status_row (mk_status_row device_id (int_of_float current_time) st) ;;;
     say (DeviceStatus device_id st)
   else ret tt) ;;;
  say (HeartbeatReceived device_id avg_interval).

(** Lines 257 to 267 of [flush_reordered]: the body of its loop, for one
    entry of the sorted buffer. *)
Definition log_entry (e : entry) : M (world F) unit :=
  now <- time_time ;;
  let arrival_time := int_of_float now in
  value <-
    (if e_msg_type e =? 1 then
       values <- lift StructError (parse_values (e_payload e)) ;;
       ret (Values values)
     else ret HEARTBEAT) ;;
  if negb (truthy (e_duplicate_flag e)) then
    write_log_row (mk_log_row (e_device_id e) (e_seq e) (e_msg_type e)
                              (e_timestamp e) arrival_time (e_duplicate_flag e)
                              (e_gap_flag e) (e_flags e) value)
  else ret tt.

(** [TelemetryServer.flush_reordered(self, device_id)] *)
Definition flush_reordered (device_id : Z) : M (world F) unit :=
  s <- gets self ;;
  buf <- lift KeyError (reorder_buffer s !! device_id) ;;
  let buf := sort_by e_timestamp buf in
  update_self (fun s => with_reorder_buffer (<[device_id := buf]> (reorder_buffer s)) s) ;;;
  for_each buf log_entry ;;;
  update_self (fun s => with_reorder_buffer (<[device_id := []]> (reorder_buffer s)) s).

(** Lines 157 to 166 of [handle_packet]: store in the reorder buffer and
    flush at five entries. *)
Definition store_reordered (e : entry) : M (world F) unit :=
  let device_id := e_device_id e in
  s <- gets self ;;
  (if bool_decide (reorder_buffer s !! device_id = None) then
     update_self (fun s => with_reorder_buffer (<[device_id := []]> (reorder_buffer s)) s)
   else ret tt) ;;;
  s <- gets self ;;
  buf <- lift KeyError (reorder_buffer s !! device_id) ;;
  update_self (fun s => with_reorder_buffer (<[device_id := buf ++ [e]]> (reorder_buffer s)) s) ;;;
  s <- gets self ;;
  buf <- lift KeyError (reorder_buffer s !! device_id) ;;
  (if (5 <=? length buf)%nat then flush_reordered device_id else ret tt) ;;;
  say BlankLine.

(** Lines 91 to 104 of [handle_packet]: split off and unpack the header. *)
Inductive decoded : Type :=
| TooShort
| Malformed
| Header (version msg_type device_id seq timestamp flags : Z) (payload : list byte).

Definition decode (data : list byte) : decoded :=
  if (length data <? HEADER_SIZE)%nat then TooShort else
  let header := take HEADER_SIZE data in
  let payload := drop HEADER_SIZE data in
  match unpack_header header with
  | Some (raw_byte, device_id, seq, timestamp, flags) =>
      let version := Z.land (Z.shiftr raw_byte 4) 0x0F in
      let msg_type := Z.land raw_byte 0x0F in
      Header version msg_type device_id seq timestamp flags payload
  | None => Malformed
  end.

(** [TelemetryServer.handle_packet(self, data, addr)] *)
Definition handle_packet (data : list byte) (addr : address) : M (world F) unit :=
  match decode data with
  | TooShort => say PacketTooShort
  | Malformed => say ErrorUnpackingHeader
  | Header version msg_type device_id seq timestamp flags payload =>
      update_counters (fun m =>
        mk_metrics (total_packets m + 1) (total_readings m) (duplicate_count m)
                   (gap_count m) (total_bytes m + Z.of_nat (length data))) ;;;
      arrival_ts <- time_time ;;
      say (ReceivedPacket addr arrival_ts version msg_type device_id seq timestamp flags) ;;;
      r <- detect_seq_state device_id seq ;;
      let '(duplicate_flag, gap_flag, gap_count_here) := r in
      if truthy duplicate_flag then say (DuplicatePacket device_id seq) else
      (if truthy gap_flag then
         say (GapDetected device_id gap_count_here) ;;;
         s <- gets self ;;
         match last_values s !! device_id with
         | Some predicted_values => say (PredictedValues device_id predicted_values)
         | None => ret tt
         end ;;;
         update_counters (fun m =>
           mk_metrics (total_packets m) (total_readings m) (duplicate_count m)
                      (gap_count m + gap_count_here) (total_bytes m))
       else ret tt) ;;;
      let store reading_count :=
        store_reordered (mk_entry timestamp device_id seq msg_type payload
                                  duplicate_flag gap_flag flags reading_count) in
      if msg_type =? 1 then
        values <- lift StructError (parse_values payload) ;;
        let reading_count := Z.of_nat (length values) in
        update_self (fun s => with_last_values (<[device_id := values]> (last_values s)) s) ;;;
        update_counters (fun m =>
          mk_metrics (total_packets m) (total_readings m + reading_count)
                     (duplicate_count m) (gap_count m) (total_bytes m)) ;;;
        say (DeviceValues device_id values) ;;;
        (if negb (Z.land flags 0x02 =? 0) then send_ack addr device_id seq else ret tt) ;;;
        store reading_count
      else if msg_type =? 2 then
        handle_heartbeat device_id ;;;
        store 0
      else
        say (UnknownMessageType msg_type device_id)
  end.

End Methods.
End Server.

(** * The reporting loop: [TelemetrySensor.run] *)

(** Further operations on [float], applied by the loop to clock readings and
    to the two intervals.  [sleep_error a] is the exception that
    [time.sleep(a)] raises, if any: it raises [ValueError] for a negative
    argument and for NaN, and rejects an argument too large for the
    platform's time type; [None] when it sleeps and returns. *)
Class Timing (F : Type) : Type := {
  fge : F -> F -> bool;            (* a >= b *)
  fadd : F -> F -> F;              (* a + b *)
  fzero : F;                       (* the int 0 a float is compared with *)
  sleep_error : F -> option exn    (* what time.sleep(a) raises *)
}.

#[global] Instance Q_timing : Timing Q := {|
  fge := fun a b => Qle_bool b a;
  fadd := Qplus;
  fzero := 0%Q;
  sleep_error := fun a => if Qle_bool 0 a then None else Some ValueError
|}.

Module Scheduler.
Import Sensor.

Section Loop.
Context {F : Type} {B : Builtins F} {T : Timing F}.

(** [self.report_interval] and [self.heartbeat_interval]: set by the
    constructor, never written afterwards. *)
Variables (report_interval heartbeat_interval : F).

(** The successive values returned by [self.generate_reading()], which the
    sensor classes draw with [random.randint]. *)
Variable generate : nat -> Z.

(** The loop in its environment: the sensor's world, and how many times
    [generate_reading] has been called. *)
Definition loop_state : Type := world F * nat.

(** A method of the sensor, run by the loop. *)
Definition on_sensor {A} (m : M (world F) A) : M loop_state A :=
  fun st => let r := m (fst st) in ((fst r, snd st), snd r).

(** [self.generate_reading()] *)
Definition generate_reading : M loop_state Z :=
  fun st => ((fst st, S (snd st)), Ok (generate (snd st))).

(** [time.sleep(seconds)] for a float: it raises, or nothing of the sensor
    changes; the time that passes shows in the next clock reading. *)
Definition sleep (seconds : F) : M loop_state unit :=
  match sleep_error seconds with
  | Some e => raise e
  | None => ret tt
  end.

(** [time.sleep(seconds)] for an int: a negative one is a [ValueError].
    (One beyond the range of the platform's time type is rejected too; the
    loops pass [device_id % 3], which is below 3.) *)
Definition sleep_int (seconds : Z) : M loop_state unit :=
  if seconds <? 0 then raise ValueError else ret tt.

(** [TelemetrySensor.should_send_heartbeat(self)] *)
Definition should_send_heartbeat : M (world F) bool :=
  current_time <- time_time ;;
  s <- gets self ;;
  let time_since_last_heartbeat := fsub current_time (last_heartbeat_time s) in
  let time_since_last_data := fsub current_time (last_data_time s) in
  ret (fge time_since_last_heartbeat heartbeat_interval
       && fge time_since_last_data report_interval).

(** The body of the [while] loop of [run] and of [run_continuous].  [send]
    is the class's [send_batch_packet]. *)
Definition run_iteration (send : M (world F) bool) : M loop_state unit :=
  current_time <- on_sensor time_time ;;
  heartbeat_due <- on_sensor should_send_heartbeat ;;
  if heartbeat_due : bool then
    on_sensor send_heartbeat ;;;
    sleep report_interval
  else
    reading <- generate_reading ;;
    sent <- on_sensor (report send reading) ;;
    now <- on_sensor time_time ;;
    let sleep_time := fsub report_interval (fsub now current_time) in
    if fgt sleep_time fzero then sleep sleep_time else ret tt.

(** The [while time.time() < end_time] loop of [run], cut off after
    [turns] turns if it has not ended by then. *)
Fixpoint run_turns (send : M (world F) bool) (end_time : F) (turns : nat)
  : M loop_state unit :=
  match turns with
  | O => ret tt
  | S turns' =>
      now <- on_sensor time_time ;;
      if fgt end_time now then
        run_iteration send ;;;
        run_turns send end_time turns'
      else ret tt
  end.

(** [TelemetrySensor.run(self, duration)], the loop cut off as in
    [run_turns]; the two lines it prints are left out. *)
Definition run (send : M (world F) bool) (duration : F) (turns : nat)
  : M loop_state unit :=
  start_time <- on_sensor time_time ;;
  let end_time := fadd start_time duration in
  s <- on_sensor (gets self) ;;
  sleep_int (device_id s mod 3) ;;;
  run_turns send end_time turns.

(** The first [turns] turns of a [while True] loop. *)
Fixpoint forever_turns (body : M loop_state unit) (turns : nat) : M loop_state unit :=
  match turns with
  | O => ret tt
  | S turns' => body ;;; forever_turns body turns'
  end.

(** [TelemetrySensor.run_continuous(self)], its loop cut off after [turns]
    turns; the line it prints is left out. *)
Definition run_continuous (send : M (world F) bool) (turns : nat)
  : M loop_state unit :=
  s <- on_sensor (gets self) ;;
  sleep_int (device_id s mod 3) ;;;
  forever_turns (run_iteration send) turns.

End Loop.
End Scheduler.

(** [generate_reading] of the three sensors: the ranges of their
    [random.randint]. *)
Definition temperature_reading (v : Z) : Prop := 1500 <= v <= 3500.
Definition humidity_reading (v : Z) : Prop := 2000 <= v <= 8000.
Definition light_reading (v : Z) : Prop := 0 <= v <= 100000.

(** * Reference definitions, in the words of the specification *)
Module Reference.

(** Per-device state of the sequence tracker. *)
Record DeviceSequenceState : Type := mk_state {
  lastSeen : option Z;
  duplicateCount : Z;
  gapCount : Z
}.

Record Classification : Type := mk_class {
  isDuplicate : bool;
  isGap : bool;
  gapSize : Z
}.

(** [classify(deviceId, sequence)], on the state of that device: first
    observation, then the four branches in their order. *)
Definition classify (st : DeviceSequenceState) (sequence : Z)
  : DeviceSequenceState * Classification :=
  match lastSeen st with
  | None =>
      (mk_state (Some sequence) 0 0, mk_class false false 0)
  | Some L =>
      if sequence =? L then
        (mk_state (Some L) (duplicateCount st + 1) (gapCount st),
         mk_class true false 0)
      else if sequence =? (L + 1) mod 65536 then
        (mk_state (Some sequence) (duplicateCount st) (gapCount st),
         mk_class false false 0)
      else if (L <? sequence) && (L + 1 <? sequence) then
        (mk_state (Some sequence) (duplicateCount st)
                  (gapCount st + (sequence - L - 1)),
         mk_class false true (sequence - L - 1))
      else
        (st, mk_class false false 0)
  end.

End Reference.

(** * Notions used in the statements *)

(** The tracker state of one device, read off the server's three dicts. *)
Definition tracker_view {F} (s : Server.server F) (device_id : Z)
  : Reference.DeviceSequenceState :=
  Reference.mk_state (Server.last_seq s !! device_id)
                     (default 0 (Server.duplicate_counts s !! device_id))
                     (default 0 (Server.gap_counts s !! device_id)).

(** [detect_seq_state] creates the three entries of a device together, so a
    device with a last sequence number has both counters. *)
Definition seq_tables_consistent {F} (s : Server.server F) : Prop :=
  forall device_id,
    is_Some (Server.last_seq s !! device_id) ->
    is_Some (Server.duplicate_counts s !! device_id) /\
    is_Some (Server.gap_counts s !! device_id).

(** What [detect_seq_state] and the gap accounting of [handle_packet] leave
    alone: everything but the three sequence dicts, the duplicate and gap
    counters, and the console. *)
Definition tracker_frame {F} (w w' : Server.world F) : Prop :=
  Server.reorder_buffer (Server.self w') = Server.reorder_buffer (Server.self w) /\
  Server.device_heartbeats (Server.self w') = Server.device_heartbeats (Server.self w) /\
  Server.device_status (Server.self w') = Server.device_status (Server.self w) /\
  Server.last_values (Server.self w') = Server.last_values (Server.self w) /\
  Server.sock_sent w' = Server.sock_sent w /\
  Server.status_csv w' = Server.status_csv w /\
  Server.log_file w' = Server.log_file w /\
  Server.clock w' = Server.clock w /\
  Server.clock_reads w' = Server.clock_reads w /\
  Server.total_packets (Server.counters w') = Server.total_packets (Server.counters w) /\
  Server.total_readings (Server.counters w') = Server.total_readings (Server.counters w) /\
  Server.total_bytes (Server.counters w') = Server.total_bytes (Server.counters w).

(** The world [handle_packet] hands to [detect_seq_state]: packet and byte
    counters bumped, one clock reading taken, the "Received Packet" lines
    printed. *)
Definition received {F} (w : Server.world F) (data : list byte) (addr : Server.address)
    (version msg_type device_id seq timestamp flags : Z) : Server.world F :=
  Server.mk_world (Server.self w)
    (Server.mk_metrics (Server.total_packets (Server.counters w) + 1)
                       (Server.total_readings (Server.counters w))
                       (Server.duplicate_count (Server.counters w))
                       (Server.gap_count (Server.counters w))
                       (Server.total_bytes (Server.counters w) + Z.of_nat (length data)))
    (Server.clock w) (S (Server.clock_reads w)) (Server.sock_sent w)
    (Server.status_csv w) (Server.log_file w)
    (Server.console w ++
     [Server.ReceivedPacket addr (Server.clock w (Server.clock_reads w))
                            version msg_type device_id seq timestamp flags]).

(** The 4-byte big-endian words of a payload, a trailing fragment
    dropped: what [parse_values] computes (see [parse_values_words]). *)
Fixpoint words_of (payload : list byte) : list Z :=
  match payload with
  | a :: b :: c :: d :: rest => be_value [a; b; c; d] :: words_of rest
  | _ => []
  end.

(** The closing steps of both [send_batch_packet] methods: stamp
    [last_data_time], clear the batch, return [True]. *)
Definition finish_batch {F} : M (Sensor.world F) bool :=
  now <- Sensor.time_time ;;
  Sensor.update_self (Sensor.with_last_data_time now) ;;;
  Sensor.update_self (Sensor.with_batch_buffer []) ;;;
  ret true.

(** A receive that timed out. *)
Definition is_timeout (ev : Sensor.recv_event) : bool :=
  match ev with Sensor.Timeout => true | Sensor.Datagram _ => false end.

(** Replies to a packet with sequence number [seq] that the retry loop of
    the temperature sensor passes over: a datagram that does not start with
    [ACK], or an [ACK] for another sequence number. *)
Definition ignored_reply {F} {B : Builtins F} (seq : Z) (ev : Sensor.recv_event) : bool :=
  match ev with
  | Sensor.Timeout => false
  | Sensor.Datagram data =>
      if startswith data ACK_bytes then
        match int_of_bytes (drop 4 data) with
        | Some ack_seq => negb (ack_seq =? seq)
        | None => false
        end
      else true
  end.

(** An attempt that got no acknowledgement. *)
Definition unanswered {F} {B : Builtins F} (seq : Z) (ev : Sensor.recv_event) : bool :=
  is_timeout ev || ignored_reply seq ev.

(** The retry numbers of the "No ACK, retry k/3" lines of a console. *)
Definition retry_lines (c : list Sensor.console_event) : list Z :=
  omap (fun e => match e with Sensor.NoAckRetry _ k _ => Some k | _ => None end) c.

(** What the constructor and the reporting loop maintain between two
    passes: the batch size is capped and the buffer is short of it. *)
Definition batch_bounded {F} (w : Sensor.world F) : Prop :=
  Sensor.batch_size (Sensor.self w) <= Sensor.MAX_READINGS_PER_BATCH /\
  Z.of_nat (length (Sensor.batch_buffer (Sensor.self w)))
    < Z.max 1 (Sensor.batch_size (Sensor.self w)).

(** The decision of [handle_heartbeat] for a device whose previous status is
    [prev], whose timestamps (the current one [t] included) are
    [last_times]: the condition of the [if] at line 228. *)
Definition heartbeat_offline {F} {B : Builtins F}
    (prev : Server.status) (last_times : list F) (t : F) : bool :=
  Server.status_eqb prev Server.ONLINE && (2 <=? length last_times)%nat &&
  match last_times !! (length last_times - 2)%nat with
  | Some t2 => fgt (fsub t t2) (int_fmul 2 (Server.avg_interval_of last_times))
  | None => false
  end.

(** Ascending order of keys. *)
Definition key_le {A} (key : A -> Z) (a b : A) : Prop := key a <= key b.

(** The telemetry row [flush_reordered] writes for entry [e] at arrival
    time [arrival_time]. *)
Definition row_of (e : Server.entry) (arrival_time : Z) : Server.log_row :=
  Server.mk_log_row (Server.e_device_id e) (Server.e_seq e) (Server.e_msg_type e)
    (Server.e_timestamp e) arrival_time (Server.e_duplicate_flag e)
    (Server.e_gap_flag e) (Server.e_flags e)
    (if Server.e_msg_type e =? 1 then Server.Values (words_of (Server.e_payload e))
     else Server.HEARTBEAT).

(** The rows the loop of [flush_reordered] writes for the entries [es], the
    clock being at its [n]-th reading: one reading per entry, one row per
    entry that is not a duplicate. *)
Fixpoint rows_from {F} {B : Builtins F} (clk : nat -> F) (n : nat)
    (es : list Server.entry) : list Server.log_row :=
  match es with
  | [] => []
  | e :: rest =>
      (if truthy (Server.e_duplicate_flag e) then []
       else [row_of e (int_of_float (clk n))]) ++ rows_from clk (S n) rest
  end.

(** What holds of the sequence dicts in every state the server reaches: they
    are consistent and the last sequence numbers are 16-bit values. *)
Definition server_invariant {F} (s : Server.server F) : Prop :=
  seq_tables_consistent s /\
  forall device_id L, Server.last_seq s !! device_id = Some L -> 0 <= L < 65536.

(** Same sequence dicts. *)
Definition tracker_kept {F} (s s' : Server.server F) : Prop :=
  Server.last_seq s' = Server.last_seq s /\
  Server.duplicate_counts s' = Server.duplicate_counts s /\
  Server.gap_counts s' = Server.gap_counts s.

(** [queue_worker] on the datagrams queued so far, in their order (the
    timing that [handle_packet_threadsafe] adds around each call left
    out). *)
Definition queue_worker {F} {B : Builtins F}
    (queue : list (list byte * Server.address)) : M (Server.world F) unit :=
  for_each queue (fun item => Server.handle_packet (fst item) (snd item)).

(** [[f(x) for x in xs]], the calls made in order. *)
Fixpoint map_m {S A B} (f : A -> M S B) (xs : list A) : M S (list B) :=
  match xs with
  | [] => ret []
  | x :: rest => y <- f x ;; ys <- map_m f rest ;; ret (y :: ys)
  end.

(** The fields of a decoded header are within their widths. *)
Definition header_in_range (version msg_type device_id seq timestamp flags : Z) : Prop :=
  0 <= version < 16 /\ 0 <= msg_type < 16 /\ 0 <= device_id < 65536 /\
  0 <= seq < 65536 /\ 0 <= timestamp < 2 ^ 32 /\ 0 <= flags < 256.

(** Every device's reorder buffer is short of the flush threshold and
    holds only entries of that device that are not flagged duplicate. *)
Definition buffers_bounded {F} (s : Server.server F) : Prop :=
  forall device_id buf,
    Server.reorder_buffer s !! device_id = Some buf ->
    (length buf < 5)%nat /\
    Forall (fun e => Server.e_device_id e = device_id /\
                     Server.e_duplicate_flag e = 0) buf.

(** Every heartbeat window holds between 1 and 10 timestamps, and a device
    has a window exactly when it has a status. *)
Definition heartbeats_bounded {F} (s : Server.server F) : Prop :=
  forall device_id,
    (forall times, Server.device_heartbeats s !! device_id = Some times ->
                   (1 <= length times <= 10)%nat) /\
    (is_Some (Server.device_heartbeats s !! device_id) <->
     is_Some (Server.device_status s !! device_id)).

(** The reorder buffers, the telemetry log, the heartbeat windows, the
    statuses and the status file are the same in both worlds. *)
Definition books_kept {F} (w w' : Server.world F) : Prop :=
  Server.reorder_buffer (Server.self w') = Server.reorder_buffer (Server.self w) /\
  Server.log_file w' = Server.log_file w /\
  Server.device_heartbeats (Server.self w') = Server.device_heartbeats (Server.self w) /\
  Server.device_status (Server.self w') = Server.device_status (Server.self w) /\
  Server.status_csv w' = Server.status_csv w.

(** The state the server is in once its worker has handled the datagrams
    of [queue], starting from construction under the clock [clk]. *)
Definition reached {F} {B : Builtins F} (clk : nat -> F)
    (queue : list (list byte * Server.address)) : Server.world F :=
  fst (queue_worker queue (Server.init clk)).

(** The readings a datagram carries for the server: those of its payload
    if it is a DATA packet, none otherwise. *)
Definition packet_readings (pkt : list byte) : list Z :=
  match Server.decode pkt with
  | Server.Header _ msg_type _ _ _ _ payload =>
      if msg_type =? 1 then words_of payload else []
  | _ => []
  end.

(** The sequence number in a datagram's header. *)
Definition packet_seq (pkt : list byte) : option Z :=
  match Server.decode pkt with
  | Server.Header _ _ _ seq _ _ _ => Some seq
  | _ => None
  end.

(** The device id in a datagram's header. *)
Definition packet_device (pkt : list byte) : option Z :=
  match Server.decode pkt with
  | Server.Header _ _ device_id _ _ _ _ => Some device_id
  | _ => None
  end.

(** From [w] to [w'] the sensor has put the datagrams [new] on the wire,
    having been given the readings [reported]: nothing but the sensor
    object, the socket, the console and the count of clock readings has
    changed; each datagram is within 200 bytes; the readings on the wire
    followed by those still buffered are the ones buffered before followed
    by the reported ones; the datagrams are numbered consecutively after
    the old sequence number; and each carries the sensor's id. *)
Definition wire_progress {F} (w w' : Sensor.world F) (new : list (list byte))
    (reported : list Z) : Prop :=
  Sensor.clock w' = Sensor.clock w /\
  Sensor.sock_inbox w' = Sensor.sock_inbox w /\
  Sensor.device_id (Sensor.self w') = Sensor.device_id (Sensor.self w) /\
  Sensor.batch_size (Sensor.self w') = Sensor.batch_size (Sensor.self w) /\
  Sensor.sock_sent w' = Sensor.sock_sent w ++ new /\
  Forall (fun pkt => (length pkt <= 200)%nat) new /\
  concat (packet_readings <$> new) ++ Sensor.batch_buffer (Sensor.self w')
  = Sensor.batch_buffer (Sensor.self w) ++ reported /\
  packet_seq <$> new
  = (fun k : nat => Some ((Sensor.seq (Sensor.self w) + 1 + Z.of_nat k) mod 65536))
      <$> seq 0 (length new) /\
  Sensor.seq (Sensor.self w')
  = (Sensor.seq (Sensor.self w) + Z.of_nat (length new)) mod 65536 /\
  Forall (fun pkt => packet_device pkt = Some (Sensor.device_id (Sensor.self w))) new.

(** The sensor as the loop finds it at each turn: batch size capped and
    buffer short of it, readings and header fields within their formats. *)
Definition sensor_ready {F} {B : Builtins F} (w : Sensor.world F) : Prop :=
  batch_bounded w /\
  Forall (fun v => 0 <= v < 2 ^ 32) (Sensor.batch_buffer (Sensor.self w)) /\
  0 <= Sensor.device_id (Sensor.self w) < 65536 /\
  0 <= Sensor.seq (Sensor.self w) < 65536 /\
  forall n, 0 <= int_of_float (Sensor.clock w n) < 2 ^ 32.

(** The values [generate_reading] returned between two states of a loop:
    those numbered from the count of calls in [st] up to that in [st']. *)
Definition taken {F} (generate : nat -> Z) (st st' : Sensor.world F * nat) : list Z :=
  generate <$> seq (snd st) (snd st' - snd st).

(** What the loops need at their start: the sensor as in [sensor_ready],
    readings that fit their four bytes, and [time.sleep] accepting what
    the loop passes to it, which is the report interval, and the report
    interval less the difference of two clock readings where that is
    positive. *)
Definition loop_ready {F} {B : Builtins F} {T : Timing F} (report_interval : F)
    (generate : nat -> Z) (st : Sensor.world F * nat) : Prop :=
  sensor_ready (fst st) /\
  (forall n, 0 <= generate n < 2 ^ 32) /\
  sleep_error report_interval = None /\
  forall i j,
    fgt (fsub report_interval
              (fsub (Sensor.clock (fst st) i) (Sensor.clock (fst st) j))) fzero = true ->
    sleep_error (fsub report_interval
                      (fsub (Sensor.clock (fst st) i) (Sensor.clock (fst st) j))) = None.

(** From [st] to [st'] the loop has made the progress of [wire_progress],
    with the values [generate_reading] returned in between as the readings
    reported, and is ready for its next turn. *)
Definition turn_done {F} {B : Builtins F} {T : Timing F} (report_interval : F)
    (generate : nat -> Z) (st st' : Sensor.world F * nat) (new : list (list byte))
  : Prop :=
  loop_ready report_interval generate st' /\
  wire_progress (fst st) (fst st') new (taken generate st st') /\
  (snd st <= snd st')%nat.

(** The outcome [r] of a reporting loop started in [st] accounts for every
    reading: the loop came to its end without raising; and the readings
    buffered at the start, followed by every value [generate_reading]
    returned during the loop, in the order of the calls, are exactly the
    readings of the datagrams it sent, in the order sent, followed by the
    ones still buffered; and no datagram is longer than 200 bytes. *)
Definition readings_accounted {F} (generate : nat -> Z) (st : Sensor.world F * nat)
    (r : (Sensor.world F * nat) * outcome unit) : Prop :=
  exists new,
    snd r = Ok tt /\
    Sensor.sock_sent (fst (fst r)) = Sensor.sock_sent (fst st) ++ new /\
    (snd st <= snd (fst r))%nat /\
    concat (packet_readings <$> new) ++ Sensor.batch_buffer (Sensor.self (fst (fst r)))
    = Sensor.batch_buffer (Sensor.self (fst st)) ++ taken generate st (fst r) /\
    Forall (fun pkt => (length pkt <= 200)%nat) new.

(** The outcome [r] of a reporting loop started in [st] numbers its
    datagrams consecutively: the loop came to its end without raising, and
    the [k]-th datagram it sent (counting from 0), DATA or HEARTBEAT,
    carries the sequence number [seq + 1 + k] modulo 65536, where [seq] is
    the sensor's counter at the start; the counter ends at the number of
    the last datagram. *)
Definition numbered_consecutively {F} (st : Sensor.world F * nat)
    (r : (Sensor.world F * nat) * outcome unit) : Prop :=
  exists new,
    snd r = Ok tt /\
    Sensor.sock_sent (fst (fst r)) = Sensor.sock_sent (fst st) ++ new /\
    (forall k pkt, new !! k = Some pkt ->
       packet_seq pkt
       = Some ((Sensor.seq (Sensor.self (fst st)) + 1 + Z.of_nat k) mod 65536)) /\
    Sensor.seq (Sensor.self (fst (fst r)))
    = (Sensor.seq (Sensor.self (fst st)) + Z.of_nat (length new)) mod 65536.

(** The datagrams [pkts] as the queue items they become when they arrive
    from [addr], in their order. *)
Definition arriving (addr : Server.address) (pkts : list (list byte))
  : list (list byte * Server.address) :=
  (fun pkt => (pkt, addr)) <$> pkts.

(** The outcome [r] of a reporting loop started in [st], seen from a
    server constructed under the clock [clk] that receives from [addr]
    exactly the datagrams the loop sent, in the order sent: the server
    handles them all without raising; it counts every datagram, no
    duplicate and no gap; and the readings it counts, together with those
    still in the sensor's buffer, are as many as the sensor had buffered
    at the start plus the calls of [generate_reading] during the loop. *)
Definition link_clean {F} {B : Builtins F} (st : Sensor.world F * nat)
    (clk : nat -> F) (addr : Server.address)
    (r : (Sensor.world F * nat) * outcome unit) : Prop :=
  let new := drop (length (Sensor.sock_sent (fst st))) (Sensor.sock_sent (fst (fst r))) in
  let srv := reached clk (arriving addr new) in
  snd r = Ok tt /\
  snd (queue_worker (arriving addr new) (Server.init clk)) = Ok tt /\
  Server.total_packets (Server.counters srv) = Z.of_nat (length new) /\
  Server.duplicate_count (Server.counters srv) = 0 /\
  Server.gap_count (Server.counters srv) = 0 /\
  (snd st <= snd (fst r))%nat /\
  Server.total_readings (Server.counters srv)
  + Z.of_nat (length (Sensor.batch_buffer (Sensor.self (fst (fst r)))))
  = Z.of_nat (length (Sensor.batch_buffer (Sensor.self (fst st))))
    + Z.of_nat (snd (fst r) - snd st).

(** * Sample inputs *)

(** A server that has seen [last] from device [device_id], and nothing else. *)
Definition tracking {F} (clk : nat -> F) (device_id last : Z) : Server.world F :=
  Server.mk_world
    (Server.mk_server {[device_id := last]} {[device_id := 0]} {[device_id := 0]}
                      ∅ ∅ ∅ ∅)
    (Server.mk_metrics 0 0 0 0 0) clk 1%nat [] [] [] [].

(** The readings of the round-trip example. *)
Definition sample_readings : list Z := [1500; 2200; 3600].

(** A freshly constructed sensor. *)
Definition sample_sensor : Sensor.world Q :=
  Sensor.init 1001 3 (ticking_clock 1700000000) [].

(** A clock that stands still at [t] seconds. *)
Definition frozen_clock (t : Z) : nat -> Q := fun _ => inject_Z t.

(** A freshly constructed sensor under a clock that stands still. *)
Definition frozen_sensor : Sensor.world Q :=
  Sensor.init 1001 3 (frozen_clock 1700000000) [].

(** A temperature sensor holding a batch with one high reading, whose first
    three receives time out. *)
Definition hot_sensor : Sensor.world Q :=
  Sensor.mk_world (Sensor.mk_sensor 1001 3 [1500; 2200; 3600] 41 1700000000%Q 1700000001%Q)
                  (ticking_clock 1700000000) 2%nat []
                  [Sensor.Timeout; Sensor.Timeout; Sensor.Timeout] [].

(** The same sensor with a batch below the threshold. *)
Definition cool_sensor : Sensor.world Q :=
  Sensor.mk_world (Sensor.mk_sensor 1001 3 [1500; 2200; 3499] 41 1700000000%Q 1700000001%Q)
                  (ticking_clock 1700000000) 2%nat [] [] [].

(** Fifty readings, 2000 to 2049. *)
Definition fifty_readings : list Z := seqZ 2000 50.

(** A sensor of the base class whose buffer holds them. *)
Definition overfull_sensor : Sensor.world Q :=
  Sensor.mk_world (Sensor.mk_sensor 1002 47 fifty_readings 7 1700000000%Q 1700000001%Q)
                  (ticking_clock 1700000000) 2%nat [] [] [].

(** Heartbeat times 0, 10, 11, ..., 18 seconds. *)
Definition ten_heartbeats : list Q := inject_Z <$> (0 :: seqZ 10 9).

(** A server whose window for device 7 is full with them, status ONLINE;
    every clock reading is 19. *)
Definition busy_server : Server.world Q :=
  Server.mk_world
    (Server.mk_server ∅ ∅ ∅ ∅ {[7 := ten_heartbeats]} {[7 := Server.ONLINE]} ∅)
    (Server.mk_metrics 0 0 0 0 0) (fun _ => inject_Z 19) 1%nat [] [] [] [].

(** Five heartbeats one second apart, a sixth three seconds later, a
    seventh one second after that.  (Reading 0 of the clock is the one the
    constructor takes.) *)
Definition heartbeat_times : nat -> Q :=
  fun n => inject_Z (nth n [0; 1; 2; 3; 4; 5; 8; 9] 9).

(** The server after the first [n] of these heartbeats of device 7. *)
Definition after_heartbeats (n : nat) : Server.world Q :=
  Nat.iter n (fun w => fst (Server.handle_heartbeat 7 w)) (Server.init heartbeat_times).

(** A heartbeat entry of device 7. *)
Definition pending_entry (timestamp seq duplicate_flag : Z) : Server.entry :=
  Server.mk_entry timestamp 7 seq 2 [] duplicate_flag 0 0 0.

(** A server holding four pending entries of device 7 with shuffled send
    times, two of them equal, one flagged as a duplicate. *)
Definition shuffled_server : Server.world Q :=
  Server.mk_world
    (Server.mk_server ∅ ∅ ∅
       {[7 := [pending_entry 50 1 0; pending_entry 30 2 0; pending_entry 40 3 1;
               pending_entry 30 4 0]]} ∅ ∅ ∅)
    (Server.mk_metrics 0 0 0 0 0) (ticking_clock 100) 1%nat [] [] [] [].

(** A datagram of message type 3 from device 7 with sequence number 15 and
    one reading as payload, with the ack-requested flag set. *)
Definition unknown_type_packet : list byte :=
  be_bytes 1 0x13 ++ be_bytes 2 7 ++ be_bytes 2 15 ++ be_bytes 4 1700000000
  ++ be_bytes 1 0x02 ++ be_bytes 4 2500.

(** Where it comes from. *)
Definition sample_address : Server.address := ("192.0.2.1"%string, 50000).

(** A DATA datagram from device 7 with sequence number 15, one reading
    (2500) and the ack-requested flag set. *)
Definition ack_data_packet : list byte :=
  be_bytes 1 0x11 ++ be_bytes 2 7 ++ be_bytes 2 15 ++ be_bytes 4 1700000000
  ++ be_bytes 1 0x02 ++ be_bytes 4 2500.

(** A HEARTBEAT datagram from device 7 with sequence number 15, the
    ack-requested flag set and four stray bytes of payload. *)
Definition heartbeat_packet : list byte :=
  be_bytes 1 0x12 ++ be_bytes 2 7 ++ be_bytes 2 15 ++ be_bytes 4 1700000000
  ++ be_bytes 1 0x02 ++ be_bytes 4 2500.

(** Readings of a humidity sensor, by call of [generate_reading]: 2100,
    7950, 2000, 8000, 4321, 6000, 2500, and 5000 from then on. *)
Definition humidity_supply (n : nat) : Z :=
  nth n [2100; 7950; 2000; 8000; 4321; 6000; 2500] 5000.

(** A temperature sensor one reading short of a batch of three, with a
    high reading buffered and no reply to come but timeouts. *)
Definition warming_sensor : Sensor.world Q :=
  Sensor.mk_world (Sensor.mk_sensor 1001 3 [1500; 3600] 41 1700000000%Q 1700000001%Q)
                  (ticking_clock 1700000000) 2%nat []
                  [Sensor.Timeout; Sensor.Timeout; Sensor.Timeout] [].

(** The sensor of [hot_sensor] with the server's acknowledgement of packet
    42 waiting on its socket. *)
Definition acknowledged_sensor : Sensor.world Q :=
  Sensor.mk_world (Sensor.self hot_sensor) (Sensor.clock hot_sensor) 2%nat []
                  [Sensor.Datagram (ack_message 42)] [].

(** The same sensor with a reply that reads [ACK ok]. *)
Definition confused_sensor : Sensor.world Q :=
  Sensor.mk_world (Sensor.self hot_sensor) (Sensor.clock hot_sensor) 2%nat []
                  [Sensor.Datagram (ACK_bytes ++ [x20; x6f; x6b]); Sensor.Timeout] [].

(** A temperature sensor with a full batch just below the maximum, nothing
    on its socket. *)
Definition mild_sensor : Sensor.world Q :=
  Sensor.mk_world (Sensor.mk_sensor 1001 3 [1500; 3499; 2200] 41 1700000000%Q 1700000001%Q)
                  (ticking_clock 1700000000) 2%nat [] [] [].

(** * Properties *)

(** ** Byte-level lemmas *)

Lemma Z_of_byte_range b : 0 <= Z_of_byte b < 256.
Proof.
  unfold Z_of_byte. pose proof (Byte.to_N_bounded b). lia.
Qed.

Lemma Z_of_byte_of_Z z : Z_of_byte (byte_of_Z z) = z mod 256.
Proof.
  unfold Z_of_byte, byte_of_Z.
  pose proof (Z.mod_pos_bound z 256 ltac:(lia)) as Hz.
  destruct (Byte.of_N (Z.to_N (z mod 256))) as [b|] eqn:E.
  - apply Byte.to_of_N in E. rewrite E. lia.
  - apply Byte.of_N_None_iff in E. lia.
Qed.

Lemma length_be_bytes n v : length (be_bytes n v) = n.
Proof. induction n; simpl; congruence. Qed.

Lemma be_value_be_bytes n v : be_value (be_bytes n v) = v mod 2 ^ (8 * Z.of_nat n).
Proof.
  induction n as [|k IH].
  - simpl. now rewrite Z.mod_1_r.
  - cbn [be_bytes be_value]. rewrite length_be_bytes, IH, Z_of_byte_of_Z.
    rewrite Z.shiftr_div_pow2 by lia.
    replace (8 * Z.of_nat (S k)) with (8 * Z.of_nat k + 8) by lia.
    rewrite Z.pow_add_r by lia.
    change (2 ^ 8) with 256.
    rewrite (Z.rem_mul_r v (2 ^ (8 * Z.of_nat k)) 256) by lia.
    lia.
Qed.

Lemma be_value_range bs : 0 <= be_value bs < 2 ^ (8 * Z.of_nat (length bs)).
Proof.
  induction bs as [|b rest IH]; [simpl; lia|].
  cbn [be_value length].
  pose proof (Z_of_byte_range b).
  replace (8 * Z.of_nat (S (length rest))) with (8 + 8 * Z.of_nat (length rest)) by lia.
  rewrite Z.pow_add_r by lia. change (2 ^ 8) with 256.
  nia.
Qed.

Lemma pack_uint_Some n v :
  0 <= v < 2 ^ (8 * Z.of_nat n) -> pack_uint n v = Some (be_bytes n v).
Proof.
  intros Hv. unfold pack_uint.
  destruct (Z.leb_spec 0 v); [|lia]. destruct (Z.ltb_spec v (2 ^ (8 * Z.of_nat n))); [|lia].
  reflexivity.
Qed.

Lemma pack_uint_inv n v bs :
  pack_uint n v = Some bs ->
  0 <= v < 2 ^ (8 * Z.of_nat n) /\ bs = be_bytes n v.
Proof.
  unfold pack_uint.
  destruct (Z.leb_spec 0 v); destruct (Z.ltb_spec v (2 ^ (8 * Z.of_nat n)));
    simpl; intros E; inversion E; subst; auto.
Qed.

Lemma be_value_be_bytes_small n v :
  0 <= v < 2 ^ (8 * Z.of_nat n) -> be_value (be_bytes n v) = v.
Proof. intros Hv. rewrite be_value_be_bytes. now apply Z.mod_small. Qed.

Lemma land_0xFFFF z : Z.land z 0xFFFF = z mod 65536.
Proof. change 0xFFFF with (Z.ones 16). now rewrite Z.land_ones by lia. Qed.

(** ** Sequence tracker *)
Section SequenceTracker.
Context {F : Type} {B : Builtins F}.
Import Server.

Lemma seq_tables_consistent_init (clk : nat -> F) :
  seq_tables_consistent (self (init clk)).
Proof. intros d [x Hx]. simpl in Hx. by rewrite lookup_empty in Hx. Qed.

(** C1. On a device whose last sequence number (if any) and whose incoming
    sequence number are 16-bit values, [detect_seq_state] returns, and
    what it returns and the device's state afterwards are those of the
    reference classifier [Reference.classify]: first observation, duplicate,
    in-order advance (wrap-around included), gap, stale.  Other devices are
    untouched and the dicts stay consistent. *)
Theorem detect_seq_state_refines_classify (w : world F) (device_id seq : Z) :
  seq_tables_consistent (self w) ->
  0 <= seq < 65536 ->
  (forall L, last_seq (self w) !! device_id = Some L -> 0 <= L < 65536) ->
  exists w' duplicate_flag gap_flag gap_count_here,
    detect_seq_state device_id seq w
      = (w', Ok (duplicate_flag, gap_flag, gap_count_here)) /\
    (tracker_view (self w') device_id,
     Reference.mk_class (truthy duplicate_flag) (truthy gap_flag) gap_count_here)
      = Reference.classify (tracker_view (self w) device_id) seq /\
    (forall other, other <> device_id ->
       tracker_view (self w') other = tracker_view (self w) other) /\
    seq_tables_consistent (self w').
Proof.
  intros Hcons Hseq Hlast.
  unfold detect_seq_state, bind, gets.
  destruct (last_seq (self w) !! device_id) as [L|] eqn:EL.
  - specialize (Hlast L eq_refl).
    destruct (Hcons device_id) as [[dc Hdc] [gc Hgc]]; [by rewrite EL|].
    rewrite !land_0xFFFF, (Z.mod_small L), (Z.mod_small seq) by lia.
    destruct (seq =? L) eqn:E1; [|destruct (seq =? (L + 1) mod 65536) eqn:E2;
      [|destruct ((L <? seq) && (L + 1 <? seq)) eqn:E3]].
    + (* duplicate *)
      unfold dict_add. rewrite Hdc. simpl.
      eexists _, _, _, _. split; [reflexivity|]. simpl.
      split; [|split].
      * unfold Reference.classify, tracker_view. simpl.
        rewrite EL, E1, Hdc, lookup_insert_eq.
        apply Z.eqb_eq in E1 as ->. reflexivity.
      * intros o Ho. unfold tracker_view. simpl. by rewrite lookup_insert_ne.
      * intros d Hd. simpl in *. specialize (Hcons d Hd). split; [|tauto].
        destruct (decide (d = device_id)) as [->|Hd'].
        -- rewrite lookup_insert_eq. eauto.
        -- rewrite lookup_insert_ne by done. tauto.
    + (* in order *)
      simpl. eexists _, _, _, _. split; [reflexivity|]. simpl.
      split; [|split].
      * unfold Reference.classify, tracker_view. simpl.
        rewrite EL, E1, E2, lookup_insert_eq. reflexivity.
      * intros o Ho. unfold tracker_view. simpl. by rewrite lookup_insert_ne.
      * intros d Hd. simpl in *. apply Hcons.
        destruct (decide (d = device_id)) as [->|Hd']; [by rewrite EL|].
        by rewrite lookup_insert_ne in Hd.
    + (* gap *)
      unfold dict_add. rewrite Hgc. simpl.
      eexists _, _, _, _. split; [reflexivity|]. simpl.
      split; [|split].
      * unfold Reference.classify, tracker_view. simpl.
        rewrite EL, E1, E2, E3, !lookup_insert_eq, Hdc, Hgc. reflexivity.
      * intros o Ho. unfold tracker_view. simpl. by rewrite !lookup_insert_ne.
      * intros d Hd. simpl in *.
        destruct (decide (d = device_id)) as [->|Hd'].
        -- rewrite lookup_insert_eq. split; eauto.
        -- rewrite lookup_insert_ne in Hd by done.
           rewrite lookup_insert_ne by done. by apply Hcons.
    + (* stale *)
      simpl. eexists _, _, _, _. split; [reflexivity|]. simpl.
      split; [|split]; [|done|done].
      unfold Reference.classify, tracker_view. simpl.
      rewrite EL, E1, E2, E3. reflexivity.
  - (* first observation *)
    simpl. eexists _, _, _, _. split; [reflexivity|]. simpl.
    split; [|split].
    + unfold Reference.classify, tracker_view. simpl.
      rewrite EL, !lookup_insert_eq. reflexivity.
    + intros o Ho. unfold tracker_view. simpl. by rewrite !lookup_insert_ne.
    + intros d Hd. simpl in *.
      destruct (decide (d = device_id)) as [->|Hd'].
      * rewrite !lookup_insert_eq. split; eauto.
      * rewrite lookup_insert_ne in Hd by done.
        rewrite !lookup_insert_ne by done. by apply Hcons.
Qed.

End SequenceTracker.

Lemma seq_tables_consistent_tracking {F} (clk : nat -> F) (device_id last : Z) :
  seq_tables_consistent (Server.self (tracking clk device_id last)).
Proof.
  intros d [x Hx]. simpl in *.
  apply lookup_singleton_Some in Hx as [-> _].
  rewrite !lookup_singleton_eq. eauto.
Qed.

(** Wrap-around: after 65535, sequence number 0 is the in-order successor. *)
Lemma detect_seq_state_refines_classify_witness :
  let w := tracking (ticking_clock 0) 7 65535 in
  seq_tables_consistent (Server.self w) /\
  0 <= 0 < 65536 /\
  (forall L, Server.last_seq (Server.self w) !! 7 = Some L -> 0 <= L < 65536) /\
  exists w' duplicate_flag gap_flag gap_count_here,
    Server.detect_seq_state (F := Q) 7 0 w
      = (w', Ok (duplicate_flag, gap_flag, gap_count_here)) /\
    (tracker_view (Server.self w') 7,
     Reference.mk_class (truthy duplicate_flag) (truthy gap_flag) gap_count_here)
      = Reference.classify (tracker_view (Server.self w) 7) 0 /\
    (forall other, other <> 7 ->
       tracker_view (Server.self w') other = tracker_view (Server.self w) other) /\
    seq_tables_consistent (Server.self w').
Proof.
  intros w.
  assert (Hc : seq_tables_consistent (Server.self w))
    by apply seq_tables_consistent_tracking.
  assert (Hl : forall L, Server.last_seq (Server.self w) !! 7 = Some L -> 0 <= L < 65536).
  { intros L HL. vm_compute in HL. inversion HL. lia. }
  split; [exact Hc|]. split; [lia|]. split; [exact Hl|].
  apply (detect_seq_state_refines_classify w 7 0 Hc); [lia|exact Hl].
Defined.

Example classify_wraparound :
  Reference.classify (Reference.mk_state (Some 65535) 0 0) 0
  = (Reference.mk_state (Some 0) 0 0, Reference.mk_class false false 0).
Proof. reflexivity. Qed.

Example classify_jump_10_15 :
  Reference.classify (Reference.mk_state (Some 10) 0 0) 15
  = (Reference.mk_state (Some 15) 0 4, Reference.mk_class false true 4).
Proof. reflexivity. Qed.

Example detect_seq_state_jump_10_15 :
  let r := Server.detect_seq_state (F := Q) 7 15 (tracking (ticking_clock 0) 7 10) in
  snd r = Ok (0, 1, 4) /\
  Server.last_seq (Server.self (fst r)) !! 7 = Some 15 /\
  Server.gap_counts (Server.self (fst r)) !! 7 = Some 4.
Proof. vm_compute. auto. Qed.

Example detect_seq_state_resend :
  let r := Server.detect_seq_state (F := Q) 7 10 (tracking (ticking_clock 0) 7 10) in
  snd r = Ok (1, 0, 0) /\
  Server.last_seq (Server.self (fst r)) !! 7 = Some 10 /\
  Server.duplicate_counts (Server.self (fst r)) !! 7 = Some 1.
Proof. vm_compute. auto. Qed.

Example detect_seq_state_stale :
  let w := tracking (ticking_clock 0) 7 10 in
  let r := Server.detect_seq_state (F := Q) 7 4 w in
  snd r = Ok (0, 0, 0) /\ Server.self (fst r) = Server.self w.
Proof. vm_compute. auto. Qed.

(** ** Packet codec *)

Lemma payload_join_Some readings :
  Forall (fun v => 0 <= v < 2 ^ 32) readings ->
  payload_join readings = Some (concat (be_bytes 4 <$> readings)).
Proof.
  induction 1 as [|v rest Hv _ IH]; [reflexivity|].
  cbn [payload_join fmap list_fmap concat]. unfold pack_I.
  rewrite (pack_uint_Some 4 v) by (simpl; lia). simpl. rewrite IH. reflexivity.
Qed.

Lemma payload_loop_from acc readings :
  foldl (fun payload v => p ← payload; b ← pack_I v; Some (p ++ b)) (Some acc) readings
  = p ← payload_join readings; Some (acc ++ p).
Proof.
  revert acc. induction readings as [|v rest IH]; intros acc.
  - simpl. by rewrite app_nil_r.
  - cbn [foldl payload_join]. destruct (pack_I v) as [b|]; simpl.
    + rewrite IH. destruct (payload_join rest); simpl; [by rewrite app_assoc|done].
    + clear IH. induction rest; [done|]. simpl. assumption.
Qed.

Lemma payload_loop_join readings : payload_loop readings = payload_join readings.
Proof.
  unfold payload_loop. rewrite payload_loop_from.
  by destruct (payload_join readings).
Qed.

Lemma length_payload readings payload :
  payload_join readings = Some payload ->
  length payload = (4 * length readings)%nat.
Proof.
  revert payload. induction readings as [|v rest IH]; intros payload.
  - simpl. by intros [= <-].
  - cbn [payload_join]. unfold pack_I.
    destruct (pack_uint 4 v) as [b|] eqn:Eb; [|done]. simpl.
    destruct (payload_join rest) as [p|]; [|done]. simpl. intros [= <-].
    apply pack_uint_inv in Eb as [_ ->].
    rewrite length_app, length_be_bytes, (IH p eq_refl). simpl. lia.
Qed.

Lemma words_of_app_word v rest :
  0 <= v < 2 ^ 32 -> words_of (be_bytes 4 v ++ rest) = v :: words_of rest.
Proof.
  intros Hv. change (words_of (be_bytes 4 v ++ rest))
    with (be_value (be_bytes 4 v) :: words_of rest).
  rewrite be_value_be_bytes_small by (simpl; lia). reflexivity.
Qed.

Lemma words_of_payload readings :
  Forall (fun v => 0 <= v < 2 ^ 32) readings ->
  words_of (concat (be_bytes 4 <$> readings)) = readings.
Proof.
  induction 1 as [|v rest Hv _ IH]; [reflexivity|].
  cbn [fmap list_fmap concat]. rewrite words_of_app_word, IH by assumption.
  reflexivity.
Qed.

Lemma range_from_empty fuel start stop step :
  (stop <= start)%nat -> range_from fuel start stop step = [].
Proof.
  intros Hle. destruct fuel; [reflexivity|]. simpl.
  destruct (Nat.ltb_spec start stop); [lia|reflexivity].
Qed.

Lemma parse_values_loop fuel pre rest acc :
  (length rest <= fuel)%nat ->
  foldl (fun values i =>
           vs ← values;
           let chunk := take 4 (drop i (pre ++ rest)) in
           if (length chunk <? 4)%nat then Some vs
           else v ← unpack_I chunk; Some (vs ++ [v]))
        (Some acc) (range_from fuel (length pre) (length pre + length rest) 4)
  = Some (acc ++ words_of rest).
Proof.
  revert pre rest acc. induction fuel as [|fuel IH]; intros pre rest acc Hfuel.
  - destruct rest; [|simpl in Hfuel; lia]. simpl. by rewrite app_nil_r.
  - cbn [range_from].
    destruct (Nat.ltb_spec (length pre) (length pre + length rest)) as [Hlt|Hge].
    + cbn [foldl mbind option_bind]. rewrite drop_app_length.
      destruct rest as [|a [|b [|c [|d rest']]]]; try (simpl in Hlt; lia).
      * simpl. rewrite range_from_empty by (simpl; lia). simpl. by rewrite app_nil_r.
      * simpl. rewrite range_from_empty by (simpl; lia). simpl. by rewrite app_nil_r.
      * simpl. rewrite range_from_empty by (simpl; lia). simpl. by rewrite app_nil_r.
      * change (take 4 (a :: b :: c :: d :: rest')) with [a; b; c; d].
        cbn [length Nat.ltb Nat.leb unpack_I Nat.eqb mbind option_bind].
        specialize (IH (pre ++ [a; b; c; d]) rest' (acc ++ [be_value [a; b; c; d]])).
        rewrite length_app in IH. cbn [length] in IH, Hfuel |- *.
        replace (length pre + S (S (S (S (length rest')))))%nat
          with (length pre + 4 + length rest')%nat by lia.
        rewrite <- (app_assoc pre [a; b; c; d] rest') in IH. cbn [app] in IH.
        etrans; [exact (IH ltac:(lia))|]. rewrite <- app_assoc. reflexivity.
    + destruct rest; [|simpl in Hge; lia]. simpl. by rewrite app_nil_r.
Qed.

Lemma parse_values_words payload :
  Server.parse_values payload = Some (words_of payload).
Proof.
  unfold Server.parse_values.
  destruct payload as [|b rest] eqn:E; [reflexivity|]. rewrite <- E.
  replace (length payload =? 0)%nat with false by (subst; reflexivity).
  unfold py_range.
  exact (parse_values_loop (length payload) [] payload [] (le_n _)).
Qed.

Lemma length_pack_header raw device_id seq timestamp flags header :
  pack_header raw device_id seq timestamp flags = Some header ->
  length header = HEADER_SIZE.
Proof.
  unfold pack_header. intros Hp.
  destruct (pack_uint 1 raw) as [b0|] eqn:E0; [|done].
  destruct (pack_uint 2 device_id) as [b1|] eqn:E1; [|done].
  destruct (pack_uint 2 seq) as [b2|] eqn:E2; [|done].
  destruct (pack_uint 4 timestamp) as [b3|] eqn:E3; [|done].
  destruct (pack_uint 1 flags) as [b4|] eqn:E4; [|done].
  simpl in Hp. injection Hp as <-.
  apply pack_uint_inv in E0 as [_ ->], E1 as [_ ->], E2 as [_ ->],
    E3 as [_ ->], E4 as [_ ->].
  rewrite !length_app, !length_be_bytes. reflexivity.
Qed.

Lemma unpack_pack_header raw device_id seq timestamp flags header :
  pack_header raw device_id seq timestamp flags = Some header ->
  unpack_header header = Some (raw, device_id, seq, timestamp, flags).
Proof.
  intros Hp. pose proof (length_pack_header _ _ _ _ _ _ Hp) as Hlen.
  unfold unpack_header. rewrite Hlen, Nat.eqb_refl.
  unfold pack_header in Hp.
  destruct (pack_uint 1 raw) as [b0|] eqn:E0; [|done].
  destruct (pack_uint 2 device_id) as [b1|] eqn:E1; [|done].
  destruct (pack_uint 2 seq) as [b2|] eqn:E2; [|done].
  destruct (pack_uint 4 timestamp) as [b3|] eqn:E3; [|done].
  destruct (pack_uint 1 flags) as [b4|] eqn:E4; [|done].
  simpl in Hp. injection Hp as <-.
  apply pack_uint_inv in E0 as [R0 ->], E1 as [R1 ->], E2 as [R2 ->],
    E3 as [R3 ->], E4 as [R4 ->].
  rewrite (take_app_length' (be_bytes 1 raw)) by reflexivity.
  rewrite (drop_app_length' (be_bytes 1 raw)) by reflexivity.
  rewrite (take_app_length' (be_bytes 2 device_id)) by reflexivity.
  replace (drop 3 (be_bytes 1 raw ++ be_bytes 2 device_id ++ be_bytes 2 seq
                   ++ be_bytes 4 timestamp ++ be_bytes 1 flags))
    with (be_bytes 2 seq ++ be_bytes 4 timestamp ++ be_bytes 1 flags) by reflexivity.
  rewrite (take_app_length' (be_bytes 2 seq)) by reflexivity.
  replace (drop 5 (be_bytes 1 raw ++ be_bytes 2 device_id ++ be_bytes 2 seq
                   ++ be_bytes 4 timestamp ++ be_bytes 1 flags))
    with (be_bytes 4 timestamp ++ be_bytes 1 flags) by reflexivity.
  rewrite (take_app_length' (be_bytes 4 timestamp)) by reflexivity.
  replace (drop 9 (be_bytes 1 raw ++ be_bytes 2 device_id ++ be_bytes 2 seq
                   ++ be_bytes 4 timestamp ++ be_bytes 1 flags))
    with (be_bytes 1 flags) by reflexivity.
  rewrite (take_ge (be_bytes 1 flags)) by (simpl; lia).
  rewrite !be_value_be_bytes_small by assumption.
  reflexivity.
Qed.

Lemma decode_packed raw device_id seq timestamp flags header payload :
  pack_header raw device_id seq timestamp flags = Some header ->
  Server.decode (header ++ payload)
  = Server.Header (Z.land (Z.shiftr raw 4) 0x0F) (Z.land raw 0x0F)
                  device_id seq timestamp flags payload.
Proof.
  intros Hp. pose proof (length_pack_header _ _ _ _ _ _ Hp) as Hlen.
  unfold Server.decode.
  rewrite length_app, Hlen.
  replace (HEADER_SIZE + length payload <? HEADER_SIZE)%nat with false
    by (symmetry; apply Nat.ltb_ge; lia).
  rewrite (take_app_length' header) by done.
  rewrite (drop_app_length' header) by done.
  rewrite (unpack_pack_header _ _ _ _ _ _ Hp). reflexivity.
Qed.

Section Codec.
Context {F : Type} {B : Builtins F}.
Import Sensor.

(** The first byte [build_packet] packs: version 1 in the high nibble, the
    message type in the low one. *)
Lemma raw_byte_range msg_type :
  0 <= Z.land (Z.lor (Z.shiftl (Z.land 1 0x0F) 4) (Z.land msg_type 0x0F)) 0xFF < 2 ^ 8.
Proof.
  change 0xFF with (Z.ones 8). rewrite Z.land_ones by lia.
  apply Z.mod_pos_bound. lia.
Qed.

(** What [build_packet] does when every header field fits its format. *)
Lemma build_packet_ok (w : world F) msg_type payload flags :
  0 <= device_id (self w) < 65536 ->
  0 <= int_of_float (clock w (clock_reads w)) < 2 ^ 32 ->
  0 <= flags < 256 ->
  let seq' := Z.land (seq (self w) + 1) 0xFFFF in
  let total_size := Z.of_nat HEADER_SIZE + Z.of_nat (length payload) in
  exists header,
    pack_header
      (Z.land (Z.lor (Z.shiftl (Z.land 1 0x0F) 4) (Z.land msg_type 0x0F)) 0xFF)
      (device_id (self w)) seq' (int_of_float (clock w (clock_reads w))) flags
      = Some header /\
    build_packet msg_type payload flags w
    = (mk_world (with_seq seq' (self w)) (clock w) (S (clock_reads w))
                (sock_sent w) (sock_inbox w)
                (console w ++ if 200 <? total_size
                              then [PacketSizeWarning total_size] else []),
       Ok (header ++ payload)).
Proof.
  intros Hdev Hts Hflags seq' total_size.
  assert (Hseq : 0 <= seq' < 2 ^ 16).
  { unfold seq'. rewrite land_0xFFFF. apply Z.mod_pos_bound. lia. }
  pose proof (raw_byte_range msg_type) as Hraw.
  set (raw := Z.land (Z.lor (Z.shiftl (Z.land 1 0x0F) 4) (Z.land msg_type 0x0F)) 0xFF) in *.
  set (ts := int_of_float (clock w (clock_reads w))) in *.
  assert (Hp : pack_header raw (device_id (self w)) seq' ts flags
               = Some (be_bytes 1 raw ++ be_bytes 2 (device_id (self w)) ++
                       be_bytes 2 seq' ++ be_bytes 4 ts ++ be_bytes 1 flags)).
  { unfold pack_header.
    rewrite (pack_uint_Some 1 raw) by exact Hraw.
    rewrite (pack_uint_Some 2 (device_id (self w))) by (simpl; lia).
    rewrite (pack_uint_Some 2 seq') by exact Hseq.
    rewrite (pack_uint_Some 4 ts) by (simpl; lia).
    rewrite (pack_uint_Some 1 flags) by (simpl; lia).
    reflexivity. }
  eexists. split; [exact Hp|].
  unfold build_packet, bind, time_time, update_self, modify, gets, lift.
  cbn [self with_seq device_id seq].
  fold seq' raw ts. rewrite Hp. cbn [ret].
  rewrite !length_app, !length_be_bytes.
  change (Z.of_nat (1 + (2 + (2 + (4 + 1)))) + Z.of_nat (length payload))
    with total_size.
  destruct (200 <? total_size); cbn; rewrite ?app_nil_r; reflexivity.
Qed.

(** C2. Packing readings below [2^32] as the sensors do, framing them with
    [build_packet] as a DATA packet under any flags byte, then decoding the
    header and parsing the payload as [handle_packet] does, gives back the
    readings and the flags (and message type 1, the sensor's id, its new
    sequence number and the timestamp). *)
Theorem data_packet_roundtrip (w : world F) (readings : list Z) (flags : Z) :
  Forall (fun v => 0 <= v < 2 ^ 32) readings ->
  (4 * length readings <= 190)%nat ->
  0 <= flags < 256 ->
  0 <= device_id (self w) < 65536 ->
  0 <= int_of_float (clock w (clock_reads w)) < 2 ^ 32 ->
  exists payload pkt w',
    payload_join readings = Some payload /\
    payload_loop readings = Some payload /\
    build_packet 1 payload flags w = (w', Ok pkt) /\
    (length pkt <= 200)%nat /\
    exists payload',
      Server.decode pkt
      = Server.Header 1 1 (device_id (self w)) (seq (self w'))
                      (int_of_float (clock w (clock_reads w))) flags payload' /\
      Server.parse_values payload' = Some readings.
Proof.
  intros Hr Hfit Hflags Hdev Hts.
  pose proof (payload_join_Some readings Hr) as Hjoin.
  destruct (build_packet_ok w 1 (concat (be_bytes 4 <$> readings)) flags Hdev Hts Hflags)
    as (header & Hpack & Hbuild).
  eexists _, _, _. split; [exact Hjoin|].
  split; [by rewrite payload_loop_join|].
  split; [exact Hbuild|].
  split.
  - rewrite length_app, (length_pack_header _ _ _ _ _ _ Hpack),
      (length_payload _ _ Hjoin). unfold HEADER_SIZE. lia.
  - eexists. split.
    + rewrite (decode_packed _ _ _ _ _ _ _ Hpack). reflexivity.
    + rewrite parse_values_words, words_of_payload by assumption. reflexivity.
Qed.

End Codec.

(** The readings [[1500, 2200, 3600]] with the ack-requested flag. *)
Lemma data_packet_roundtrip_witness :
  let w := sample_sensor in
  Forall (fun v => 0 <= v < 2 ^ 32) sample_readings /\
  (4 * length sample_readings <= 190)%nat /\
  0 <= 2 < 256 /\
  0 <= Sensor.device_id (Sensor.self w) < 65536 /\
  0 <= int_of_float (Sensor.clock w (Sensor.clock_reads w)) < 2 ^ 32 /\
  exists payload pkt w',
    payload_join sample_readings = Some payload /\
    payload_loop sample_readings = Some payload /\
    Sensor.build_packet 1 payload 2 w = (w', Ok pkt) /\
    (length pkt <= 200)%nat /\
    exists payload',
      Server.decode pkt
      = Server.Header 1 1 (Sensor.device_id (Sensor.self w)) (Sensor.seq (Sensor.self w'))
                      (int_of_float (Sensor.clock w (Sensor.clock_reads w))) 2 payload' /\
      Server.parse_values payload' = Some sample_readings.
Proof.
  intros w.
  assert (H1 : Forall (fun v => 0 <= v < 2 ^ 32) sample_readings)
    by (repeat constructor; simpl; lia).
  assert (H2 : (4 * length sample_readings <= 190)%nat) by (simpl; lia).
  assert (H3 : 0 <= 2 < 256) by lia.
  assert (H4 : 0 <= Sensor.device_id (Sensor.self w) < 65536) by (simpl; lia).
  assert (H5 : 0 <= int_of_float (Sensor.clock w (Sensor.clock_reads w)) < 2 ^ 32)
    by (vm_compute; split; [discriminate|reflexivity]).
  repeat (split; [assumption|]).
  exact (data_packet_roundtrip (B := Q_builtins) w sample_readings 2 H1 H2 H3 H4 H5).
Defined.

Example sample_packet_decodes :
  let r := Sensor.build_packet (B := Q_builtins) 1
             (default [] (payload_join sample_readings)) 3 sample_sensor in
  match snd r with
  | Ok pkt =>
      Server.decode pkt
      = Server.Header 1 1 1001 1 1700000002 3 (default [] (payload_join sample_readings))
      /\ Server.parse_values (drop HEADER_SIZE pkt) = Some [1500; 2200; 3600]
  | _ => False
  end.
Proof. vm_compute. auto. Qed.

(** ** The encoder and the sequence counter *)
Section Encoder.
Context {F : Type} {B : Builtins F}.
Import Sensor.

(** C9, as the code has it.  [build_packet] takes no sequence argument: each
    call, whether it returns or raises, sets the sensor's counter to
    [(seq + 1) & 0xFFFF], reads the clock once, leaves every other attribute
    of the sensor alone and sends and receives nothing; the packet it returns
    carries the new counter value.  The only exception it raises is
    [struct.error]. *)
Theorem build_packet_advances_seq (w : world F) (msg_type : Z)
    (payload : list byte) (flags : Z) :
  let r := build_packet msg_type payload flags w in
  self (fst r) = with_seq (Z.land (seq (self w) + 1) 0xFFFF) (self w) /\
  clock_reads (fst r) = S (clock_reads w) /\
  sock_sent (fst r) = sock_sent w /\
  sock_inbox (fst r) = sock_inbox w /\
  match snd r with
  | Ok pkt =>
      exists version type device_id timestamp,
        Server.decode pkt
        = Server.Header version type device_id (seq (self (fst r))) timestamp
                        flags payload
  | Raise e => e = StructError
  | Blocked => False
  end.
Proof.
  unfold build_packet, bind, time_time, update_self, modify, gets, lift.
  cbn [self with_seq device_id seq fst snd].
  destruct (pack_header _ _ _ _ flags) as [header|] eqn:Hp.
  - cbn [ret].
    destruct (200 <? _); cbn [say modify fst snd self clock_reads sock_sent
                                sock_inbox ret with_seq seq];
      (repeat (split; [reflexivity|]));
      rewrite (decode_packed _ _ _ _ _ _ _ Hp); eauto.
  - cbn. auto.
Qed.

End Encoder.

(** C9, as stated, fails: one call of [build_packet] on a fresh sensor
    changes the sensor (its counter goes from 0 to 1), and a second call
    with the same arguments, at the same clock reading, changes it again
    and yields a packet with another sequence number. *)
Lemma build_packet_not_pure :
  let r1 := Sensor.build_packet 2 [] 0 frozen_sensor in
  let r2 := Sensor.build_packet 2 [] 0 (fst r1) in
  Sensor.self (fst r1) <> Sensor.self frozen_sensor /\
  Sensor.seq (Sensor.self frozen_sensor) = 0 /\
  Sensor.seq (Sensor.self (fst r1)) = 1 /\
  Sensor.seq (Sensor.self (fst r2)) = 2 /\
  (exists pkt1 pkt2,
     snd r1 = Ok pkt1 /\ snd r2 = Ok pkt2 /\ pkt1 <> pkt2 /\
     Server.decode pkt1 = Server.Header 1 2 1001 1 1700000000 0 [] /\
     Server.decode pkt2 = Server.Header 1 2 1001 2 1700000000 0 []).
Proof.
  vm_compute. split; [intros E; discriminate E|].
  repeat (split; [reflexivity|]).
  eexists _, _. repeat (split; [reflexivity|]).
  split; [intros E; discriminate E|]. split; reflexivity.
Qed.

(** ** Acknowledged delivery on the temperature sensor *)
Section ReliableDelivery.
Context {F : Type} {B : Builtins F}.
Import Sensor.

Lemma retry_lines_app c1 c2 :
  retry_lines (c1 ++ c2) = retry_lines c1 ++ retry_lines c2.
Proof. apply omap_app. Qed.

(** One turn of the retry loop. *)
Lemma ack_loop_eq fuel pkt retries ack_received (w : world F) :
  ack_loop (S fuel) pkt retries ack_received w =
  if (retries <? MAX_RETRIES) && negb ack_received then
    let s := self w in
    let c := console w ++
             [BatchDataAwaitingAck (device_id s) (seq s) (batch_buffer s)] in
    let after rest c :=
      mk_world s (clock w) (clock_reads w) (sock_sent w ++ [pkt]) rest c in
    match sock_inbox w with
    | [] => (after [] c, Blocked)
    | Timeout :: rest =>
        ack_loop fuel pkt (retries + 1) ack_received
          (after rest (c ++ [NoAckRetry (device_id s) (retries + 1) MAX_RETRIES]))
    | Datagram data :: rest =>
        if startswith data ACK_bytes then
          match int_of_bytes (drop 4 data) with
          | None => (after rest c, Raise ValueError)
          | Some ack_seq =>
              if ack_seq =? seq s
              then ack_loop fuel pkt retries true
                     (after rest (c ++ [AckReceived (device_id s) (seq s)]))
              else ack_loop fuel pkt retries ack_received (after rest c)
          end
        else ack_loop fuel pkt retries ack_received (after rest c)
    end
  else (w, Ok tt).
Proof.
  cbn [ack_loop].
  destruct ((retries <? MAX_RETRIES) && negb ack_received); [|reflexivity].
  unfold bind, sendto, gets, say, modify, recvfrom.
  cbn [self clock clock_reads sock_sent sock_inbox console].
  destruct (sock_inbox w) as [|[|data] rest]; [reflexivity|reflexivity|].
  destruct (startswith data ACK_bytes); [|reflexivity].
  destruct (int_of_bytes (drop 4 data)) as [ack_seq|]; [|reflexivity].
  cbn [lift ret]. destruct (ack_seq =? seq (self w)); reflexivity.
Qed.

(** The fuel is no restriction: any two amounts above the number of events
    in the inbox give the same run, so [Blocked] only ever means that the
    inbox ran empty. *)
Lemma ack_loop_fuel_irrelevant fuel1 : forall fuel2 pkt retries ack_received (w : world F),
  (length (sock_inbox w) < fuel1)%nat ->
  (length (sock_inbox w) < fuel2)%nat ->
  ack_loop fuel1 pkt retries ack_received w = ack_loop fuel2 pkt retries ack_received w.
Proof.
  induction fuel1 as [|fuel1 IH]; intros fuel2 pkt retries ack_received w H1 H2; [lia|].
  destruct fuel2 as [|fuel2]; [lia|].
  rewrite !ack_loop_eq.
  destruct ((retries <? MAX_RETRIES) && negb ack_received); [|reflexivity].
  cbv zeta.
  destruct (sock_inbox w) as [|[|data] rest]; [reflexivity| |]; cbn [length] in H1, H2.
  - apply IH; cbn [sock_inbox]; lia.
  - destruct (startswith data ACK_bytes); [|apply IH; cbn [sock_inbox]; lia].
    destruct (int_of_bytes (drop 4 data)) as [ack_seq|]; [|reflexivity].
    destruct (ack_seq =? seq (self w)); apply IH; cbn [sock_inbox]; lia.
Qed.

(** Whatever arrives, the retry loop only ever sends [pkt], and it leaves
    the sensor object and the clock alone. *)
Lemma ack_loop_sends fuel pkt retries ack_received (w : world F) :
  self (fst (ack_loop fuel pkt retries ack_received w)) = self w /\
  clock (fst (ack_loop fuel pkt retries ack_received w)) = clock w /\
  clock_reads (fst (ack_loop fuel pkt retries ack_received w)) = clock_reads w /\
  exists n,
    sock_sent (fst (ack_loop fuel pkt retries ack_received w))
    = sock_sent w ++ replicate n pkt /\
    (retries < MAX_RETRIES -> ack_received = false -> (0 < fuel)%nat -> (0 < n)%nat).
Proof.
  revert retries ack_received w.
  induction fuel as [|fuel IH]; intros retries ack_received w.
  - cbn [ack_loop].
    destruct ((retries <? MAX_RETRIES) && negb ack_received) eqn:Ec; cbn;
      repeat (split; [reflexivity|]); exists 0%nat; rewrite app_nil_r;
      (split; [done|lia]).
  - rewrite ack_loop_eq.
    destruct ((retries <? MAX_RETRIES) && negb ack_received) eqn:Ec.
    + cbv zeta.
      assert (Hstep : forall retries' ack' rest c,
        let w1 := mk_world (self w) (clock w) (clock_reads w)
                           (sock_sent w ++ [pkt]) rest c in
        self (fst (ack_loop fuel pkt retries' ack' w1)) = self w /\
        clock (fst (ack_loop fuel pkt retries' ack' w1)) = clock w /\
        clock_reads (fst (ack_loop fuel pkt retries' ack' w1)) = clock_reads w /\
        exists n, sock_sent (fst (ack_loop fuel pkt retries' ack' w1))
                  = sock_sent w ++ replicate n pkt /\
          (retries < MAX_RETRIES -> ack_received = false -> (0 < S fuel)%nat -> (0 < n)%nat)).
      { intros retries' ack' rest c w1.
        destruct (IH retries' ack' w1) as (H1 & H2 & H3 & n & H4 & _).
        repeat (split; [assumption|]).
        exists (S n). split; [|lia].
        rewrite H4. cbn [w1 sock_sent replicate]. by rewrite <- app_assoc. }
      destruct (sock_inbox w) as [|[|data] rest].
      * cbn. repeat (split; [reflexivity|]). exists 1%nat. split; [done|lia].
      * apply Hstep.
      * destruct (startswith data ACK_bytes); [|apply Hstep].
        destruct (int_of_bytes (drop 4 data)) as [ack_seq|].
        -- destruct (ack_seq =? seq (self w)); apply Hstep.
        -- cbn. repeat (split; [reflexivity|]). exists 1%nat. split; [done|lia].
    + cbn. repeat (split; [reflexivity|]). exists 0%nat. rewrite app_nil_r. split; [done|].
      intros Hr -> _. apply andb_false_iff in Ec as [Ec|Ec]; [|done].
      apply Z.ltb_ge in Ec. lia.
Qed.

(** A run of unanswered attempts that ends with the third timeout: the loop
    sends [pkt] once per attempt, counts the timeouts up to [MAX_RETRIES],
    and returns. *)
Lemma ack_loop_exhausts evs : forall fuel pkt retries (w : world F) rest,
  sock_inbox w = evs ++ Timeout :: rest ->
  Forall (fun ev => unanswered (seq (self w)) ev = true) evs ->
  retries + Z.of_nat (length (filter (fun ev => is_timeout ev = true) evs)) = 2 ->
  (length evs < fuel)%nat ->
  exists c,
    ack_loop fuel pkt retries false w
    = (mk_world (self w) (clock w) (clock_reads w)
                (sock_sent w ++ replicate (S (length evs)) pkt) rest c, Ok tt) /\
    retry_lines c = retry_lines (console w) ++ seqZ (retries + 1) (3 - retries).
Proof.
  induction evs as [|ev evs IH]; intros fuel pkt retries w rest Hin Hun Hcount Hfuel.
  - simpl in Hcount. assert (retries = 2) as -> by lia.
    destruct fuel as [|fuel]; [simpl in Hfuel; lia|].
    rewrite ack_loop_eq. cbn [Z.ltb Z.compare MAX_RETRIES andb negb Pos.compare Pos.compare_cont].
    cbv zeta. rewrite Hin. cbn [app].
    destruct fuel; cbn [ack_loop]; cbn [Z.add Z.ltb Z.compare MAX_RETRIES andb negb
      Pos.compare Pos.compare_cont Pos.add Pos.succ];
      (eexists; split; [reflexivity|]);
      rewrite !retry_lines_app; cbn; by rewrite app_nil_r.
  - destruct fuel as [|fuel]; [simpl in Hfuel; lia|].
    apply Forall_cons in Hun as [Hev Hun].
    rewrite ack_loop_eq.
    assert (Hr : (retries <? MAX_RETRIES) = true).
    { apply Z.ltb_lt. unfold MAX_RETRIES. lia. }
    rewrite Hr. cbn [andb negb]. cbv zeta. rewrite Hin. cbn [app].
    destruct ev as [|data].
    + (* a timeout *)
      rewrite filter_cons_True in Hcount by reflexivity. cbn [length] in Hcount, Hfuel.
      match goal with |- context [ack_loop fuel pkt ?r false ?w1] =>
        destruct (IH fuel pkt r w1 rest) as (c & Hrun & Hc);
          [reflexivity|exact Hun|lia|lia|]
      end.
      rewrite Hrun. cbn [self clock clock_reads sock_sent console] in *.
      eexists. split.
      * rewrite <- app_assoc. reflexivity.
      * rewrite Hc, !retry_lines_app.
        rewrite (seqZ_cons (retries + 1) (3 - retries)) by lia.
        cbn [retry_lines omap list_omap app]. rewrite app_nil_r, <- app_assoc.
        cbn [app]. repeat f_equal; lia.
    + (* a reply that is passed over *)
      rewrite filter_cons_False in Hcount by (simpl; congruence).
      cbn [length] in Hfuel.
      unfold unanswered, ignored_reply in Hev. cbn [is_timeout orb] in Hev.
      assert (Hnext : exists c,
        ack_loop fuel pkt retries false
          (mk_world (self w) (clock w) (clock_reads w) (sock_sent w ++ [pkt])
             (evs ++ Timeout :: rest)
             (console w ++ [BatchDataAwaitingAck (device_id (self w)) (seq (self w))
                                                 (batch_buffer (self w))]))
        = (mk_world (self w) (clock w) (clock_reads w)
                    (sock_sent w ++ replicate (S (length (Datagram data :: evs))) pkt)
                    rest c, Ok tt) /\
        retry_lines c = retry_lines (console w) ++ seqZ (retries + 1) (3 - retries)).
      { match goal with |- context [ack_loop fuel pkt ?r false ?w1] =>
          destruct (IH fuel pkt r w1 rest) as (c & Hrun & Hc);
            [reflexivity|exact Hun|lia|lia|]
        end.
        rewrite Hrun. cbn [self clock clock_reads sock_sent console] in *.
        eexists. split.
        - rewrite <- app_assoc. reflexivity.
        - rewrite Hc, !retry_lines_app. cbn [retry_lines omap list_omap app].
          by rewrite app_nil_r. }
      destruct (startswith data ACK_bytes); [|exact Hnext].
      destruct (int_of_bytes (drop 4 data)) as [ack_seq|]; [|discriminate Hev].
      destruct (ack_seq =? seq (self w)); [discriminate Hev|exact Hnext].
Qed.

Lemma finish_batch_after {A} (m : M (world F) A) (w : world F) :
  let r := (m ;;; finish_batch) w in
  sock_sent (fst r) = sock_sent (fst (m w)) /\
  sock_inbox (fst r) = sock_inbox (fst (m w)) /\
  seq (self (fst r)) = seq (self (fst (m w))) /\
  match snd (m w) with
  | Ok _ => snd r = Ok true /\ batch_buffer (self (fst r)) = [] /\
            console (fst r) = console (fst (m w))
  | Raise e => snd r = Raise e
  | Blocked => snd r = Blocked
  end.
Proof.
  unfold bind at 1. destruct (m w) as [w1 [a|e|]]; cbn; repeat split; reflexivity.
Qed.

(** [TemperatureSensor.send_batch_packet] on a full batch whose readings and
    header fields fit their formats: the packet is built once, then either
    the retry loop or a single send runs, then the batch is cleared. *)
Lemma temperature_send_full (w : world F) :
  batch_size (self w) <= Z.of_nat (length (batch_buffer (self w))) ->
  Forall (fun v => 0 <= v < 2 ^ 32) (batch_buffer (self w)) ->
  0 <= device_id (self w) < 65536 ->
  0 <= int_of_float (clock w (clock_reads w)) < 2 ^ 32 ->
  let buffer := batch_buffer (self w) in
  let need_ack := existsb (fun v => HIGH_TEMP_THRESHOLD <=? v) buffer in
  let flags := if need_ack then 0x02 else 0x00 in
  let seq' := Z.land (seq (self w) + 1) 0xFFFF in
  exists pkt payload w1,
    build_packet 1 payload flags w = (w1, Ok pkt) /\
    self w1 = with_seq seq' (self w) /\
    sock_sent w1 = sock_sent w /\ sock_inbox w1 = sock_inbox w /\
    retry_lines (console w1) = retry_lines (console w) /\
    Server.decode pkt
    = Server.Header 1 1 (device_id (self w)) seq'
                    (int_of_float (clock w (clock_reads w))) flags payload /\
    Server.parse_values payload = Some buffer /\
    length pkt = (HEADER_SIZE + 4 * length buffer)%nat /\
    temperature_send_batch_packet w
    = ((if need_ack
        then ack_loop (S (length (sock_inbox w1))) pkt 0 false
        else sendto pkt ;;;
             say (BatchData (device_id (self w)) seq' buffer)) ;;;
       finish_batch) w1.
Proof.
  intros Hfull Hr Hdev Hts buffer need_ack flags seq'.
  pose proof (payload_join_Some buffer Hr) as Hjoin.
  assert (Hflags : 0 <= flags < 256) by (unfold flags; destruct need_ack; lia).
  destruct (build_packet_ok w 1 (concat (be_bytes 4 <$> buffer)) flags Hdev Hts Hflags)
    as (header & Hpack & Hbuild).
  eexists _, _, _. split; [exact Hbuild|].
  split; [reflexivity|]. split; [reflexivity|]. split; [reflexivity|].
  split; [|split; [|split; [|split]]].
  - cbn [console]. rewrite retry_lines_app.
    destruct (200 <? _); cbn; by rewrite app_nil_r.
  - rewrite (decode_packed _ _ _ _ _ _ _ Hpack). reflexivity.
  - rewrite parse_values_words, words_of_payload by assumption. reflexivity.
  - rewrite length_app, (length_pack_header _ _ _ _ _ _ Hpack),
      (length_payload _ _ Hjoin). reflexivity.
  - unfold temperature_send_batch_packet.
    unfold bind at 1. unfold gets at 1.
    replace (Z.of_nat (length (batch_buffer (self w))) <? batch_size (self w))
      with false by (symmetry; apply Z.ltb_ge; lia).
    fold buffer. rewrite Hjoin. unfold lift at 1.
    unfold bind at 1. unfold ret at 1.
    fold need_ack. fold flags.
    unfold bind at 1. rewrite Hbuild.
    unfold bind at 1.
    destruct need_ack.
    + unfold bind at 1. unfold get at 1. reflexivity.
    + reflexivity.
Qed.

(** C7. On a full batch the temperature sensor needs an ACK exactly when
    some reading is at least 3500; every datagram the call sends is one and
    the same DATA packet carrying the batch, whose flags byte has bit 1
    (value 0x02) set exactly when an ACK is needed; and a batch with every
    reading below 3500 is sent once, without any receive, and reported as
    sent. *)
Theorem ack_requested_iff_high_reading (w : world F) :
  batch_size (self w) <= Z.of_nat (length (batch_buffer (self w))) ->
  Forall (fun v => 0 <= v < 2 ^ 32) (batch_buffer (self w)) ->
  0 <= device_id (self w) < 65536 ->
  0 <= int_of_float (clock w (clock_reads w)) < 2 ^ 32 ->
  let buffer := batch_buffer (self w) in
  let need_ack := existsb (fun v => HIGH_TEMP_THRESHOLD <=? v) buffer in
  let r := temperature_send_batch_packet w in
  (need_ack = true <-> exists v, v ∈ buffer /\ 3500 <= v) /\
  exists pkt version type device_id seq' timestamp flags payload n,
    sock_sent (fst r) = sock_sent w ++ replicate (S n) pkt /\
    Server.decode pkt
    = Server.Header version type device_id seq' timestamp flags payload /\
    type = 1 /\
    Server.parse_values payload = Some buffer /\
    Z.testbit flags 1 = need_ack /\
    negb (Z.land flags 0x02 =? 0) = need_ack /\
    (need_ack = false ->
       n = 0%nat /\ snd r = Ok true /\ sock_inbox (fst r) = sock_inbox w /\
       batch_buffer (self (fst r)) = []).
Proof.
  intros Hfull Hr Hdev Hts buffer need_ack r.
  split.
  - unfold need_ack. rewrite existsb_exists. unfold HIGH_TEMP_THRESHOLD.
    split; intros (v & Hv & Hge); exists v.
    + apply list_elem_of_In in Hv. split; [done|]. by apply Z.leb_le.
    + apply list_elem_of_In in Hv. split; [done|]. by apply Z.leb_le.
  - destruct (temperature_send_full w Hfull Hr Hdev Hts)
      as (pkt & payload & w1 & Hbuild & Hself & Hsent & Hinbox & _ & Hdec & Hparse & _ & Hrun).
    fold buffer need_ack in Hdec, Hparse, Hrun.
    unfold r. rewrite Hrun. clear Hrun.
    destruct need_ack eqn:Eneed.
    + pose proof (finish_batch_after (ack_loop (S (length (sock_inbox w1))) pkt 0 false) w1)
        as (Hs & _).
      destruct (ack_loop_sends (S (length (sock_inbox w1))) pkt 0 false w1)
        as (_ & _ & _ & n & Hn & Hpos).
      specialize (Hpos ltac:(unfold MAX_RETRIES; lia) eq_refl ltac:(lia)).
      destruct n as [|n]; [lia|].
      eexists pkt, _, _, _, _, _, _, _, n.
      split; [by rewrite Hs, Hn, Hsent|].
      split; [exact Hdec|]. split; [reflexivity|]. split; [exact Hparse|].
      split; [reflexivity|]. split; [reflexivity|]. discriminate.
    + eexists pkt, _, _, _, _, _, _, _, 0%nat.
      split; [cbn; by rewrite Hsent|].
      split; [exact Hdec|]. split; [reflexivity|]. split; [exact Hparse|].
      split; [reflexivity|]. split; [reflexivity|].
      intros _. split; [reflexivity|]. cbn. rewrite Hinbox. auto.
Qed.

(** C6. On a full batch with a reading of at least 3500, when the third
    timeout arrives with no matching ACK before it (replies that are not
    the matching ACK are passed over and do not count as retries), the
    sensor has built one packet, sent that very packet once per attempt,
    counted retries 1, 2, 3, and then returns [True] with the batch cleared
    and the sequence counter advanced once. *)
Theorem retries_exhaust_softly (w : world F) (evs rest : list recv_event) :
  batch_size (self w) <= Z.of_nat (length (batch_buffer (self w))) ->
  Forall (fun v => 0 <= v < 2 ^ 32) (batch_buffer (self w)) ->
  0 <= device_id (self w) < 65536 ->
  0 <= int_of_float (clock w (clock_reads w)) < 2 ^ 32 ->
  existsb (fun v => HIGH_TEMP_THRESHOLD <=? v) (batch_buffer (self w)) = true ->
  let seq' := Z.land (seq (self w) + 1) 0xFFFF in
  sock_inbox w = evs ++ Timeout :: rest ->
  Forall (fun ev => unanswered seq' ev = true) evs ->
  length (filter (fun ev => is_timeout ev = true) evs) = 2%nat ->
  exists pkt payload w',
    temperature_send_batch_packet w = (w', Ok true) /\
    sock_sent w' = sock_sent w ++ replicate (S (length evs)) pkt /\
    Server.decode pkt
    = Server.Header 1 1 (device_id (self w)) seq'
                    (int_of_float (clock w (clock_reads w))) 0x02 payload /\
    Server.parse_values payload = Some (batch_buffer (self w)) /\
    seq (self w') = seq' /\
    batch_buffer (self w') = [] /\
    sock_inbox w' = rest /\
    retry_lines (console w') = retry_lines (console w) ++ [1; 2; 3].
Proof.
  intros Hfull Hr Hdev Hts Hneed seq' Hin Hun Hcount.
  destruct (temperature_send_full w Hfull Hr Hdev Hts)
    as (pkt & payload & w1 & Hbuild & Hself & Hsent & Hinbox & Hcons & Hdec & Hparse & _ & Hrun).
  rewrite Hneed in Hdec, Hrun. fold seq' in Hdec, Hself.
  destruct (ack_loop_exhausts evs (S (length (sock_inbox w1))) pkt 0 w1 rest)
    as (c & Hloop & Hc).
  { by rewrite Hinbox. }
  { by rewrite Hself. }
  { rewrite Hcount. lia. }
  { rewrite Hinbox, Hin, length_app. lia. }
  pose proof (finish_batch_after (ack_loop (S (length (sock_inbox w1))) pkt 0 false) w1)
    as (Hs & Hi & Hq & Hout).
  rewrite Hloop in Hs, Hi, Hq, Hout. cbn [fst snd sock_sent sock_inbox self console] in *.
  destruct Hout as (Hret & Hbuf & Hcon).
  rewrite <- Hrun in Hs, Hi, Hq, Hret, Hbuf, Hcon.
  destruct (temperature_send_batch_packet w) as [w' o]. cbn [fst snd] in *. subst o.
  exists pkt, payload, w'. split; [reflexivity|].
  split; [by rewrite Hs, Hsent|].
  split; [exact Hdec|]. split; [exact Hparse|].
  split; [by rewrite Hq, Hself|].
  split; [exact Hbuf|]. split; [exact Hi|].
  by rewrite Hcon, Hc, Hcons.
Qed.

End ReliableDelivery.

(** A batch below the threshold goes out once, flag clear. *)
Lemma ack_requested_iff_high_reading_witness :
  let w := cool_sensor in
  let buffer := Sensor.batch_buffer (Sensor.self w) in
  let need_ack := existsb (fun v => Sensor.HIGH_TEMP_THRESHOLD <=? v) buffer in
  let r := Sensor.temperature_send_batch_packet w in
  Sensor.batch_size (Sensor.self w) <= Z.of_nat (length buffer) /\
  Forall (fun v => 0 <= v < 2 ^ 32) buffer /\
  0 <= Sensor.device_id (Sensor.self w) < 65536 /\
  0 <= int_of_float (Sensor.clock w (Sensor.clock_reads w)) < 2 ^ 32 /\
  (need_ack = true <-> exists v, v ∈ buffer /\ 3500 <= v) /\
  exists pkt version type device_id seq' timestamp flags payload n,
    Sensor.sock_sent (fst r) = Sensor.sock_sent w ++ replicate (S n) pkt /\
    Server.decode pkt
    = Server.Header version type device_id seq' timestamp flags payload /\
    type = 1 /\
    Server.parse_values payload = Some buffer /\
    Z.testbit flags 1 = need_ack /\
    negb (Z.land flags 0x02 =? 0) = need_ack /\
    (need_ack = false ->
       n = 0%nat /\ snd r = Ok true /\
       Sensor.sock_inbox (fst r) = Sensor.sock_inbox w /\
       Sensor.batch_buffer (Sensor.self (fst r)) = []).
Proof.
  intros w buffer need_ack r.
  assert (H1 : Sensor.batch_size (Sensor.self w) <= Z.of_nat (length buffer))
    by (simpl; lia).
  assert (H2 : Forall (fun v => 0 <= v < 2 ^ 32) buffer)
    by (repeat constructor; simpl; lia).
  assert (H3 : 0 <= Sensor.device_id (Sensor.self w) < 65536) by (simpl; lia).
  assert (H4 : 0 <= int_of_float (Sensor.clock w (Sensor.clock_reads w)) < 2 ^ 32)
    by (vm_compute; split; [discriminate|reflexivity]).
  repeat (split; [assumption|]).
  exact (ack_requested_iff_high_reading w H1 H2 H3 H4).
Defined.

(** Three timeouts in a row: three sends of the one packet, then success. *)
Lemma retries_exhaust_softly_witness :
  let w := hot_sensor in
  let evs := [Sensor.Timeout; Sensor.Timeout] in
  let seq' := Z.land (Sensor.seq (Sensor.self w) + 1) 0xFFFF in
  Sensor.batch_size (Sensor.self w) <= Z.of_nat (length (Sensor.batch_buffer (Sensor.self w))) /\
  Forall (fun v => 0 <= v < 2 ^ 32) (Sensor.batch_buffer (Sensor.self w)) /\
  0 <= Sensor.device_id (Sensor.self w) < 65536 /\
  0 <= int_of_float (Sensor.clock w (Sensor.clock_reads w)) < 2 ^ 32 /\
  existsb (fun v => Sensor.HIGH_TEMP_THRESHOLD <=? v)
          (Sensor.batch_buffer (Sensor.self w)) = true /\
  Sensor.sock_inbox w = evs ++ Sensor.Timeout :: [] /\
  Forall (fun ev => unanswered seq' ev = true) evs /\
  length (filter (fun ev => is_timeout ev = true) evs) = 2%nat /\
  exists pkt payload w',
    Sensor.temperature_send_batch_packet w = (w', Ok true) /\
    Sensor.sock_sent w' = Sensor.sock_sent w ++ replicate (S (length evs)) pkt /\
    Server.decode pkt
    = Server.Header 1 1 (Sensor.device_id (Sensor.self w)) seq'
                    (int_of_float (Sensor.clock w (Sensor.clock_reads w))) 0x02 payload /\
    Server.parse_values payload = Some (Sensor.batch_buffer (Sensor.self w)) /\
    Sensor.seq (Sensor.self w') = seq' /\
    Sensor.batch_buffer (Sensor.self w') = [] /\
    Sensor.sock_inbox w' = [] /\
    retry_lines (Sensor.console w') = retry_lines (Sensor.console w) ++ [1; 2; 3].
Proof.
  intros w evs seq'.
  assert (H1 : Sensor.batch_size (Sensor.self w)
               <= Z.of_nat (length (Sensor.batch_buffer (Sensor.self w))))
    by (simpl; lia).
  assert (H2 : Forall (fun v => 0 <= v < 2 ^ 32) (Sensor.batch_buffer (Sensor.self w)))
    by (repeat constructor; simpl; lia).
  assert (H3 : 0 <= Sensor.device_id (Sensor.self w) < 65536) by (simpl; lia).
  assert (H4 : 0 <= int_of_float (Sensor.clock w (Sensor.clock_reads w)) < 2 ^ 32)
    by (vm_compute; split; [discriminate|reflexivity]).
  assert (H5 : existsb (fun v => Sensor.HIGH_TEMP_THRESHOLD <=? v)
                       (Sensor.batch_buffer (Sensor.self w)) = true) by reflexivity.
  assert (H6 : Sensor.sock_inbox w = evs ++ Sensor.Timeout :: []) by reflexivity.
  assert (H7 : Forall (fun ev => unanswered seq' ev = true) evs)
    by (repeat constructor).
  assert (H8 : length (filter (fun ev => is_timeout ev = true) evs) = 2%nat)
    by reflexivity.
  repeat (split; [assumption|]).
  exact (retries_exhaust_softly w evs [] H1 H2 H3 H4 H5 H6 H7 H8).
Defined.

(** C6, as stated, fails: an attempt answered by something other than the
    matching ACK is an unanswered attempt as well, and is resent, but it is
    not counted as a retry.  Packet 42 of the hot sensor gets an ACK for
    packet 41, then silence.  After three unanswered attempts (the stale
    ACK and two timeouts) the sensor has not stopped: it has sent a fourth
    time and waits.  It stops after the third timeout, which is the fourth
    unanswered attempt.  With three replies that are no ACK at all it has
    sent four times and counted no retry. *)
Lemma unanswered_attempts_exceed_three :
  let stale := Sensor.Datagram (ack_message 41) in
  let junk := Sensor.Datagram [x3f] in
  let sensor_with inbox :=
    Sensor.mk_world (Sensor.self hot_sensor) (Sensor.clock hot_sensor) 2%nat []
                    inbox [] in
  let three := Sensor.temperature_send_batch_packet
                 (sensor_with [stale; Sensor.Timeout; Sensor.Timeout]) in
  let four := Sensor.temperature_send_batch_packet
                (sensor_with [stale; Sensor.Timeout; Sensor.Timeout; Sensor.Timeout]) in
  let noise := Sensor.temperature_send_batch_packet
                 (sensor_with [junk; junk; junk]) in
  Forall (fun ev => unanswered 42 ev = true) [stale; junk; Sensor.Timeout] /\
  (snd three = Blocked /\
   length (Sensor.sock_sent (fst three)) = 4%nat /\
   retry_lines (Sensor.console (fst three)) = [1; 2] /\
   Sensor.batch_buffer (Sensor.self (fst three)) = [1500; 2200; 3600]) /\
  (snd four = Ok true /\
   (exists pkt, Sensor.sock_sent (fst four) = replicate 4 pkt) /\
   retry_lines (Sensor.console (fst four)) = [1; 2; 3] /\
   Sensor.batch_buffer (Sensor.self (fst four)) = []) /\
  (snd noise = Blocked /\
   length (Sensor.sock_sent (fst noise)) = 4%nat /\
   retry_lines (Sensor.console (fst noise)) = []).
Proof.
  vm_compute. split; [repeat constructor|].
  split; [repeat split; reflexivity|].
  split; [|repeat split; reflexivity].
  split; [reflexivity|]. split; [eexists; reflexivity|]. split; reflexivity.
Qed.

Example hot_sensor_run :
  let r := Sensor.temperature_send_batch_packet hot_sensor in
  snd r = Ok true /\
  length (Sensor.sock_sent (fst r)) = 3%nat /\
  Server.decode <$> Sensor.sock_sent (fst r)
  = replicate 3 (Server.Header 1 1 1001 42 1700000002 2
                   (default [] (payload_join [1500; 2200; 3600]))) /\
  Sensor.seq (Sensor.self (fst r)) = 42 /\
  Sensor.batch_buffer (Sensor.self (fst r)) = [] /\
  retry_lines (Sensor.console (fst r)) = [1; 2; 3].
Proof. vm_compute. repeat split; reflexivity. Qed.

(** A stale ACK between the timeouts is passed over: it costs one more send
    of the same packet and no retry. *)
Example stale_ack_is_passed_over :
  let w := Sensor.mk_world (Sensor.self hot_sensor) (Sensor.clock hot_sensor) 2%nat []
             [Sensor.Timeout; Sensor.Datagram (ack_message 41); Sensor.Timeout;
              Sensor.Timeout] [] in
  let r := Sensor.temperature_send_batch_packet w in
  snd r = Ok true /\
  length (Sensor.sock_sent (fst r)) = 4%nat /\
  retry_lines (Sensor.console (fst r)) = [1; 2; 3].
Proof. vm_compute. repeat split; reflexivity. Qed.

(** The matching ACK ends the loop at once. *)
Example matching_ack_stops_retrying :
  let w := Sensor.mk_world (Sensor.self hot_sensor) (Sensor.clock hot_sensor) 2%nat []
             [Sensor.Timeout; Sensor.Datagram (ack_message 42); Sensor.Timeout] [] in
  let r := Sensor.temperature_send_batch_packet w in
  snd r = Ok true /\
  length (Sensor.sock_sent (fst r)) = 2%nat /\
  Sensor.sock_inbox (fst r) = [Sensor.Timeout] /\
  retry_lines (Sensor.console (fst r)) = [1].
Proof. vm_compute. repeat split; reflexivity. Qed.

(** ** Packet size *)
Section PacketSize.
Context {F : Type} {B : Builtins F}.
Import Sensor.

Lemma check_payload_size_spec payload :
  check_payload_size payload = true <-> (length payload <= 190)%nat.
Proof.
  unfold check_payload_size, HEADER_SIZE. rewrite Z.leb_le. lia.
Qed.

(** C8. [TelemetrySensor.send_batch_packet] on a full batch, whatever its
    length: it sends exactly one DATA packet, of at most 200 bytes, whose
    payload is the first 47 readings of the batch (the whole batch when its
    payload is within 190 bytes), each in 4 bytes; then the batch is
    cleared. *)
Theorem data_packet_fits (w : world F) :
  batch_size (self w) <= Z.of_nat (length (batch_buffer (self w))) ->
  Forall (fun v => 0 <= v < 2 ^ 32) (batch_buffer (self w)) ->
  0 <= device_id (self w) < 65536 ->
  0 <= int_of_float (clock w (clock_reads w)) < 2 ^ 32 ->
  let buffer := batch_buffer (self w) in
  let kept := take (Z.to_nat MAX_READINGS_PER_BATCH) buffer in
  exists pkt payload w',
    send_batch_packet w = (w', Ok true) /\
    sock_sent w' = sock_sent w ++ [pkt] /\
    (length pkt <= 200)%nat /\
    length pkt = (HEADER_SIZE + length payload)%nat /\
    length payload = (4 * length kept)%nat /\
    (length payload <= Z.to_nat MAX_PAYLOAD_BYTES)%nat /\
    (length kept <= 47)%nat /\
    ((4 * length buffer <= 190)%nat -> kept = buffer) /\
    ((190 < 4 * length buffer)%nat -> length kept = 47%nat) /\
    Server.decode pkt
    = Server.Header 1 1 (device_id (self w)) (Z.land (seq (self w) + 1) 0xFFFF)
                    (int_of_float (clock w (clock_reads w))) 0x01 payload /\
    Server.parse_values payload = Some kept /\
    batch_buffer (self w') = [].
Proof.
  intros Hfull Hr Hdev Hts buffer kept.
  assert (Hk : Forall (fun v => 0 <= v < 2 ^ 32) kept) by (by apply Forall_take).
  pose proof (payload_join_Some buffer Hr) as Hjoin.
  pose proof (payload_join_Some kept Hk) as Hjoink.
  pose proof (length_payload _ _ Hjoin) as Hlen.
  pose proof (length_payload _ _ Hjoink) as Hlenk.
  assert (Hkl : (length kept <= 47)%nat).
  { unfold kept. rewrite length_take. change (Z.to_nat MAX_READINGS_PER_BATCH) with 47%nat. lia. }
  assert (Hsame : (4 * length buffer <= 190)%nat -> kept = buffer).
  { intros Hle. unfold kept. apply take_ge.
    change (Z.to_nat MAX_READINGS_PER_BATCH) with 47%nat. lia. }
  assert (Hcut : (190 < 4 * length buffer)%nat -> length kept = 47%nat).
  { intros Hgt. unfold kept. rewrite length_take.
    change (Z.to_nat MAX_READINGS_PER_BATCH) with 47%nat. lia. }
  (* the payload that reaches build_packet is that of [kept] in both cases *)
  set (w0 := if check_payload_size (concat (be_bytes 4 <$> buffer)) then w
             else mk_world (with_batch_buffer kept (self w)) (clock w) (clock_reads w)
                           (sock_sent w) (sock_inbox w)
                           (console w ++ [PayloadTooLarge (device_id (self w))])).
  assert (Hw0 : self w0 = with_batch_buffer kept (self w) /\
                clock w0 = clock w /\ clock_reads w0 = clock_reads w /\
                sock_sent w0 = sock_sent w).
  { unfold w0. destruct (check_payload_size _) eqn:Ec; [|by cbn].
    apply check_payload_size_spec in Ec. rewrite Hlen in Ec.
    rewrite (Hsame ltac:(lia)). by destruct w as [[]]. }
  destruct Hw0 as (Hself0 & Hclock0 & Hreads0 & Hsent0).
  destruct (build_packet_ok w0 1 (concat (be_bytes 4 <$> kept)) 0x01)
    as (header & Hpack & Hbuild).
  { by rewrite Hself0. } { by rewrite Hclock0, Hreads0. } { lia. }
  rewrite Hself0, Hclock0, Hreads0 in Hpack. cbn [with_batch_buffer device_id seq] in Hpack.
  assert (Hrun : send_batch_packet w
    = (pkt <- build_packet 1 (concat (be_bytes 4 <$> kept)) 0x01 ;;
       sendto pkt ;;;
       s <- gets self ;;
       say (BatchData (device_id s) (seq s) (batch_buffer s)) ;;;
       finish_batch) w0).
  { unfold send_batch_packet.
    unfold bind at 1. unfold gets at 1.
    replace (Z.of_nat (length (batch_buffer (self w))) <? batch_size (self w))
      with false by (symmetry; apply Z.ltb_ge; lia).
    fold buffer. rewrite payload_loop_join, Hjoin. unfold lift at 1.
    unfold bind at 1. unfold ret at 1.
    unfold bind at 1. unfold w0.
    destruct (check_payload_size (concat (be_bytes 4 <$> buffer))) eqn:Ec.
    - cbn [negb]. unfold ret at 1.
      apply check_payload_size_spec in Ec. rewrite Hlen in Ec.
      rewrite (Hsame ltac:(lia)). reflexivity.
    - cbn [negb]. unfold bind at 1. unfold say at 1, modify.
      unfold bind at 1. unfold update_self at 1, modify.
      unfold bind at 1. unfold gets at 1.
      cbn [self clock clock_reads sock_sent sock_inbox console
           with_batch_buffer batch_buffer].
      rewrite take_take, Nat.min_id.
      fold buffer. fold kept. rewrite payload_loop_join, Hjoink.
      reflexivity. }
  rewrite Hrun. unfold bind at 1. rewrite Hbuild.
  unfold bind, sendto, gets, say, finish_batch, time_time, update_self, modify, ret.
  cbn [self clock clock_reads sock_sent sock_inbox console fst snd
       with_batch_buffer with_last_data_time with_seq batch_buffer device_id seq].
  eexists (header ++ concat (be_bytes 4 <$> kept)), (concat (be_bytes 4 <$> kept)), _.
  split; [reflexivity|].
  cbn [sock_sent self batch_buffer].
  split; [by rewrite Hsent0|].
  rewrite length_app, (length_pack_header _ _ _ _ _ _ Hpack), Hlenk.
  change (Z.to_nat MAX_PAYLOAD_BYTES) with 190%nat. unfold HEADER_SIZE.
  repeat (split; [first [lia | assumption | reflexivity]|]).
  split; [exact (decode_packed _ _ _ _ _ _ _ Hpack)|].
  split; [|reflexivity].
  rewrite parse_values_words, words_of_payload by assumption. reflexivity.
Qed.

End PacketSize.

(** A batch of 50 readings goes out as 47 readings in 188 bytes. *)
Lemma data_packet_fits_witness :
  let w := overfull_sensor in
  let buffer := Sensor.batch_buffer (Sensor.self w) in
  let kept := take (Z.to_nat Sensor.MAX_READINGS_PER_BATCH) buffer in
  Sensor.batch_size (Sensor.self w) <= Z.of_nat (length buffer) /\
  Forall (fun v => 0 <= v < 2 ^ 32) buffer /\
  0 <= Sensor.device_id (Sensor.self w) < 65536 /\
  0 <= int_of_float (Sensor.clock w (Sensor.clock_reads w)) < 2 ^ 32 /\
  exists pkt payload w',
    Sensor.send_batch_packet w = (w', Ok true) /\
    Sensor.sock_sent w' = Sensor.sock_sent w ++ [pkt] /\
    (length pkt <= 200)%nat /\
    length pkt = (HEADER_SIZE + length payload)%nat /\
    length payload = (4 * length kept)%nat /\
    (length payload <= Z.to_nat Sensor.MAX_PAYLOAD_BYTES)%nat /\
    (length kept <= 47)%nat /\
    ((4 * length buffer <= 190)%nat -> kept = buffer) /\
    ((190 < 4 * length buffer)%nat -> length kept = 47%nat) /\
    Server.decode pkt
    = Server.Header 1 1 (Sensor.device_id (Sensor.self w))
                    (Z.land (Sensor.seq (Sensor.self w) + 1) 0xFFFF)
                    (int_of_float (Sensor.clock w (Sensor.clock_reads w))) 0x01 payload /\
    Server.parse_values payload = Some kept /\
    Sensor.batch_buffer (Sensor.self w') = [].
Proof.
  intros w buffer kept.
  assert (H1 : Sensor.batch_size (Sensor.self w) <= Z.of_nat (length buffer))
    by (vm_compute; discriminate).
  assert (H2 : Forall (fun v => 0 <= v < 2 ^ 32) buffer).
  { apply Forall_forall. intros v Hv. apply elem_of_seqZ in Hv. lia. }
  assert (H3 : 0 <= Sensor.device_id (Sensor.self w) < 65536) by (simpl; lia).
  assert (H4 : 0 <= int_of_float (Sensor.clock w (Sensor.clock_reads w)) < 2 ^ 32)
    by (vm_compute; split; [discriminate|reflexivity]).
  repeat (split; [assumption|]).
  exact (data_packet_fits w H1 H2 H3 H4).
Defined.

Example fifty_readings_truncated :
  let r := Sensor.send_batch_packet overfull_sensor in
  length fifty_readings = 50%nat /\
  snd r = Ok true /\
  (length <$> Sensor.sock_sent (fst r)) = [198%nat] /\
  (Server.parse_values ∘ drop HEADER_SIZE <$> Sensor.sock_sent (fst r))
  = [Some (take 47 fifty_readings)] /\
  Sensor.console (fst r)
  = [Sensor.PayloadTooLarge 1002; Sensor.BatchData 1002 8 (take 47 fifty_readings)].
Proof. vm_compute. repeat split; reflexivity. Qed.

Example max_readings_per_batch : Sensor.MAX_READINGS_PER_BATCH = 47.
Proof. reflexivity. Qed.

Section TemperaturePacketSize.
Context {F : Type} {B : Builtins F}.
Import Sensor.

Lemma init_batch_bounded device_id batch_size (clk : nat -> F) inbox :
  batch_bounded (init device_id batch_size clk inbox).
Proof. unfold batch_bounded, init. cbn. lia. Qed.

Lemma temperature_send_not_full (w : world F) :
  Z.of_nat (length (batch_buffer (self w))) < batch_size (self w) ->
  temperature_send_batch_packet w = (w, Ok false).
Proof.
  intros Hlt. unfold temperature_send_batch_packet, bind, gets.
  replace (Z.of_nat (length (batch_buffer (self w))) <? batch_size (self w))
    with true by (symmetry; apply Z.ltb_lt; lia).
  reflexivity.
Qed.

Lemma finish_batch_keeps {A} (m : M (world F) A) (w : world F) :
  batch_size (self (fst ((m ;;; finish_batch) w))) = batch_size (self (fst (m w))).
Proof. unfold bind. destruct (m w) as [w1 [a|e|]]; reflexivity. Qed.

(** X19. The temperature sensor's [send_batch_packet] does not truncate;
    its packets fit all the same.  With [batch_size] capped as the
    constructor caps it and the buffer short of it, buffering one more
    reading and sending puts on the wire only copies of one packet of at
    most 200 bytes, and when the call returns the buffer is again short of
    the batch size. *)
Lemma temperature_report_fits (w : world F) (reading : Z) :
  batch_bounded w ->
  Forall (fun v => 0 <= v < 2 ^ 32) (batch_buffer (self w) ++ [reading]) ->
  0 <= device_id (self w) < 65536 ->
  0 <= int_of_float (clock w (clock_reads w)) < 2 ^ 32 ->
  exists n pkt,
    sock_sent (fst (report temperature_send_batch_packet reading w))
    = sock_sent w ++ replicate n pkt /\
    (length pkt <= 200)%nat /\
    forall sent, snd (report temperature_send_batch_packet reading w) = Ok sent ->
                 batch_bounded (fst (report temperature_send_batch_packet reading w)).
Proof.
  intros [Hcap Hshort] Hr Hdev Hts.
  unfold batch_bounded.
  unfold MAX_READINGS_PER_BATCH, MAX_PAYLOAD_BYTES in *.
  change ((200 - 10) / 4) with 47 in *.
  set (w1 := mk_world (with_batch_buffer (batch_buffer (self w) ++ [reading]) (self w))
                      (clock w) (clock_reads w) (sock_sent w) (sock_inbox w) (console w)).
  assert (Hrep : report temperature_send_batch_packet reading w
                 = temperature_send_batch_packet w1) by reflexivity.
  rewrite Hrep. clear Hrep.
  assert (Hb1 : batch_buffer (self w1) = batch_buffer (self w) ++ [reading]) by reflexivity.
  assert (Hl1 : length (batch_buffer (self w1)) = S (length (batch_buffer (self w))))
    by (rewrite Hb1, length_app; simpl; lia).
  assert (Hs1 : batch_size (self w1) = batch_size (self w)) by reflexivity.
  destruct (Z.lt_ge_cases (Z.of_nat (length (batch_buffer (self w1)))) (batch_size (self w1)))
    as [Hlt|Hfull].
  - rewrite (temperature_send_not_full w1 Hlt). cbn [fst snd].
    exists 0%nat, []. split; [cbn; by rewrite app_nil_r|]. split; [simpl; lia|].
    intros _ _. rewrite Hs1. lia.
  - destruct (temperature_send_full w1 Hfull) as
      (pkt & payload & w2 & _ & Hself & Hsent & _ & _ & _ & _ & Hlen & Hrun);
      [by rewrite Hb1|exact Hdev|exact Hts|].
    rewrite Hrun. clear Hrun.
    set (m := if existsb _ _ then _ else _).
    pose proof (finish_batch_after m w2) as (Hs & _ & _ & Hout).
    pose proof (finish_batch_keeps m w2) as Hkeep.
    assert (Hm : self (fst (m w2)) = self w2 /\
                 exists n, sock_sent (fst (m w2)) = sock_sent w2 ++ replicate n pkt).
    { unfold m. destruct (existsb _ _).
      - destruct (ack_loop_sends (S (length (sock_inbox w2))) pkt 0 false w2)
          as (Hsame & _ & _ & n & Hn & _). eauto.
      - split; [reflexivity|]. exists 1%nat. reflexivity. }
    destruct Hm as [Hsame [n Hn]].
    exists n, pkt. split; [by rewrite Hs, Hn, Hsent|].
    split; [rewrite Hlen, Hl1; unfold HEADER_SIZE; lia|].
    intros sent Hret. rewrite Hkeep, Hsame, Hself. cbn [with_seq batch_size].
    rewrite Hs1. split; [exact Hcap|].
    destruct (snd (m w2)) as [a|e|].
    + destruct Hout as (_ & Hbuf & _). rewrite Hbuf. simpl. lia.
    + rewrite Hout in Hret. discriminate.
    + rewrite Hout in Hret. discriminate.
Qed.

End TemperaturePacketSize.

(** ** Heartbeat liveness *)
Section Heartbeat.
Context {F : Type} {B : Builtins F}.
Import Server.

Lemma status_eqb_eq a b : status_eqb a b = true <-> a = b.
Proof. destruct a, b; simpl; split; congruence. Qed.

(** [handle_heartbeat] always returns; its effect spelled out. *)
Lemma handle_heartbeat_run (w : world F) (device_id : Z) :
  let t := clock w (clock_reads w) in
  let last_times := default [] (device_heartbeats (self w) !! device_id) ++ [t] in
  let prev := default ONLINE (device_status (self w) !! device_id) in
  let st := if heartbeat_offline prev last_times t then OFFLINE else ONLINE in
  let emit := negb (status_eqb prev st)
              || bool_decide (device_status (self w) !! device_id = None) in
  let s1 := with_device_heartbeats
              (<[device_id := drop (length last_times - 10) last_times]>
                 (device_heartbeats (self w))) (self w) in
  handle_heartbeat device_id w
  = (mk_world
       (if emit then with_device_status (<[device_id := st]> (device_status s1)) s1
        else s1)
       (counters w) (clock w) (S (clock_reads w)) (sock_sent w)
       (status_csv w ++ if emit then [mk_status_row device_id (int_of_float t) st] else [])
       (log_file w)
       (console w ++ (if emit then [DeviceStatus device_id st] else [])
                  ++ [HeartbeatReceived device_id (avg_interval_of last_times)]),
     Ok tt).
Proof.
  intros t last_times prev st emit s1.
  unfold handle_heartbeat, bind at 1, time_time at 1.
  unfold bind at 1, gets at 1. cbn [self clock clock_reads].
  fold t. fold last_times. fold prev.
  unfold bind at 1, update_self at 1, modify. cbn [self].
  fold s1.
  assert (Hoff :
    (if status_eqb prev ONLINE && (2 <=? length last_times)%nat
     then t2 <- lift IndexError (last_times !! (length last_times - 2)%nat) ;;
          ret (fgt (fsub t t2) (int_fmul 2 (avg_interval_of last_times)))
     else ret false)
    = (ret (heartbeat_offline prev last_times t) : M (world F) bool)).
  { unfold heartbeat_offline.
    destruct (status_eqb prev ONLINE && (2 <=? length last_times)%nat) eqn:Eg;
      [|reflexivity].
    apply andb_true_iff in Eg as [_ Hlen]. apply Nat.leb_le in Hlen.
    destruct (lookup_lt_is_Some_2 last_times (length last_times - 2)) as [t2 Ht2]; [lia|].
    rewrite Ht2. reflexivity. }
  unfold bind at 1. rewrite Hoff. unfold ret at 1.
  fold st. fold emit.
  destruct emit.
  - unfold bind, update_self, write_status_row, say, modify. cbn.
    rewrite <- app_assoc. reflexivity.
  - unfold bind, ret, say, modify. cbn. rewrite app_nil_r. reflexivity.
Qed.

(** C4. On every heartbeat [handle_heartbeat] returns, and the device's
    status afterwards is OFFLINE exactly when its previous status (ONLINE
    for a device not yet classified) was ONLINE, at least two timestamps
    exist counting the new one, and the new timestamp minus the one before
    exceeds twice the average interval; otherwise it is ONLINE, so a
    heartbeat after OFFLINE restores ONLINE.  One row [(device, int(time),
    status)] is appended to the status file exactly when the status differs
    from the previous one or the device had no status yet; other devices
    keep their status. *)
Theorem heartbeat_status_rule (w : world F) (device_id : Z) :
  let t := clock w (clock_reads w) in
  let last_times := default [] (device_heartbeats (self w) !! device_id) ++ [t] in
  let prev := default ONLINE (device_status (self w) !! device_id) in
  let avg_interval := avg_interval_of last_times in
  exists w' st,
    handle_heartbeat device_id w = (w', Ok tt) /\
    device_status (self w') !! device_id = Some st /\
    (st = OFFLINE <->
       prev = ONLINE /\ (2 <= length last_times)%nat /\
       exists t2, last_times !! (length last_times - 2)%nat = Some t2 /\
                  fgt (fsub t t2) (int_fmul 2 avg_interval) = true) /\
    (st <> OFFLINE -> st = ONLINE) /\
    (prev = OFFLINE -> st = ONLINE) /\
    (st <> prev \/ device_status (self w) !! device_id = None ->
       status_csv w' = status_csv w ++ [mk_status_row device_id (int_of_float t) st]) /\
    (~ (st <> prev \/ device_status (self w) !! device_id = None) ->
       status_csv w' = status_csv w) /\
    (forall other, other <> device_id ->
       device_status (self w') !! other = device_status (self w) !! other).
Proof.
  intros t last_times prev avg_interval.
  pose proof (handle_heartbeat_run w device_id) as Hrun. cbv zeta in Hrun.
  fold t last_times prev in Hrun.
  set (st := if heartbeat_offline prev last_times t then OFFLINE else ONLINE) in *.
  set (emit := negb (status_eqb prev st)
               || bool_decide (device_status (self w) !! device_id = None)) in *.
  assert (Hemit : emit = true <-> st <> prev \/ device_status (self w) !! device_id = None).
  { unfold emit. rewrite orb_true_iff, negb_true_iff, bool_decide_eq_true.
    rewrite <- not_true_iff_false, status_eqb_eq. intuition congruence. }
  eexists _, st. split; [exact Hrun|]. cbn [self status_csv].
  split; [|split; [|split; [|split; [|split; [|split]]]]].
  - destruct emit eqn:Ee; cbn [device_status with_device_status with_device_heartbeats].
    + apply lookup_insert_eq.
    + assert (Hn : ~ (st <> prev \/ device_status (self w) !! device_id = None))
        by (rewrite <- Hemit; congruence).
      destruct (device_status (self w) !! device_id) as [p|] eqn:Ep; [|tauto].
      assert (Hsp : st = prev).
      { destruct (status_eqb prev st) eqn:E; [symmetry; by apply status_eqb_eq|].
        exfalso. apply Hn. left. intros Heq. symmetry in Heq.
        apply status_eqb_eq in Heq. congruence. }
      rewrite Hsp. reflexivity.
  - unfold st, heartbeat_offline. fold avg_interval.
    split.
    + intros Hst.
      destruct (status_eqb prev ONLINE) eqn:E1; [|discriminate Hst].
      destruct (2 <=? length last_times)%nat eqn:E2; [|discriminate Hst].
      destruct (last_times !! (length last_times - 2)%nat) as [t2|]; [|discriminate Hst].
      destruct (fgt _ _) eqn:E3; [|discriminate Hst].
      apply status_eqb_eq in E1. apply Nat.leb_le in E2. eauto.
    + intros (Hp & Hlen & t2 & Ht2 & Hgt).
      apply status_eqb_eq in Hp. apply Nat.leb_le in Hlen.
      rewrite Hp, Hlen, Ht2, Hgt. reflexivity.
  - destruct st; congruence.
  - intros Hp. unfold st, heartbeat_offline. rewrite Hp. reflexivity.
  - intros He. apply Hemit in He. rewrite He. reflexivity.
  - intros He. rewrite <- Hemit in He. apply not_true_is_false in He. rewrite He.
    apply app_nil_r.
  - intros other Ho.
    destruct emit; cbn [device_status with_device_status with_device_heartbeats];
      [by rewrite lookup_insert_ne|reflexivity].
Qed.

End Heartbeat.

Section HeartbeatInterval.
Context {F : Type} {B : Builtins F}.
Import Server.

Lemma length_intervals_of (last_times : list F) :
  length (intervals_of last_times) = (length last_times - 1)%nat.
Proof.
  unfold intervals_of. rewrite length_fmap, length_zip, length_take, length_drop. lia.
Qed.

(** The [i]-th interval is the gap between timestamps [i] and [i + 1]. *)
Lemma intervals_of_lookup (last_times : list F) i t1 t2 :
  last_times !! i = Some t1 -> last_times !! S i = Some t2 ->
  intervals_of last_times !! i = Some (fsub t2 t1).
Proof.
  intros H1 H2. unfold intervals_of.
  rewrite list_lookup_fmap.
  assert (Hz : zip (take (length last_times - 1) last_times) (drop 1 last_times) !! i
               = Some (t1, t2)).
  { apply lookup_zip_with_Some. exists t1, t2. split; [reflexivity|].
    split.
    - rewrite lookup_take_lt; [exact H1|].
      apply lookup_lt_Some in H2. lia.
    - rewrite lookup_drop. exact H2. }
  rewrite Hz. reflexivity.
Qed.

(** C5, as the code has it.  The stored window is the last 10 of the
    device's previous window followed by the new timestamp.  The interval
    that is reported, and used for the status, is computed from that whole
    list, before it is cut: the mean of its consecutive gaps when it has at
    least 2 timestamps, else 1.0.  While the previous window held fewer than
    10 timestamps this list is the stored window; once it holds 10 the list
    has 11 timestamps and the stored window lacks its first. *)
Theorem heartbeat_interval_estimate (w : world F) (device_id : Z) :
  let t := clock w (clock_reads w) in
  let previous := default [] (device_heartbeats (self w) !! device_id) in
  let last_times := previous ++ [t] in
  exists w' window,
    handle_heartbeat device_id w = (w', Ok tt) /\
    device_heartbeats (self w') !! device_id = Some window /\
    window = drop (length last_times - 10) last_times /\
    (length window <= 10)%nat /\
    last (console w') = Some (HeartbeatReceived device_id (avg_interval_of last_times)) /\
    ((length last_times < 2)%nat -> avg_interval_of last_times = fone) /\
    ((2 <= length last_times)%nat ->
       avg_interval_of last_times
       = fdiv_int (fsum (intervals_of last_times)) (Z.of_nat (length last_times - 1))) /\
    ((length previous < 10)%nat -> window = last_times) /\
    (length previous = 10%nat ->
       length last_times = 11%nat /\ window = drop 1 last_times).
Proof.
  intros t previous last_times.
  pose proof (handle_heartbeat_run w device_id) as Hrun. cbv zeta in Hrun.
  fold t previous last_times in Hrun.
  assert (Hlen : length last_times = S (length previous))
    by (unfold last_times; rewrite length_app; simpl; lia).
  eexists _, _. split; [exact Hrun|].
  split; [|split; [reflexivity|split; [|split; [|split; [|split; [|split]]]]]].
  - cbn [self]. match goal with |- context [if ?e then _ else _] => destruct e end;
      cbn [device_heartbeats with_device_status with_device_heartbeats];
      apply lookup_insert_eq.
  - rewrite length_drop. lia.
  - cbn [console]. rewrite !app_assoc. apply last_snoc.
  - intros Hlt. unfold avg_interval_of.
    replace (2 <=? length last_times)%nat with false
      by (symmetry; apply Nat.leb_gt; lia).
    reflexivity.
  - intros Hge. unfold avg_interval_of.
    replace (2 <=? length last_times)%nat with true
      by (symmetry; apply Nat.leb_le; lia).
    rewrite length_intervals_of. reflexivity.
  - intros Hlt. replace (length last_times - 10)%nat with 0%nat by lia. reflexivity.
  - intros Hten. split; [lia|]. rewrite Hlen, Hten. reflexivity.
Qed.

End HeartbeatInterval.

(** C5, as stated, fails once the window is full.  With heartbeats stored at
    0, 10, 11, ..., 18 and a new one at 19, the stored window becomes 10,
    ..., 19, whose consecutive gaps average 1, while the interval the code
    computes is 19/10: the gap from 0 to 10 is still counted. *)
Lemma avg_interval_counts_dropped_timestamp :
  let w' := fst (Server.handle_heartbeat 7 busy_server) in
  exists window avg_interval,
    Server.device_heartbeats (Server.self w') !! 7 = Some window /\
    length window = 10%nat /\
    last (Server.console w') = Some (Server.HeartbeatReceived 7 avg_interval) /\
    (avg_interval == 19 # 10)%Q /\
    (Server.avg_interval_of window == 1)%Q /\
    ~ (avg_interval == Server.avg_interval_of window)%Q.
Proof.
  eexists _, _. split; [vm_compute; reflexivity|].
  split; [reflexivity|]. split; [vm_compute; reflexivity|].
  split; [vm_compute; reflexivity|]. split; [vm_compute; reflexivity|].
  intros E. vm_compute in E. discriminate E.
Qed.

(** The difference is visible in the status: with the same stored window
    and a heartbeat at 21.5, the gap 3.5 exceeds twice the window's average
    (2.56) but not twice the computed one (4.3), and the device stays
    ONLINE. *)
Example full_window_masks_long_gap :
  let w := Server.mk_world (Server.self busy_server) (Server.counters busy_server)
             (fun _ => 43 # 2)%Q 1%nat [] [] [] [] in
  let w' := fst (Server.handle_heartbeat 7 w) in
  Server.device_status (Server.self w') !! 7 = Some Server.ONLINE /\
  Server.status_csv w' = [] /\
  exists window,
    Server.device_heartbeats (Server.self w') !! 7 = Some window /\
    fgt (fsub (43 # 2)%Q (inject_Z 18)) (int_fmul 2 (Server.avg_interval_of window)) = true.
Proof.
  split; [vm_compute; reflexivity|]. split; [vm_compute; reflexivity|].
  eexists. split; vm_compute; reflexivity.
Qed.

(** Five heartbeats a second apart keep the device ONLINE with a single
    status row; the sixth, three seconds late, turns it OFFLINE; the seventh
    restores ONLINE. *)
Example heartbeat_scenario :
  Server.device_status (Server.self (after_heartbeats 5)) !! 7 = Some Server.ONLINE /\
  Server.status_csv (after_heartbeats 5) = [Server.mk_status_row 7 1 Server.ONLINE] /\
  Server.device_status (Server.self (after_heartbeats 6)) !! 7 = Some Server.OFFLINE /\
  Server.status_csv (after_heartbeats 6)
  = [Server.mk_status_row 7 1 Server.ONLINE; Server.mk_status_row 7 8 Server.OFFLINE] /\
  Server.device_status (Server.self (after_heartbeats 7)) !! 7 = Some Server.ONLINE /\
  Server.status_csv (after_heartbeats 7)
  = [Server.mk_status_row 7 1 Server.ONLINE; Server.mk_status_row 7 8 Server.OFFLINE;
     Server.mk_status_row 7 9 Server.ONLINE].
Proof. vm_compute. repeat split; reflexivity. Qed.

(** ** Stable sorting by key *)
Section StableSort.
Context {A : Type} (key : A -> Z).

Lemma insert_by_perm x l : insert_by key x l ≡ₚ x :: l.
Proof.
  induction l as [|y rest IH]; [reflexivity|]. simpl.
  destruct (key x <=? key y); [reflexivity|].
  rewrite IH. apply Permutation_swap.
Qed.

Lemma sort_by_perm l : sort_by key l ≡ₚ l.
Proof.
  induction l as [|x rest IH]; [reflexivity|]. simpl.
  rewrite insert_by_perm. by rewrite IH.
Qed.

Lemma insert_by_sorted x l :
  StronglySorted (key_le key) l -> StronglySorted (key_le key) (insert_by key x l).
Proof.
  induction l as [|y rest IH]; intros Hs; simpl.
  - repeat constructor.
  - apply StronglySorted_cons in Hs as [Hy Hrest].
    destruct (Z.leb_spec (key x) (key y)) as [Hle|Hgt].
    + apply StronglySorted_cons. split.
      * constructor; [exact Hle|].
        eapply Forall_impl; [exact Hy|]. unfold key_le. intros z Hz. lia.
      * apply StronglySorted_cons. by split.
    + apply StronglySorted_cons. split; [|by apply IH].
      rewrite (insert_by_perm x rest). constructor; [unfold key_le; lia|exact Hy].
Qed.

Lemma sort_by_sorted l : StronglySorted (key_le key) (sort_by key l).
Proof.
  induction l as [|x rest IH]; simpl; [constructor|]. by apply insert_by_sorted.
Qed.

(** Stability: among entries of one key the order of arrival is kept. *)
Lemma insert_by_stable k x l :
  filter (fun a => key a = k) (insert_by key x l)
  = filter (fun a => key a = k) (x :: l).
Proof.
  induction l as [|y rest IH]; [reflexivity|]. simpl.
  destruct (Z.leb_spec (key x) (key y)) as [Hle|Hgt]; [reflexivity|].
  rewrite filter_cons, IH, !filter_cons.
  destruct (decide (key y = k)) as [Hy|Hy]; destruct (decide (key x = k)) as [Hx|Hx];
    try reflexivity.
  lia.
Qed.

Lemma sort_by_stable k l :
  filter (fun a => key a = k) (sort_by key l) = filter (fun a => key a = k) l.
Proof.
  induction l as [|x rest IH]; [reflexivity|]. simpl.
  rewrite insert_by_stable, !filter_cons, IH. reflexivity.
Qed.

(** Two sorted lists with the same entries in the same order under every
    key are the same list. *)
Lemma sorted_stable_eq l1 : forall l2,
  StronglySorted (key_le key) l1 -> StronglySorted (key_le key) l2 ->
  (forall k, filter (fun a => key a = k) l1 = filter (fun a => key a = k) l2) ->
  l1 = l2.
Proof.
  induction l1 as [|a l1 IH]; intros l2 H1 H2 Hf.
  - destruct l2 as [|b l2]; [reflexivity|].
    specialize (Hf (key b)). rewrite filter_cons_True in Hf by reflexivity.
    discriminate Hf.
  - destruct l2 as [|b l2].
    { specialize (Hf (key a)). rewrite filter_cons_True in Hf by reflexivity.
      discriminate Hf. }
    apply StronglySorted_cons in H1 as [Ha H1], H2 as [Hb H2].
    assert (Hab : key a = key b).
    { assert (Hain : a ∈ b :: l2).
      { pose proof (Hf (key a)) as E. rewrite filter_cons_True in E by reflexivity.
        assert (Hin : a ∈ filter (fun x => key x = key a) (b :: l2))
          by (rewrite <- E; left).
        by apply list_elem_of_filter in Hin as [_ Hin]. }
      assert (Hbin : b ∈ a :: l1).
      { pose proof (Hf (key b)) as E. rewrite (filter_cons_True _ b) in E by reflexivity.
        assert (Hin : b ∈ filter (fun x => key x = key b) (a :: l1))
          by (rewrite E; left).
        by apply list_elem_of_filter in Hin as [_ Hin]. }
      assert (key b <= key a).
      { apply elem_of_cons in Hain as [->|Hin]; [lia|].
        rewrite Forall_forall in Hb. exact (Hb a Hin). }
      assert (key a <= key b).
      { apply elem_of_cons in Hbin as [->|Hin]; [lia|].
        rewrite Forall_forall in Ha. exact (Ha b Hin). }
      lia. }
    assert (a = b).
    { pose proof (Hf (key a)) as E.
      rewrite filter_cons_True in E by reflexivity.
      rewrite filter_cons_True in E by (symmetry; exact Hab).
      congruence. }
    subst b. f_equal. apply IH; [assumption..|].
    intros k. specialize (Hf k). rewrite !filter_cons in Hf.
    destruct (decide (key a = k)); congruence.
Qed.

(** Any stable ascending sort by [key] returns what [sort_by] returns. *)
Lemma stable_sort_unique l l' :
  StronglySorted (key_le key) l' ->
  (forall k, filter (fun a => key a = k) l' = filter (fun a => key a = k) l) ->
  l' = sort_by key l.
Proof.
  intros Hs Hf. apply sorted_stable_eq; [exact Hs|apply sort_by_sorted|].
  intros k. by rewrite Hf, sort_by_stable.
Qed.

End StableSort.

(** ** Reorder buffer *)
Section ReorderBuffer.
Context {F : Type} {B : Builtins F}.
Import Server.

(** The rows written are those of the entries that are not duplicates, in
    the order of the entries. *)
Lemma rows_from_entries (clk : nat -> F) n es :
  (fun r => (r_timestamp_sent r, r_seq r, r_duplicate_flag r)) <$> rows_from clk n es
  = (fun e => (e_timestamp e, e_seq e, e_duplicate_flag e))
      <$> filter (fun e => truthy (e_duplicate_flag e) = false) es.
Proof.
  revert n. induction es as [|e rest IH]; intros n; [reflexivity|].
  cbn [rows_from]. rewrite fmap_app, IH, filter_cons.
  destruct (truthy (e_duplicate_flag e)) eqn:Ed.
  - rewrite decide_False by congruence. reflexivity.
  - rewrite decide_True by reflexivity. reflexivity.
Qed.

Lemma log_entry_run (e : entry) (w : world F) :
  log_entry e w
  = (mk_world (self w) (counters w) (clock w) (S (clock_reads w)) (sock_sent w)
              (status_csv w)
              (log_file w ++ rows_from (clock w) (clock_reads w) [e])
              (console w), Ok tt).
Proof.
  unfold log_entry, bind at 1, time_time at 1.
  cbn [rows_from]. rewrite app_nil_r.
  unfold row_of.
  destruct (e_msg_type e =? 1).
  - rewrite parse_values_words. unfold bind, lift, ret.
    destruct (truthy (e_duplicate_flag e)); cbn; rewrite ?app_nil_r; reflexivity.
  - unfold bind, ret.
    destruct (truthy (e_duplicate_flag e)); cbn; rewrite ?app_nil_r; reflexivity.
Qed.

Lemma flush_loop_run es : forall (w : world F),
  for_each es log_entry w
  = (mk_world (self w) (counters w) (clock w) (clock_reads w + length es) (sock_sent w)
              (status_csv w)
              (log_file w ++ rows_from (clock w) (clock_reads w) es)
              (console w), Ok tt).
Proof.
  induction es as [|e rest IH]; intros w.
  - cbn. rewrite app_nil_r, Nat.add_0_r. by destruct w.
  - cbn [for_each]. unfold bind. rewrite log_entry_run, IH.
    cbn [self counters clock clock_reads sock_sent status_csv log_file console length].
    cbn [rows_from]. rewrite !app_nil_r, <- app_assoc.
    replace (S (clock_reads w) + length rest)%nat
      with (clock_reads w + S (length rest))%nat by lia.
    reflexivity.
Qed.

Lemma flush_reordered_run (w : world F) device_id buf :
  reorder_buffer (self w) !! device_id = Some buf ->
  let sorted := sort_by e_timestamp buf in
  flush_reordered device_id w
  = (mk_world (with_reorder_buffer (<[device_id := []]> (reorder_buffer (self w))) (self w))
              (counters w) (clock w) (clock_reads w + length buf) (sock_sent w)
              (status_csv w)
              (log_file w ++ rows_from (clock w) (clock_reads w) sorted)
              (console w), Ok tt).
Proof.
  intros Hbuf sorted.
  unfold flush_reordered, bind at 1, gets at 1. rewrite Hbuf.
  unfold lift at 1, bind at 1, ret at 1. fold sorted.
  unfold bind at 1, update_self at 1, modify.
  unfold bind at 1. rewrite flush_loop_run.
  unfold update_self, modify.
  cbn [self counters clock clock_reads sock_sent status_csv log_file console
       with_reorder_buffer reorder_buffer last_seq duplicate_counts gap_counts
       device_heartbeats device_status last_values].
  rewrite insert_insert_eq.
  replace (length sorted) with (length buf)
    by (symmetry; apply Permutation_length, sort_by_perm).
  reflexivity.
Qed.

(** Lines 157 to 166 of [handle_packet], spelled out. *)
Lemma store_reordered_run (w : world F) (e : entry) :
  let device_id := e_device_id e in
  let pending := default [] (reorder_buffer (self w) !! device_id) ++ [e] in
  let sorted := sort_by e_timestamp pending in
  store_reordered e w
  = if (5 <=? length pending)%nat then
      (mk_world (with_reorder_buffer (<[device_id := []]> (reorder_buffer (self w))) (self w))
                (counters w) (clock w) (clock_reads w + length pending) (sock_sent w)
                (status_csv w)
                (log_file w ++ rows_from (clock w) (clock_reads w) sorted)
                (console w ++ [BlankLine]), Ok tt)
    else
      (mk_world (with_reorder_buffer (<[device_id := pending]> (reorder_buffer (self w))) (self w))
                (counters w) (clock w) (clock_reads w) (sock_sent w)
                (status_csv w) (log_file w) (console w ++ [BlankLine]), Ok tt).
Proof.
  intros device_id pending sorted.
  unfold store_reordered. fold device_id.
  unfold bind at 1, gets at 1.
  set (w1 := mk_world (with_reorder_buffer
                         (<[device_id := pending]> (reorder_buffer (self w))) (self w))
                      (counters w) (clock w) (clock_reads w) (sock_sent w)
                      (status_csv w) (log_file w) (console w)).
  assert (Hstep :
    ((if bool_decide (reorder_buffer (self w) !! device_id = None)
      then update_self (fun s => with_reorder_buffer
                                   (<[device_id := []]> (reorder_buffer s)) s)
      else ret tt) ;;;
     s <- gets self ;;
     buf <- lift KeyError (reorder_buffer s !! device_id) ;;
     update_self (fun s => with_reorder_buffer
                             (<[device_id := buf ++ [e]]> (reorder_buffer s)) s) ;;;
     s <- gets self ;;
     buf <- lift KeyError (reorder_buffer s !! device_id) ;;
     (if (5 <=? length buf)%nat then flush_reordered device_id else ret tt) ;;;
     say BlankLine) w
    = ((if (5 <=? length pending)%nat then flush_reordered device_id else ret tt) ;;;
       say BlankLine) w1).
  { unfold pending in *. unfold w1.
    destruct (reorder_buffer (self w) !! device_id) as [buf|] eqn:Eb.
    - rewrite bool_decide_eq_false_2 by congruence.
      unfold bind at 1, ret at 1. unfold bind at 1, gets at 1. rewrite Eb.
      unfold lift at 1, bind at 1, ret at 1.
      unfold bind at 1, update_self at 1, modify.
      unfold bind at 1, gets at 1.
      cbn [self reorder_buffer with_reorder_buffer]. rewrite lookup_insert_eq.
      unfold lift at 1, bind at 1, ret at 1. reflexivity.
    - rewrite bool_decide_eq_true_2 by reflexivity.
      unfold bind at 1, update_self at 1, modify.
      unfold bind at 1, gets at 1.
      cbn [self reorder_buffer with_reorder_buffer]. rewrite lookup_insert_eq.
      unfold lift at 1, bind at 1, ret at 1.
      unfold bind at 1, update_self at 1, modify.
      unfold bind at 1, gets at 1.
      cbn [self reorder_buffer with_reorder_buffer counters clock clock_reads
           sock_sent status_csv log_file console last_seq duplicate_counts gap_counts
           device_heartbeats device_status last_values].
      rewrite lookup_insert_eq, insert_insert_eq.
      unfold lift at 1, bind at 1, ret at 1. reflexivity. }
  rewrite Hstep. clear Hstep.
  destruct (5 <=? length pending)%nat.
  - unfold bind. rewrite (flush_reordered_run w1 device_id pending)
      by (cbn; apply lookup_insert_eq).
    unfold say, modify.
    cbn [self counters clock clock_reads sock_sent status_csv log_file console
         with_reorder_buffer reorder_buffer last_seq duplicate_counts gap_counts
         device_heartbeats device_status last_values w1].
    rewrite insert_insert_eq. reflexivity.
  - reflexivity.
Qed.

Lemma rows_from_not_duplicates (clk : nat -> F) n es :
  Forall (fun r => truthy (r_duplicate_flag r) = false) (rows_from clk n es).
Proof.
  revert n. induction es as [|e rest IH]; intros n; [constructor|].
  cbn [rows_from]. apply Forall_app. split; [|apply IH].
  destruct (truthy (e_duplicate_flag e)) eqn:Ed; repeat constructor. exact Ed.
Qed.

(** C3. When storing an entry brings a device's pending entries to five (or
    more), [handle_packet]'s storing step returns, and: the pending entries
    are put in ascending order of send time, entries with equal send times
    keeping their order of arrival; the rows appended to the telemetry log
    are those of the entries that are not flagged duplicate, in that order,
    so no row is a duplicate's; the device's buffer is empty afterwards and
    other devices' buffers are untouched. *)
Theorem reorder_flush_sorted (w : world F) (e : entry) :
  let device_id := e_device_id e in
  let pending := default [] (reorder_buffer (self w) !! device_id) ++ [e] in
  (5 <= length pending)%nat ->
  exists w' sorted rows,
    store_reordered e w = (w', Ok tt) /\
    sorted ≡ₚ pending /\
    StronglySorted (key_le e_timestamp) sorted /\
    (forall ts, filter (fun x => e_timestamp x = ts) sorted
                = filter (fun x => e_timestamp x = ts) pending) /\
    log_file w' = log_file w ++ rows /\
    rows = rows_from (clock w) (clock_reads w) sorted /\
    (fun r => (r_timestamp_sent r, r_seq r, r_duplicate_flag r)) <$> rows
    = (fun x => (e_timestamp x, e_seq x, e_duplicate_flag x))
        <$> filter (fun x => truthy (e_duplicate_flag x) = false) sorted /\
    Forall (fun r => truthy (r_duplicate_flag r) = false) rows /\
    reorder_buffer (self w') !! device_id = Some [] /\
    (forall other, other <> device_id ->
       reorder_buffer (self w') !! other = reorder_buffer (self w) !! other).
Proof.
  intros device_id pending Hfive.
  pose proof (store_reordered_run w e) as Hrun. cbv zeta in Hrun.
  fold device_id pending in Hrun.
  replace (5 <=? length pending)%nat with true in Hrun
    by (symmetry; apply Nat.leb_le; exact Hfive).
  eexists _, (sort_by e_timestamp pending), _.
  split; [exact Hrun|].
  split; [apply sort_by_perm|].
  split; [apply sort_by_sorted|].
  split; [intros ts; apply sort_by_stable|].
  split; [reflexivity|]. split; [reflexivity|].
  split; [apply rows_from_entries|].
  split; [apply rows_from_not_duplicates|].
  cbn [self reorder_buffer with_reorder_buffer].
  split; [apply lookup_insert_eq|].
  intros other Ho. by rewrite lookup_insert_ne.
Qed.

(** Below five pending entries nothing is logged: the entry is
    appended to the device's buffer and waits there, for as long as the
    device's fifth entry does not arrive. *)
Lemma reorder_below_threshold (w : world F) (e : entry) :
  let device_id := e_device_id e in
  let pending := default [] (reorder_buffer (self w) !! device_id) ++ [e] in
  (length pending < 5)%nat ->
  exists w',
    store_reordered e w = (w', Ok tt) /\
    log_file w' = log_file w /\
    reorder_buffer (self w') !! device_id = Some pending.
Proof.
  intros device_id pending Hlt.
  pose proof (store_reordered_run w e) as Hrun. cbv zeta in Hrun.
  fold device_id pending in Hrun.
  replace (5 <=? length pending)%nat with false in Hrun
    by (symmetry; apply Nat.leb_gt; exact Hlt).
  eexists. split; [exact Hrun|]. split; [reflexivity|].
  cbn. apply lookup_insert_eq.
Qed.

End ReorderBuffer.

(** Send times 50, 30, 40 (a duplicate), 30 pending and 20 arriving: rows for
    20, 30, 30, 50, the two entries at 30 in their order of arrival. *)
Lemma reorder_flush_sorted_witness :
  let w := shuffled_server in
  let e := pending_entry 20 5 0 in
  let device_id := Server.e_device_id e in
  let pending := default [] (Server.reorder_buffer (Server.self w) !! device_id) ++ [e] in
  (5 <= length pending)%nat /\
  exists w' sorted rows,
    Server.store_reordered e w = (w', Ok tt) /\
    sorted ≡ₚ pending /\
    StronglySorted (key_le Server.e_timestamp) sorted /\
    (forall ts, filter (fun x => Server.e_timestamp x = ts) sorted
                = filter (fun x => Server.e_timestamp x = ts) pending) /\
    Server.log_file w' = Server.log_file w ++ rows /\
    rows = rows_from (Server.clock w) (Server.clock_reads w) sorted /\
    (fun r => (Server.r_timestamp_sent r, Server.r_seq r, Server.r_duplicate_flag r)) <$> rows
    = (fun x => (Server.e_timestamp x, Server.e_seq x, Server.e_duplicate_flag x))
        <$> filter (fun x => truthy (Server.e_duplicate_flag x) = false) sorted /\
    Forall (fun r => truthy (Server.r_duplicate_flag r) = false) rows /\
    Server.reorder_buffer (Server.self w') !! device_id = Some [] /\
    (forall other, other <> device_id ->
       Server.reorder_buffer (Server.self w') !! other
       = Server.reorder_buffer (Server.self w) !! other).
Proof.
  intros w e device_id pending.
  assert (H5 : (5 <= length pending)%nat) by (vm_compute; lia).
  split; [exact H5|].
  exact (reorder_flush_sorted w e H5).
Defined.

Example shuffled_entries_flushed :
  let w' := fst (Server.store_reordered (pending_entry 20 5 0) shuffled_server) in
  (fun r => (Server.r_timestamp_sent r, Server.r_seq r, Server.r_timestamp_arrival r))
    <$> Server.log_file w'
  = [(20, 5, 101); (30, 2, 102); (30, 4, 103); (50, 1, 105)] /\
  Server.reorder_buffer (Server.self w') !! 7 = Some [].
Proof. vm_compute. split; reflexivity. Qed.

(** ** Packets of unknown type *)
Section UnknownType.
Context {F : Type} {B : Builtins F}.
Import Server.

(** A decoded sequence number is a 16-bit value. *)
Lemma decode_seq_range data version msg_type device_id seq timestamp flags payload :
  decode data = Header version msg_type device_id seq timestamp flags payload ->
  0 <= seq < 65536.
Proof.
  unfold decode. destruct (length data <? HEADER_SIZE)%nat eqn:El; [discriminate|].
  apply Nat.ltb_ge in El.
  unfold unpack_header.
  destruct (length (take HEADER_SIZE data) =? HEADER_SIZE)%nat; [|discriminate].
  intros [= _ _ _ <- _ _ _].
  pose proof (be_value_range (take 2 (drop 3 (take HEADER_SIZE data)))) as Hr.
  rewrite length_take, length_drop, length_take in Hr. unfold HEADER_SIZE in *.
  replace (2 `min` (10 `min` length data - 3))%nat with 2%nat in Hr by lia.
  exact Hr.
Qed.

(** With consistent dicts [detect_seq_state] returns, for any sequence
    number, and touches only the tracker. *)
Lemma detect_seq_state_returns (w : world F) (device_id seq : Z) :
  seq_tables_consistent (self w) ->
  exists w' duplicate_flag gap_flag gap_count_here,
    detect_seq_state device_id seq w
      = (w', Ok (duplicate_flag, gap_flag, gap_count_here)) /\
    tracker_frame w w' /\
    seq_tables_consistent (self w').
Proof.
  intros Hcons.
  unfold detect_seq_state, bind, gets.
  destruct (last_seq (self w) !! device_id) as [L|] eqn:EL.
  - destruct (Hcons device_id) as [[dc Hdc] [gc Hgc]]; [by rewrite EL|].
    destruct (seq =? L);
      [|destruct (seq =? Z.land (L + 1) 65535);
        [|destruct ((Z.land L 65535 <? Z.land seq 65535) && (L + 1 <? seq))]].
    + unfold dict_add. rewrite Hdc. cbn.
      eexists _, _, _, _. split; [reflexivity|].
      split; [by repeat split|].
      intros d Hd. cbn in *. specialize (Hcons d Hd). split; [|tauto].
      destruct (decide (d = device_id)) as [->|Hd'].
      * rewrite lookup_insert_eq. eauto.
      * rewrite lookup_insert_ne by done. tauto.
    + cbn. eexists _, _, _, _. split; [reflexivity|].
      split; [by repeat split|].
      intros d Hd. cbn in *. apply Hcons.
      destruct (decide (d = device_id)) as [->|Hd']; [by rewrite EL|].
      by rewrite lookup_insert_ne in Hd.
    + unfold dict_add. rewrite Hgc. cbn.
      eexists _, _, _, _. split; [reflexivity|].
      split; [by repeat split|].
      intros d Hd. cbn in *.
      destruct (decide (d = device_id)) as [->|Hd'].
      * rewrite lookup_insert_eq. split; eauto.
      * rewrite lookup_insert_ne in Hd by done.
        rewrite lookup_insert_ne by done. by apply Hcons.
    + cbn. eexists _, _, _, _. split; [reflexivity|].
      split; [by repeat split|]. exact Hcons.
  - cbn. eexists _, _, _, _. split; [reflexivity|].
    split; [by repeat split|].
    intros d Hd. cbn in *.
    destruct (decide (d = device_id)) as [->|Hd'].
    + rewrite !lookup_insert_eq. split; eauto.
    + rewrite lookup_insert_ne in Hd by done.
      rewrite !lookup_insert_ne by done. by apply Hcons.
Qed.

(** [detect_seq_state] on 16-bit numbers, in full: what it returns and the
    device's entries afterwards are those of the reference classifier, the
    global duplicate counter goes up by one exactly on a duplicate, the
    global gap counter is left to the caller, and nothing else changes. *)
Lemma detect_seq_state_classifies (w : world F) (device_id seq : Z) :
  seq_tables_consistent (self w) ->
  0 <= seq < 65536 ->
  (forall L, last_seq (self w) !! device_id = Some L -> 0 <= L < 65536) ->
  exists w' duplicate_flag gap_flag gap_count_here,
    detect_seq_state device_id seq w
      = (w', Ok (duplicate_flag, gap_flag, gap_count_here)) /\
    (tracker_view (self w') device_id,
     Reference.mk_class (truthy duplicate_flag) (truthy gap_flag) gap_count_here)
      = Reference.classify (tracker_view (self w) device_id) seq /\
    (forall other, other <> device_id ->
       tracker_view (self w') other = tracker_view (self w) other) /\
    duplicate_count (counters w')
    = duplicate_count (counters w) + (if truthy duplicate_flag then 1 else 0) /\
    gap_count (counters w') = gap_count (counters w) /\
    (truthy duplicate_flag = true -> truthy gap_flag = false).
Proof.
  intros Hcons Hseq Hlast.
  unfold detect_seq_state, bind, gets.
  destruct (last_seq (self w) !! device_id) as [L|] eqn:EL.
  - specialize (Hlast L eq_refl).
    destruct (Hcons device_id) as [[dc Hdc] [gc Hgc]]; [by rewrite EL|].
    rewrite !land_0xFFFF, (Z.mod_small L), (Z.mod_small seq) by lia.
    destruct (seq =? L) eqn:E1; [|destruct (seq =? (L + 1) mod 65536) eqn:E2;
      [|destruct ((L <? seq) && (L + 1 <? seq)) eqn:E3]].
    + unfold dict_add. rewrite Hdc. simpl.
      eexists _, _, _, _. split; [reflexivity|]. simpl.
      split; [|split; [|by repeat split]].
      * unfold Reference.classify, tracker_view. simpl.
        rewrite EL, E1, Hdc, lookup_insert_eq.
        apply Z.eqb_eq in E1 as ->. reflexivity.
      * intros o Ho. unfold tracker_view. simpl. by rewrite lookup_insert_ne.
    + simpl. eexists _, _, _, _. split; [reflexivity|]. simpl.
      split; [|split; [|rewrite Z.add_0_r; by repeat split]].
      * unfold Reference.classify, tracker_view. simpl.
        rewrite EL, E1, E2, lookup_insert_eq. reflexivity.
      * intros o Ho. unfold tracker_view. simpl. by rewrite lookup_insert_ne.
    + unfold dict_add. rewrite Hgc. simpl.
      eexists _, _, _, _. split; [reflexivity|]. simpl.
      split; [|split; [|rewrite Z.add_0_r; by repeat split]].
      * unfold Reference.classify, tracker_view. simpl.
        rewrite EL, E1, E2, E3, !lookup_insert_eq, Hdc, Hgc. reflexivity.
      * intros o Ho. unfold tracker_view. simpl. by rewrite !lookup_insert_ne.
    + simpl. eexists _, _, _, _. split; [reflexivity|]. simpl.
      split; [|split; [done|rewrite Z.add_0_r; by repeat split]].
      unfold Reference.classify, tracker_view. simpl.
      rewrite EL, E1, E2, E3. reflexivity.
  - simpl. eexists _, _, _, _. split; [reflexivity|]. simpl.
    split; [|split; [|rewrite Z.add_0_r; by repeat split]].
    + unfold Reference.classify, tracker_view. simpl.
      rewrite EL, !lookup_insert_eq. reflexivity.
    + intros o Ho. unfold tracker_view. simpl. by rewrite !lookup_insert_ne.
Qed.

(** C10. A datagram whose header decodes to a message type other than 1 and
    2 is counted and then classified like any other, before its type is
    looked at.  After [handle_packet] the device's last sequence number
    and its duplicate and gap counters are those the reference classifier
    [Reference.classify] gives for the device's state before and the
    packet's sequence number (first observation, duplicate, in-order
    advance, gap, stale), the global duplicate counter has gone up by one
    on a duplicate and the global gap counter by the gap size on a gap;
    other devices are untouched.  The packet itself is dropped: the
    reorder buffer, the last values, the heartbeat state, the socket (no
    ACK), the reading counter and both CSV files are unchanged, and no
    exception is raised. *)
Theorem unknown_type_classified_then_dropped (w : world F) (data : list byte)
    (addr : address) (version msg_type device_id seq timestamp flags : Z)
    (payload : list byte) :
  decode data = Header version msg_type device_id seq timestamp flags payload ->
  msg_type <> 1 -> msg_type <> 2 ->
  seq_tables_consistent (self w) ->
  (forall L, last_seq (self w) !! device_id = Some L -> 0 <= L < 65536) ->
  exists w1 duplicate_flag gap_flag gap_count_here w',
    detect_seq_state device_id seq
      (received w data addr version msg_type device_id seq timestamp flags)
      = (w1, Ok (duplicate_flag, gap_flag, gap_count_here)) /\
    handle_packet data addr w = (w', Ok tt) /\
    (tracker_view (self w') device_id,
     Reference.mk_class (truthy duplicate_flag) (truthy gap_flag) gap_count_here)
      = Reference.classify (tracker_view (self w) device_id) seq /\
    (forall other, other <> device_id ->
       tracker_view (self w') other = tracker_view (self w) other) /\
    duplicate_count (counters w')
    = duplicate_count (counters w) + (if truthy duplicate_flag then 1 else 0) /\
    gap_count (counters w')
    = gap_count (counters w) + (if truthy gap_flag then gap_count_here else 0) /\
    last_seq (self w') = last_seq (self w1) /\
    duplicate_counts (self w') = duplicate_counts (self w1) /\
    gap_counts (self w') = gap_counts (self w1) /\
    reorder_buffer (self w') = reorder_buffer (self w) /\
    last_values (self w') = last_values (self w) /\
    device_heartbeats (self w') = device_heartbeats (self w) /\
    device_status (self w') = device_status (self w) /\
    sock_sent w' = sock_sent w /\
    total_readings (counters w') = total_readings (counters w) /\
    log_file w' = log_file w /\
    status_csv w' = status_csv w /\
    total_packets (counters w') = total_packets (counters w) + 1 /\
    last (console w')
    = Some (if truthy duplicate_flag then DuplicatePacket device_id seq
            else UnknownMessageType msg_type device_id) /\
    seq_tables_consistent (self w').
Proof.
  intros Hdec Hn1 Hn2 Hcons Hlast.
  pose proof (decode_seq_range _ _ _ _ _ _ _ _ Hdec) as Hseq.
  set (w0 := received w data addr version msg_type device_id seq timestamp flags).
  destruct (detect_seq_state_classifies w0 device_id seq Hcons Hseq Hlast)
    as (w1 & d & g & n & Hdet & Hclass & Hothers & Hdup & Hgap & Hexcl).
  destruct (detect_seq_state_returns w0 device_id seq Hcons)
    as (w1' & d' & g' & n' & Hdet' & Hframe & Hcons1).
  rewrite Hdet in Hdet'. injection Hdet' as <- <- <- <-.
  destruct Hframe as (F1 & F2 & F3 & F4 & F5 & F6 & F7 & F8 & F9 & F10 & F11 & F12).
  cbn [w0 received self counters clock clock_reads sock_sent status_csv log_file
       total_packets total_readings total_bytes duplicate_count gap_count] in *.
  assert (Hrun : handle_packet data addr w
    = (let '(duplicate_flag, gap_flag, gap_count_here) := (d, g, n) in
       if truthy duplicate_flag then say (DuplicatePacket device_id seq) else
       (if truthy gap_flag then
          say (GapDetected device_id gap_count_here) ;;;
          s <- gets self ;;
          match last_values s !! device_id with
          | Some predicted_values => say (PredictedValues device_id predicted_values)
          | None => ret tt
          end ;;;
          update_counters (fun m =>
            mk_metrics (total_packets m) (total_readings m) (duplicate_count m)
                       (gap_count m + gap_count_here) (total_bytes m))
        else ret tt) ;;;
       say (UnknownMessageType msg_type device_id)) w1).
  { unfold handle_packet. rewrite Hdec.
    unfold bind at 1, update_counters at 1, modify.
    unfold bind at 1, time_time at 1.
    unfold bind at 1, say at 1, modify.
    cbn [self counters clock clock_reads sock_sent status_csv log_file console].
    unfold bind at 1. fold w0. unfold received in w0. fold w0. rewrite Hdet.
    replace (msg_type =? 1) with false by (symmetry; by apply Z.eqb_neq).
    replace (msg_type =? 2) with false by (symmetry; by apply Z.eqb_neq).
    reflexivity. }
  exists w1, d, g, n. rewrite Hrun. cbv zeta iota beta.
  destruct (truthy d) eqn:Ed; rewrite ?Z.add_0_r in Hdup.
  - rewrite (Hexcl eq_refl) in *.
    eexists. split; [exact Hdet|]. split; [reflexivity|].
    cbn [self counters sock_sent log_file status_csv console
         duplicate_count gap_count total_packets total_readings].
    rewrite Z.add_0_r, last_snoc, Hgap.
    repeat (split; [first [reflexivity | assumption]|]). exact Hcons1.
  - destruct (truthy g) eqn:Eg.
    + unfold bind at 1. unfold bind at 1, say at 1, modify.
      unfold bind at 1, gets at 1.
      cbn [self counters clock clock_reads sock_sent status_csv log_file console].
      destruct (last_values (self w1) !! device_id) as [pv|];
        unfold bind, say, ret, update_counters, modify;
        cbn [self counters clock clock_reads sock_sent status_csv log_file console
             duplicate_count gap_count total_packets total_readings];
        (eexists; split; [exact Hdet|]; split; [reflexivity|]);
        cbn [self counters sock_sent log_file status_csv console
             duplicate_count gap_count total_packets total_readings];
        rewrite last_snoc, Hgap, ?Z.add_0_r;
        repeat (split; [first [reflexivity | assumption]|]); exact Hcons1.
    + unfold bind, say, ret, modify.
      eexists. split; [exact Hdet|]. split; [reflexivity|].
      cbn [self counters sock_sent log_file status_csv console
           duplicate_count gap_count total_packets total_readings].
      rewrite !Z.add_0_r, last_snoc, Hgap.
      repeat (split; [first [reflexivity | assumption]|]). exact Hcons1.
Qed.

End UnknownType.

(** A type-3 packet with sequence number 15 reaches a server that last saw
    10 from the device: the packet is dropped, and the device's last
    sequence number is 15 and its gap counter 4 afterwards. *)
Lemma unknown_type_classified_then_dropped_witness :
  let w := tracking (ticking_clock 0) 7 10 in
  let data := unknown_type_packet in
  let addr := sample_address in
  Server.decode data = Server.Header 1 3 7 15 1700000000 2 (be_bytes 4 2500) /\
  3 <> 1 /\ 3 <> 2 /\
  seq_tables_consistent (Server.self w) /\
  (forall L, Server.last_seq (Server.self w) !! 7 = Some L -> 0 <= L < 65536) /\
  exists w1 duplicate_flag gap_flag gap_count_here w',
    Server.detect_seq_state 7 15 (received w data addr 1 3 7 15 1700000000 2)
      = (w1, Ok (duplicate_flag, gap_flag, gap_count_here)) /\
    Server.handle_packet data addr w = (w', Ok tt) /\
    (tracker_view (Server.self w') 7,
     Reference.mk_class (truthy duplicate_flag) (truthy gap_flag) gap_count_here)
      = (Reference.mk_state (Some 15) 0 4, Reference.mk_class false true 4) /\
    (forall other, other <> 7 ->
       tracker_view (Server.self w') other = tracker_view (Server.self w) other) /\
    Server.duplicate_count (Server.counters w')
    = Server.duplicate_count (Server.counters w)
      + (if truthy duplicate_flag then 1 else 0) /\
    Server.gap_count (Server.counters w')
    = Server.gap_count (Server.counters w)
      + (if truthy gap_flag then gap_count_here else 0) /\
    Server.last_seq (Server.self w') = Server.last_seq (Server.self w1) /\
    Server.duplicate_counts (Server.self w') = Server.duplicate_counts (Server.self w1) /\
    Server.gap_counts (Server.self w') = Server.gap_counts (Server.self w1) /\
    Server.reorder_buffer (Server.self w') = Server.reorder_buffer (Server.self w) /\
    Server.last_values (Server.self w') = Server.last_values (Server.self w) /\
    Server.device_heartbeats (Server.self w') = Server.device_heartbeats (Server.self w) /\
    Server.device_status (Server.self w') = Server.device_status (Server.self w) /\
    Server.sock_sent w' = Server.sock_sent w /\
    Server.total_readings (Server.counters w') = Server.total_readings (Server.counters w) /\
    Server.log_file w' = Server.log_file w /\
    Server.status_csv w' = Server.status_csv w /\
    Server.total_packets (Server.counters w') = Server.total_packets (Server.counters w) + 1 /\
    last (Server.console w')
    = Some (if truthy duplicate_flag then Server.DuplicatePacket 7 15
            else Server.UnknownMessageType 3 7) /\
    seq_tables_consistent (Server.self w').
Proof.
  intros w data addr.
  assert (H1 : Server.decode data
               = Server.Header 1 3 7 15 1700000000 2 (be_bytes 4 2500))
    by (vm_compute; reflexivity).
  assert (H2 : 3 <> 1) by lia.
  assert (H3 : 3 <> 2) by lia.
  assert (H4 : seq_tables_consistent (Server.self w))
    by apply seq_tables_consistent_tracking.
  assert (H5 : forall L, Server.last_seq (Server.self w) !! 7 = Some L -> 0 <= L < 65536).
  { intros L HL. vm_compute in HL. injection HL as <-. lia. }
  assert (Hc : Reference.classify (tracker_view (Server.self w) 7) 15
               = (Reference.mk_state (Some 15) 0 4, Reference.mk_class false true 4))
    by (vm_compute; reflexivity).
  repeat (split; [assumption|]).
  rewrite <- Hc.
  exact (unknown_type_classified_then_dropped w data addr 1 3 7 15 1700000000 2
           (be_bytes 4 2500) H1 H2 H3 H4 H5).
Defined.

(** The dropped packet has moved the tracker: last sequence 15, four
    packets counted missing; nothing is buffered and no ACK goes out although
    the flag asks for one. *)
Example unknown_type_moves_tracker :
  let w := tracking (ticking_clock 0) 7 10 in
  let r := Server.handle_packet unknown_type_packet sample_address w in
  snd r = Ok tt /\
  Server.last_seq (Server.self (fst r)) !! 7 = Some 15 /\
  Server.gap_counts (Server.self (fst r)) !! 7 = Some 4 /\
  Server.gap_count (Server.counters (fst r)) = 4 /\
  Server.reorder_buffer (Server.self (fst r)) !! 7 = None /\
  Server.last_values (Server.self (fst r)) !! 7 = None /\
  Server.sock_sent (fst r) = [] /\
  Server.log_file (fst r) = [] /\
  last (Server.console (fst r)) = Some (Server.UnknownMessageType 3 7).
Proof. vm_compute. repeat split; reflexivity. Qed.

(** A datagram under ten bytes is dropped before anything is counted. *)
Example short_datagram_dropped :
  let w := tracking (ticking_clock 0) 7 10 in
  Server.handle_packet (take 9 unknown_type_packet) sample_address w
  = (Server.mk_world (Server.self w) (Server.counters w) (Server.clock w)
       (Server.clock_reads w) [] [] [] [Server.PacketTooShort], Ok tt).
Proof. reflexivity. Qed.

Section Duplicates.
Context {F : Type} {B : Builtins F}.
Import Server.

(** X18. A packet repeating the device's last sequence number is counted as
    a duplicate and goes no further: whatever its type and flags, it is
    neither buffered, nor logged, nor acknowledged, so a retransmission of a
    packet the server already has never gets the ACK it asks for. *)
Lemma duplicate_never_buffered (w : world F) (data : list byte) (addr : address)
    (version msg_type device_id seq timestamp flags : Z) (payload : list byte) :
  decode data = Header version msg_type device_id seq timestamp flags payload ->
  seq_tables_consistent (self w) ->
  last_seq (self w) !! device_id = Some seq ->
  exists w',
    handle_packet data addr w = (w', Ok tt) /\
    reorder_buffer (self w') = reorder_buffer (self w) /\
    log_file w' = log_file w /\
    sock_sent w' = sock_sent w /\
    last_seq (self w') = last_seq (self w) /\
    duplicate_count (counters w') = duplicate_count (counters w) + 1 /\
    last (console w') = Some (DuplicatePacket device_id seq).
Proof.
  intros Hdec Hcons Hlast.
  destruct (Hcons device_id) as [[dc Hdc] _]; [by rewrite Hlast|].
  unfold handle_packet. rewrite Hdec.
  unfold bind at 1, update_counters at 1, modify.
  unfold bind at 1, time_time at 1.
  unfold bind at 1, say at 1, modify.
  cbn [self counters clock clock_reads sock_sent status_csv log_file console].
  unfold bind at 1.
  unfold detect_seq_state, bind at 1, gets at 1. cbn [self].
  rewrite Hlast, Z.eqb_refl. unfold dict_add. rewrite Hdc.
  unfold bind, lift, ret, update_self, update_counters, say, modify. cbn.
  eexists. split; [reflexivity|]. cbn. rewrite last_snoc.
  repeat split; reflexivity.
Qed.

End Duplicates.

(** A reply that starts with [ACK] but carries no number makes [int] raise
    [ValueError], which [send_batch_packet] does not catch. *)
Example malformed_ack_raises :
  let w := Sensor.mk_world (Sensor.self hot_sensor) (Sensor.clock hot_sensor) 2%nat []
             [Sensor.Datagram ACK_bytes] [] in
  let r := Sensor.temperature_send_batch_packet w in
  snd r = Raise ValueError /\
  length (Sensor.sock_sent (fst r)) = 1%nat /\
  Sensor.batch_buffer (Sensor.self (fst r)) = [1500; 2200; 3600].
Proof. vm_compute. repeat split; reflexivity. Qed.

(** ** DATA packets on the server *)
Section DataPackets.
Context {F : Type} {B : Builtins F}.
Import Server.

(** A sequence number other than the device's last one is not flagged as a
    duplicate. *)
Lemma detect_seq_state_fresh (w : world F) (device_id seq : Z) :
  seq_tables_consistent (self w) ->
  last_seq (self w) !! device_id <> Some seq ->
  exists w' gap_flag gap_count_here,
    detect_seq_state device_id seq w = (w', Ok (0, gap_flag, gap_count_here)) /\
    tracker_frame w w'.
Proof.
  intros Hcons Hfresh.
  destruct (detect_seq_state_returns w device_id seq Hcons)
    as (w' & d & g & n & Hdet & Hframe & _).
  exists w', g, n. split; [|exact Hframe].
  rewrite Hdet. f_equal. f_equal. f_equal. f_equal.
  revert Hdet. unfold detect_seq_state, bind, gets.
  destruct (last_seq (self w) !! device_id) as [L|] eqn:EL.
  - destruct (Z.eqb_spec seq L) as [->|Hne]; [congruence|].
    destruct (seq =? Z.land (L + 1) 65535);
      [|destruct ((Z.land L 65535 <? Z.land seq 65535) && (L + 1 <? seq))].
    + unfold update_self, modify, ret. congruence.
    + destruct (dict_add _ _ _); unfold lift, update_self, modify, ret, raise;
        congruence.
    + unfold say, modify, ret. congruence.
  - unfold update_self, modify, ret. congruence.
Qed.

(** [handle_packet] on a DATA packet that is not a duplicate, be it in
    order, after a gap or stale: the payload's readings become the device's
    last values and are counted, an ACK [ACK <seq>] goes back to the sender
    exactly when bit 1 of the flags is set, and the packet is handed to the
    reorder buffer as an entry that is not flagged duplicate. *)
Lemma handle_packet_data (w : world F) (data : list byte) (addr : address)
    (version device_id seq timestamp flags : Z) (payload : list byte) :
  decode data = Header version 1 device_id seq timestamp flags payload ->
  seq_tables_consistent (self w) ->
  last_seq (self w) !! device_id <> Some seq ->
  exists w2 gap_flag,
    handle_packet data addr w
    = store_reordered
        (mk_entry timestamp device_id seq 1 payload 0 gap_flag flags
                  (Z.of_nat (length (words_of payload)))) w2 /\
    last_values (self w2) !! device_id = Some (words_of payload) /\
    reorder_buffer (self w2) = reorder_buffer (self w) /\
    log_file w2 = log_file w /\
    sock_sent w2
    = sock_sent w ++ (if negb (Z.land flags 0x02 =? 0)
                      then [(ack_message seq, addr)] else []) /\
    total_readings (counters w2)
    = total_readings (counters w) + Z.of_nat (length (words_of payload)).
Proof.
  intros Hdec Hcons Hfresh.
  set (w0 := received w data addr version 1 device_id seq timestamp flags).
  destruct (detect_seq_state_fresh w0 device_id seq Hcons Hfresh)
    as (w1 & g & n & Hdet & Hframe).
  destruct Hframe as (F1 & _ & _ & F4 & F5 & _ & F7 & _ & _ & _ & F11 & _).
  cbn [w0 received self counters sock_sent log_file total_readings] in F1, F4, F5, F7, F11.
  unfold handle_packet. rewrite Hdec.
  unfold bind at 1, update_counters at 1, modify.
  unfold bind at 1, time_time at 1.
  unfold bind at 1, say at 1, modify.
  cbn [self counters clock clock_reads sock_sent status_csv log_file console].
  unfold bind at 1. fold w0. unfold received in w0. fold w0. rewrite Hdet.
  change (truthy 0) with false. change (1 =? 1) with true. cbv iota.
  rewrite parse_values_words.
  exists (fst (
    ((if truthy g then
        say (GapDetected device_id n) ;;;
        s <- gets self ;;
        match last_values s !! device_id with
        | Some predicted_values => say (PredictedValues device_id predicted_values)
        | None => ret tt
        end ;;;
        update_counters (fun m =>
          mk_metrics (total_packets m) (total_readings m) (duplicate_count m)
                     (gap_count m + n) (total_bytes m))
      else ret tt) ;;;
     update_self (fun s => with_last_values
                             (<[device_id := words_of payload]> (last_values s)) s) ;;;
     update_counters (fun m =>
       mk_metrics (total_packets m)
                  (total_readings m + Z.of_nat (length (words_of payload)))
                  (duplicate_count m) (gap_count m) (total_bytes m)) ;;;
     say (DeviceValues device_id (words_of payload)) ;;;
     (if negb (Z.land flags 0x02 =? 0) then send_ack addr device_id seq else ret tt)) w1)), g.
  unfold send_ack.
  unfold bind, lift, ret, say, gets, update_self, update_counters, modify.
  cbn [self counters clock clock_reads sock_sent status_csv log_file console fst snd].
  destruct (truthy g);
    cbn [self counters clock clock_reads sock_sent status_csv log_file console fst snd];
    [destruct (last_values (self w1) !! device_id) as [pv|]|];
    destruct (Z.land flags 2 =? 0);
    (split; [reflexivity|]);
    cbn [self counters clock clock_reads sock_sent status_csv log_file console
         fst snd negb with_last_values last_values reorder_buffer total_readings];
    rewrite ?app_nil_r, lookup_insert_eq, F1, F5, F7, F11; repeat split; reflexivity.
Qed.

End DataPackets.

(** The packet of the round-trip example, received by a fresh server: the
    readings are stored, the ACK for sequence number 1 goes back to the
    sender, one entry waits in the reorder buffer. *)
Example sample_packet_received :
  let sent := Sensor.build_packet 1 (default [] (payload_join sample_readings)) 2
                sample_sensor in
  match snd sent with
  | Ok pkt =>
      let r := Server.handle_packet pkt sample_address (Server.init (ticking_clock 1700000005)) in
      snd r = Ok tt /\
      Server.last_values (Server.self (fst r)) !! 1001 = Some [1500; 2200; 3600] /\
      Server.sock_sent (fst r) = [(ack_message 1, sample_address)] /\
      (length <$> Server.reorder_buffer (Server.self (fst r)) !! 1001) = Some 1%nat /\
      Server.total_readings (Server.counters (fst r)) = 3
  | _ => False
  end.
Proof. vm_compute. repeat split; reflexivity. Qed.

(** ** The server never raises *)
Section ServerTotal.
Context {F : Type} {B : Builtins F}.
Import Server.

Lemma server_invariant_init (clk : nat -> F) : server_invariant (self (init clk)).
Proof.
  split; [apply seq_tables_consistent_init|].
  intros d L HL. simpl in HL. by rewrite lookup_empty in HL.
Qed.

(** The last sequence numbers after [detect_seq_state] are the old ones,
    but for the device's, which may have become [seq]. *)
Lemma detect_seq_state_last_seq (w w' : world F) device_id seq r :
  detect_seq_state device_id seq w = (w', r) ->
  forall d L, last_seq (self w') !! d = Some L ->
              last_seq (self w) !! d = Some L \/ L = seq.
Proof.
  unfold detect_seq_state, bind, gets.
  assert (Hins : forall d L,
    <[device_id := seq]> (last_seq (self w)) !! d = Some L ->
    last_seq (self w) !! d = Some L \/ L = seq).
  { intros d L. destruct (decide (d = device_id)) as [->|Hd].
    - rewrite lookup_insert_eq. intros [= <-]. by right.
    - rewrite lookup_insert_ne by done. by left. }
  destruct (last_seq (self w) !! device_id) as [last|] eqn:EL.
  - destruct (seq =? last);
      [|destruct (seq =? Z.land (last + 1) 65535);
        [|destruct ((Z.land last 65535 <? Z.land seq 65535) && (last + 1 <? seq))]].
    + destruct (dict_add _ _ _); unfold lift, ret, raise, update_self,
        update_counters, modify; intros [= <- _]; cbn; auto.
    + unfold ret, update_self, modify. intros [= <- _]. cbn. exact Hins.
    + destruct (dict_add _ _ _); unfold lift, ret, raise, update_self, modify;
        intros [= <- _]; cbn; auto.
    + unfold ret, say, modify. intros [= <- _]. cbn. auto.
  - unfold ret, update_self, modify. intros [= <- _]. cbn. exact Hins.
Qed.

Lemma tracker_kept_invariant (s s' : server F) :
  tracker_kept s s' -> server_invariant s -> server_invariant s'.
Proof.
  intros (H1 & H2 & H3) [Hc Hr]. split.
  - intros d. rewrite H1, H2, H3. apply Hc.
  - intros d L. rewrite H1. apply Hr.
Qed.

Lemma handle_heartbeat_keeps (w : world F) device_id :
  exists w', handle_heartbeat device_id w = (w', Ok tt) /\
             tracker_kept (self w) (self w').
Proof.
  eexists. split; [apply handle_heartbeat_run|]. cbv zeta. cbn [self].
  match goal with |- context [if ?e then _ else _] => destruct e end;
    by repeat split.
Qed.

Lemma store_reordered_keeps (w : world F) e :
  exists w', store_reordered e w = (w', Ok tt) /\
             tracker_kept (self w) (self w').
Proof.
  rewrite store_reordered_run. cbv zeta.
  match goal with |- context [if ?e then _ else _] => destruct e end;
    eexists; (split; [reflexivity|]); by repeat split.
Qed.

(** Whatever the datagram, [handle_packet] returns and keeps the
    invariant. *)
Lemma handle_packet_total (w : world F) (data : list byte) (addr : address) :
  server_invariant (self w) ->
  exists w', handle_packet data addr w = (w', Ok tt) /\ server_invariant (self w').
Proof.
  intros [Hcons Hrange].
  unfold handle_packet.
  destruct (decode data) as [| |version msg_type device_id seq timestamp flags payload]
    eqn:Hdec.
  - eexists. split; [reflexivity|]. by split.
  - eexists. split; [reflexivity|]. by split.
  - pose proof (decode_seq_range _ _ _ _ _ _ _ _ Hdec) as Hseq.
    unfold bind at 1, update_counters at 1, modify.
    unfold bind at 1, time_time at 1.
    unfold bind at 1, say at 1, modify.
    cbn [self counters clock clock_reads sock_sent status_csv log_file console].
    unfold bind at 1.
    match goal with |- context [detect_seq_state device_id seq ?w0] =>
      destruct (detect_seq_state_returns w0 device_id seq Hcons)
        as (w1 & d & g & n & Hdet & _ & Hcons1);
      pose proof (detect_seq_state_last_seq w0 w1 device_id seq _ Hdet) as Hlast
    end.
    rewrite Hdet.
    assert (Hinv1 : server_invariant (self w1)).
    { split; [exact Hcons1|]. intros dv L HL.
      destruct (Hlast dv L HL) as [Hold| ->]; [exact (Hrange dv L Hold)|exact Hseq]. }
    clear Hlast Hdet Hcons1.
    destruct (truthy d); [eexists; split; [reflexivity|exact Hinv1]|].
    (* the gap accounting *)
    assert (Hgap : exists w2,
      (if truthy g then
         say (GapDetected device_id n) ;;;
         s <- gets self ;;
         match last_values s !! device_id with
         | Some predicted_values => say (PredictedValues device_id predicted_values)
         | None => ret tt
         end ;;;
         update_counters (fun m =>
           mk_metrics (total_packets m) (total_readings m) (duplicate_count m)
                      (gap_count m + n) (total_bytes m))
       else ret tt) w1 = (w2, Ok tt) /\ self w2 = self w1).
    { destruct (truthy g); [|by eexists].
      unfold bind at 1, say at 1, modify. unfold bind at 1, gets at 1.
      cbn [self]. destruct (last_values (self w1) !! device_id); by eexists. }
    destruct Hgap as (w2 & Hgap & Hself2).
    unfold bind at 1. rewrite Hgap. rewrite <- Hself2 in Hinv1. clear Hgap Hself2.
    destruct (msg_type =? 1); [|destruct (msg_type =? 2)].
    + rewrite parse_values_words. unfold bind at 1, lift at 1, ret at 1.
      unfold bind at 1, update_self at 1, modify.
      unfold bind at 1, update_counters at 1, modify.
      unfold bind at 1, say at 1, modify.
      cbn [self counters clock clock_reads sock_sent status_csv log_file console].
      unfold bind at 1.
      match goal with |- context [store_reordered ?e] => set (entry := e) end.
      destruct (negb (Z.land flags 2 =? 0)).
      * unfold send_ack, bind at 1, modify. unfold say at 1, modify.
        cbn [self counters clock clock_reads sock_sent status_csv log_file console].
        match goal with |- context [store_reordered entry ?w3] =>
          destruct (store_reordered_keeps w3 entry) as (w' & Hst & Hk)
        end.
        exists w'. split; [exact Hst|].
        apply (tracker_kept_invariant _ _ Hk).
        apply (tracker_kept_invariant (self w2)); [by repeat split|exact Hinv1].
      * unfold ret at 1.
        match goal with |- context [store_reordered entry ?w3] =>
          destruct (store_reordered_keeps w3 entry) as (w' & Hst & Hk)
        end.
        exists w'. split; [exact Hst|].
        apply (tracker_kept_invariant _ _ Hk).
        apply (tracker_kept_invariant (self w2)); [by repeat split|exact Hinv1].
    + destruct (handle_heartbeat_keeps w2 device_id) as (w3 & Hhb & Hk3).
      unfold bind at 1. rewrite Hhb.
      match goal with |- context [store_reordered ?e w3] =>
        destruct (store_reordered_keeps w3 e) as (w' & Hst & Hk)
      end.
      exists w'. split; [exact Hst|].
      apply (tracker_kept_invariant _ _ Hk), (tracker_kept_invariant _ _ Hk3), Hinv1.
    + eexists. split; [reflexivity|exact Hinv1].
Qed.

(** From its initial state the server handles any queue of datagrams
    without raising, and the invariant holds all along. *)
Lemma queue_worker_total queue : forall (w : world F),
  server_invariant (self w) ->
  exists w', queue_worker queue w = (w', Ok tt) /\ server_invariant (self w').
Proof.
  induction queue as [|[data addr] rest IH]; intros w Hinv.
  - exists w. by split.
  - destruct (handle_packet_total w data addr Hinv) as (w1 & Hrun & Hinv1).
    destruct (IH w1 Hinv1) as (w' & Hrest & Hinv').
    exists w'. split; [|exact Hinv'].
    unfold queue_worker in *. cbn [for_each fst snd]. unfold bind. by rewrite Hrun.
Qed.

End ServerTotal.

(** * Further properties of the code *)

(** ** Decoding *)

Lemma byte_of_Z_of_byte b : byte_of_Z (Z_of_byte b) = b.
Proof.
  unfold byte_of_Z, Z_of_byte.
  pose proof (Byte.to_N_bounded b) as Hb.
  rewrite Z.mod_small by lia. rewrite N2Z.id, Byte.of_to_N. reflexivity.
Qed.

Lemma be_bytes_low n : forall v y,
  be_bytes n (v + y * 2 ^ (8 * Z.of_nat n)) = be_bytes n v.
Proof.
  induction n as [|k IH]; intros v y; [reflexivity|].
  cbn [be_bytes]. f_equal.
  - assert (E : forall z, byte_of_Z z = byte_of_Z (z mod 256)).
    { intros z. unfold byte_of_Z. by rewrite Z.mod_mod by lia. }
    rewrite E, (E (Z.shiftr v _)). f_equal.
    rewrite !Z.shiftr_div_pow2 by lia.
    replace (8 * Z.of_nat (S k)) with (8 * Z.of_nat k + 8) by lia.
    rewrite Z.pow_add_r by lia.
    replace (v + y * (2 ^ (8 * Z.of_nat k) * 2 ^ 8))
      with (v + (y * 2 ^ 8) * 2 ^ (8 * Z.of_nat k)) by ring.
    rewrite Z.div_add by lia.
    change (2 ^ 8) with 256. by rewrite Z.mod_add by lia.
  - replace (8 * Z.of_nat (S k)) with (8 * Z.of_nat k + 8) by lia.
    rewrite Z.pow_add_r by lia.
    replace (v + y * (2 ^ (8 * Z.of_nat k) * 2 ^ 8))
      with (v + (y * 2 ^ 8) * 2 ^ (8 * Z.of_nat k)) by ring.
    apply IH.
Qed.

(** Packing the value of a byte string gives the byte string back. *)
Lemma be_bytes_be_value bs : be_bytes (length bs) (be_value bs) = bs.
Proof.
  induction bs as [|b rest IH]; [reflexivity|].
  cbn [length be_bytes be_value]. f_equal.
  - pose proof (be_value_range rest) as Hr.
    rewrite Z.shiftr_div_pow2 by lia.
    rewrite Z.add_comm, Z.div_add by lia.
    rewrite Z.div_small by lia. apply byte_of_Z_of_byte.
  - rewrite Z.add_comm, be_bytes_low. exact IH.
Qed.

(** X1. The header of a datagram always unpacks.  [handle_packet] finds a
    datagram too short exactly when it has fewer than 10 bytes; otherwise
    it gets a header whose six fields lie within their widths and whose
    payload is everything after the tenth byte.  The branch that reports an
    unpacking error is never taken. *)
Theorem decode_never_malformed (data : list byte) :
  match Server.decode data with
  | Server.TooShort => (length data < 10)%nat
  | Server.Malformed => False
  | Server.Header version msg_type device_id seq timestamp flags payload =>
      (10 <= length data)%nat /\
      payload = drop 10 data /\
      header_in_range version msg_type device_id seq timestamp flags
  end.
Proof.
  unfold Server.decode, HEADER_SIZE.
  destruct (Nat.ltb_spec (length data) 10) as [Hlt|Hge]; [exact Hlt|].
  unfold unpack_header, HEADER_SIZE.
  rewrite length_take, Nat.min_l, Nat.eqb_refl by exact Hge.
  split; [exact Hge|]. split; [reflexivity|].
  assert (Hland : forall z, 0 <= Z.land z 15 < 16).
  { intros z. change 15 with (Z.ones 4). rewrite Z.land_ones by lia.
    apply Z.mod_pos_bound. lia. }
  assert (Hlen : forall n k, (n + k <= 10)%nat ->
                 length (take n (drop k (take 10 data))) = n).
  { intros n k Hnk. rewrite length_take, length_drop, length_take. lia. }
  unfold header_in_range.
  split; [apply Hland|]. split; [apply Hland|].
  pose proof (be_value_range (take 2 (drop 1 (take 10 data)))) as H1.
  pose proof (be_value_range (take 2 (drop 3 (take 10 data)))) as H2.
  pose proof (be_value_range (take 4 (drop 5 (take 10 data)))) as H3.
  pose proof (be_value_range (take 1 (drop 9 (take 10 data)))) as H4.
  rewrite Hlen in H1, H2, H3, H4 by lia.
  repeat split; first [apply H1 | apply H2 | apply H3 | apply H4].
Qed.

(** ** Payload parsing *)

Lemma length_words_of_aux n : forall payload,
  (length payload <= n)%nat ->
  length (words_of payload) = (length payload / 4)%nat /\
  Forall (fun v => 0 <= v < 2 ^ 32) (words_of payload).
Proof.
  induction n as [n IH] using lt_wf_ind. intros payload Hn.
  destruct payload as [|a [|b [|c [|d rest]]]]; try (split; [reflexivity|constructor]).
  cbn [words_of length].
  assert (Hlt : (length rest < n)%nat) by (simpl in Hn; lia).
  destruct (IH (length rest) Hlt rest (le_n _)) as [Hl Hf].
  split.
  - rewrite Hl.
    replace (S (S (S (S (length rest))))) with (1 * 4 + length rest)%nat by lia.
    rewrite Nat.div_add_l by lia. reflexivity.
  - constructor; [|exact Hf].
    exact (be_value_range [a; b; c; d]).
Qed.

Lemma words_of_app_aligned payload : forall tail,
  (length payload mod 4 = 0)%nat ->
  words_of (payload ++ tail) = words_of payload ++ words_of tail.
Proof.
  induction payload as [payload IH] using (induction_ltof1 _ (@length byte)).
  unfold ltof in IH. intros tail Hal.
  destruct payload as [|a [|b [|c [|d rest]]]]; try discriminate Hal; [reflexivity|].
  cbn [app words_of]. f_equal. apply IH; [simpl; lia|].
  cbn [length] in Hal.
  replace (S (S (S (S (length rest))))) with (length rest + 1 * 4)%nat in Hal by lia.
  by rewrite Nat.Div0.mod_add in Hal.
Qed.

(** X2. [parse_values] never raises.  It returns one value below [2^32]
    for each complete group of 4 bytes, [len(payload) // 4] in all, and a
    tail of 1 to 3 bytes after complete groups changes nothing: it is
    dropped without notice. *)
Theorem parse_values_ignores_trailing_bytes (payload : list byte) :
  exists values,
    Server.parse_values payload = Some values /\
    length values = (length payload / 4)%nat /\
    Forall (fun v => 0 <= v < 2 ^ 32) values /\
    forall tail,
      (length payload mod 4 = 0)%nat -> (length tail < 4)%nat ->
      Server.parse_values (payload ++ tail) = Some values.
Proof.
  exists (words_of payload).
  destruct (length_words_of_aux (length payload) payload (le_n _)) as [Hl Hf].
  split; [apply parse_values_words|]. split; [exact Hl|]. split; [exact Hf|].
  intros tail Hal Htail.
  rewrite parse_values_words, words_of_app_aligned by exact Hal.
  destruct tail as [|a [|b [|c [|d rest]]]]; try (simpl in Htail; lia);
    by rewrite app_nil_r.
Qed.

Lemma payload_join_words_of n : forall payload,
  (length payload <= n)%nat ->
  (length payload mod 4 = 0)%nat ->
  payload_join (words_of payload) = Some payload.
Proof.
  induction n as [n IH] using lt_wf_ind. intros payload Hn Hal.
  destruct payload as [|a [|b [|c [|d rest]]]]; try discriminate Hal; [reflexivity|].
  cbn [words_of payload_join]. unfold pack_I.
  rewrite pack_uint_Some by exact (be_value_range [a; b; c; d]).
  cbn [mbind option_bind].
  assert (Hlt : (length rest < n)%nat) by (simpl in Hn; lia).
  assert (Hal' : (length rest mod 4 = 0)%nat).
  { cbn [length] in Hal.
    replace (S (S (S (S (length rest))))) with (length rest + 1 * 4)%nat in Hal by lia.
    by rewrite Nat.Div0.mod_add in Hal. }
  rewrite (IH (length rest) Hlt rest (le_n _) Hal').
  cbn [mbind option_bind]. f_equal.
  change 4%nat with (length [a; b; c; d]).
  by rewrite be_bytes_be_value.
Qed.

(** X3. Parsing then packing is the identity on payloads made of complete
    groups of 4 bytes: the values [parse_values] returns, packed again the
    way the sensors pack readings (by the loop or by the join), give the
    payload back byte for byte. *)
Theorem parse_then_pack_roundtrip (payload : list byte) :
  (length payload mod 4 = 0)%nat ->
  exists values,
    Server.parse_values payload = Some values /\
    payload_join values = Some payload /\
    payload_loop values = Some payload.
Proof.
  intros Hal. exists (words_of payload).
  split; [apply parse_values_words|].
  rewrite payload_loop_join.
  split; apply (payload_join_words_of (length payload)); auto.
Qed.

Lemma parse_then_pack_roundtrip_witness :
  let payload := [x00; x00; x05; xdc; xff; xff; xff; xff] in
  (length payload mod 4 = 0)%nat /\
  exists values,
    Server.parse_values payload = Some values /\
    payload_join values = Some payload /\
    payload_loop values = Some payload.
Proof.
  intros payload.
  assert (H : (length payload mod 4 = 0)%nat) by reflexivity.
  split; [exact H|]. exact (parse_then_pack_roundtrip payload H).
Defined.

(** ** Streams of sequence numbers *)
Section SequenceStreams.
Context {F : Type} {B : Builtins F}.
Import Server.

Lemma detect_seq_state_below (w : world F) device_id seq L :
  last_seq (self w) !! device_id = Some L ->
  0 <= L < 65536 -> 0 <= seq < L -> seq <> (L + 1) mod 65536 ->
  detect_seq_state device_id seq w
  = (mk_world (self w) (counters w) (clock w) (clock_reads w) (sock_sent w)
              (status_csv w) (log_file w)
              (console w ++ [OutOfOrder device_id seq L]), Ok (0, 0, 0)).
Proof.
  intros HL Hr Hs Hn. unfold detect_seq_state, bind, gets. rewrite HL.
  rewrite !land_0xFFFF, (Z.mod_small L), (Z.mod_small seq) by lia.
  replace (seq =? L) with false by (symmetry; apply Z.eqb_neq; lia).
  replace (seq =? (L + 1) mod 65536) with false by (symmetry; by apply Z.eqb_neq).
  replace (L <? seq) with false by (symmetry; apply Z.ltb_ge; lia).
  reflexivity.
Qed.

(** X4. Once the tracker holds [L], sequence numbers numerically below [L]
    (other than the successor of 65535, which is 0) never move it: each is
    reported as neither duplicate nor gap, and the dicts and counters stay
    as they are however many such packets follow.  So after a loss that
    spans the wrap-around, or a restart of the sender, the device's packets
    go uncounted until their numbers pass [L] again. *)
Theorem smaller_numbers_leave_tracker_stuck (w : world F) (device_id L : Z)
    (seqs : list Z) :
  last_seq (self w) !! device_id = Some L ->
  0 <= L < 65536 ->
  Forall (fun s => 0 <= s < L /\ s <> (L + 1) mod 65536) seqs ->
  exists w',
    map_m (detect_seq_state device_id) seqs w
    = (w', Ok (replicate (length seqs) (0, 0, 0))) /\
    self w' = self w /\ counters w' = counters w.
Proof.
  intros HL Hr Hs. revert w HL.
  induction Hs as [|s rest [Hs Hn] _ IH]; intros w HL.
  - exists w. by repeat split.
  - cbn [map_m length replicate]. unfold bind at 1.
    rewrite (detect_seq_state_below w device_id s L HL Hr Hs Hn).
    unfold bind at 1.
    match goal with |- context [map_m _ rest ?w1] =>
      destruct (IH w1 HL) as (w' & Hrun & Hself & Hcnt)
    end.
    exists w'. rewrite Hrun. by repeat split.
Qed.

Lemma detect_seq_state_next (w : world F) device_id L :
  last_seq (self w) !! device_id = Some L ->
  0 <= L < 65536 ->
  detect_seq_state device_id ((L + 1) mod 65536) w
  = (mk_world (with_last_seq (<[device_id := (L + 1) mod 65536]> (last_seq (self w)))
                             (self w))
              (counters w) (clock w) (clock_reads w) (sock_sent w)
              (status_csv w) (log_file w) (console w), Ok (0, 0, 0)).
Proof.
  intros HL Hr. unfold detect_seq_state, bind, gets. rewrite HL.
  rewrite !land_0xFFFF.
  assert (Hne : (L + 1) mod 65536 <> L).
  { destruct (decide (L = 65535)) as [->|]; [discriminate|].
    rewrite Z.mod_small by lia. lia. }
  replace ((L + 1) mod 65536 =? L) with false by (symmetry; by apply Z.eqb_neq).
  rewrite Z.eqb_refl. reflexivity.
Qed.

Lemma in_order_from n : forall (w : world F) device_id L,
  last_seq (self w) !! device_id = Some L ->
  0 <= L < 65536 ->
  exists w',
    map_m (detect_seq_state device_id)
          ((fun k : nat => (L + 1 + Z.of_nat k) mod 65536) <$> seq 0 n) w
    = (w', Ok (replicate n (0, 0, 0))) /\
    last_seq (self w') !! device_id = Some ((L + Z.of_nat n) mod 65536) /\
    duplicate_counts (self w') = duplicate_counts (self w) /\
    gap_counts (self w') = gap_counts (self w) /\
    counters w' = counters w /\
    forall other, other <> device_id ->
      last_seq (self w') !! other = last_seq (self w) !! other.
Proof.
  induction n as [|n IH]; intros w device_id L HL Hr.
  - exists w. cbn. rewrite Z.add_0_r, Z.mod_small by lia. by repeat split.
  - cbn [seq fmap list_fmap map_m replicate]. rewrite Z.add_0_r.
    unfold bind at 1. rewrite (detect_seq_state_next w device_id L HL Hr).
    set (L' := (L + 1) mod 65536).
    unfold bind at 1.
    match goal with |- context [map_m _ _ ?w0] => set (w1 := w0) end.
    assert (HL' : last_seq (self w1) !! device_id = Some L')
      by (cbn; apply lookup_insert_eq).
    assert (Hr' : 0 <= L' < 65536) by (apply Z.mod_pos_bound; lia).
    destruct (IH w1 device_id L' HL' Hr') as (w' & Hrun & Hlast & Hd & Hg & Hc & Ho).
    assert (Hlist : (fun k : nat => (L + 1 + Z.of_nat k) mod 65536) <$> seq 1 n
                    = (fun k : nat => (L' + 1 + Z.of_nat k) mod 65536) <$> seq 0 n).
    { rewrite <- fmap_S_seq, <- list_fmap_compose. apply list_fmap_ext.
      intros i k _. cbn. unfold L'.
      rewrite <- (Z.add_assoc ((L + 1) mod 65536)), Zplus_mod_idemp_l. f_equal. lia. }
    rewrite Hlist. exists w'. rewrite Hrun.
    split; [reflexivity|]. split.
    { rewrite Hlast. f_equal. unfold L'.
      rewrite Zplus_mod_idemp_l. f_equal. lia. }
    split; [exact Hd|]. split; [exact Hg|]. split; [exact Hc|].
    intros other Hother. rewrite (Ho other Hother). cbn.
    by rewrite lookup_insert_ne.
Qed.

(** X5. Packets that arrive in order are never flagged.  From a device's
    first packet on, sequence numbers [s], [s + 1], [s + 2], ... taken
    modulo 65536, however many and through any number of wrap-arounds, are
    each reported as neither duplicate nor gap; the device's counters stay
    0, the global counters are untouched, and the last sequence number is
    the last one received. *)
Theorem in_order_stream_never_flagged (w : world F) (device_id s : Z) (n : nat) :
  last_seq (self w) !! device_id = None ->
  0 <= s < 65536 ->
  exists w',
    map_m (detect_seq_state device_id)
          ((fun k : nat => (s + Z.of_nat k) mod 65536) <$> seq 0 (S n)) w
    = (w', Ok (replicate (S n) (0, 0, 0))) /\
    last_seq (self w') !! device_id = Some ((s + Z.of_nat n) mod 65536) /\
    duplicate_counts (self w') !! device_id = Some 0 /\
    gap_counts (self w') !! device_id = Some 0 /\
    counters w' = counters w /\
    forall other, other <> device_id ->
      last_seq (self w') !! other = last_seq (self w) !! other.
Proof.
  intros Hnone Hs.
  cbn [seq fmap list_fmap map_m replicate]. rewrite Z.add_0_r, Z.mod_small by lia.
  unfold bind at 1. unfold detect_seq_state at 1, bind at 1, gets at 1.
  rewrite Hnone.
  unfold bind at 1, update_self at 1, modify.
  unfold bind at 1, update_self at 1, modify.
  unfold bind at 1, update_self at 1, modify.
  unfold ret at 1. unfold bind at 1.
  cbn [self counters clock clock_reads sock_sent status_csv log_file console
       with_last_seq with_duplicate_counts with_gap_counts last_seq
       duplicate_counts gap_counts].
  match goal with |- context [map_m _ _ ?w0] => set (w1 := w0) end.
  assert (HL : last_seq (self w1) !! device_id = Some s)
    by (cbn; apply lookup_insert_eq).
  destruct (in_order_from n w1 device_id s HL Hs) as (w' & Hrun & Hlast & Hd & Hg & Hc & Ho).
  assert (Hlist : (fun k : nat => (s + Z.of_nat k) mod 65536) <$> seq 1 n
                  = (fun k : nat => (s + 1 + Z.of_nat k) mod 65536) <$> seq 0 n).
  { rewrite <- fmap_S_seq, <- list_fmap_compose. apply list_fmap_ext.
    intros i k _. cbn. f_equal. lia. }
  rewrite Hlist.
  exists w'. rewrite Hrun. split; [reflexivity|].
  split; [exact Hlast|].
  split; [rewrite Hd; cbn; apply lookup_insert_eq|].
  split; [rewrite Hg; cbn; apply lookup_insert_eq|].
  split; [exact Hc|].
  intros other Hother. rewrite (Ho other Hother). cbn. by rewrite lookup_insert_ne.
Qed.

End SequenceStreams.

(** After 65534, the numbers 1, 2, 3 and 100 leave the tracker where it is. *)
Lemma smaller_numbers_leave_tracker_stuck_witness :
  let w := tracking (ticking_clock 0) 7 65534 in
  let seqs := [1; 2; 3; 100] in
  Server.last_seq (Server.self w) !! 7 = Some 65534 /\
  0 <= 65534 < 65536 /\
  Forall (fun s => 0 <= s < 65534 /\ s <> (65534 + 1) mod 65536) seqs /\
  exists w',
    map_m (Server.detect_seq_state 7) seqs w
    = (w', Ok (replicate (length seqs) (0, 0, 0))) /\
    Server.self w' = Server.self w /\ Server.counters w' = Server.counters w.
Proof.
  intros w seqs.
  assert (H1 : Server.last_seq (Server.self w) !! 7 = Some 65534)
    by (vm_compute; reflexivity).
  assert (H2 : 0 <= 65534 < 65536) by lia.
  assert (H3 : Forall (fun s => 0 <= s < 65534 /\ s <> (65534 + 1) mod 65536) seqs).
  { change ((65534 + 1) mod 65536) with 65535.
    repeat (apply List.Forall_cons; [lia|]). apply List.Forall_nil. }
  repeat (split; [assumption|]).
  exact (smaller_numbers_leave_tracker_stuck w 7 65534 seqs H1 H2 H3).
Defined.

(** Four packets from 65534 on: 65534, 65535, 0, 1. *)
Lemma in_order_stream_never_flagged_witness :
  let w := Server.init (ticking_clock 0) in
  Server.last_seq (Server.self w) !! 7 = None /\
  0 <= 65534 < 65536 /\
  exists w',
    map_m (Server.detect_seq_state 7)
          ((fun k : nat => (65534 + Z.of_nat k) mod 65536) <$> seq 0 4) w
    = (w', Ok (replicate 4 (0, 0, 0))) /\
    Server.last_seq (Server.self w') !! 7 = Some ((65534 + Z.of_nat 3) mod 65536) /\
    Server.duplicate_counts (Server.self w') !! 7 = Some 0 /\
    Server.gap_counts (Server.self w') !! 7 = Some 0 /\
    Server.counters w' = Server.counters w /\
    forall other, other <> 7 ->
      Server.last_seq (Server.self w') !! other
      = Server.last_seq (Server.self w) !! other.
Proof.
  intros w.
  assert (H1 : Server.last_seq (Server.self w) !! 7 = None) by reflexivity.
  assert (H2 : 0 <= 65534 < 65536) by lia.
  repeat (split; [assumption|]).
  exact (in_order_stream_never_flagged w 7 65534 3 H1 H2).
Defined.

(** ** What holds in every state the server reaches *)
Section Reachable.
Context {F : Type} {B : Builtins F}.
Import Server.

Lemma detect_seq_state_flag_values (w w' : world F) device_id seq d g n :
  detect_seq_state device_id seq w = (w', Ok (d, g, n)) ->
  (d = 0 \/ d = 1) /\ (g = 0 \/ g = 1).
Proof.
  unfold detect_seq_state, bind, gets.
  destruct (last_seq (self w) !! device_id) as [last|].
  - destruct (seq =? last);
      [|destruct (seq =? Z.land (last + 1) 65535);
        [|destruct ((Z.land last 65535 <? Z.land seq 65535) && (last + 1 <? seq))]].
    + destruct (dict_add _ _ _); unfold lift, ret, raise, update_self,
        update_counters, modify; intros [= _ <- <- _]; auto.
    + unfold ret, update_self, modify. intros [= _ <- <- _]. auto.
    + destruct (dict_add _ _ _); unfold lift, ret, raise, update_self, modify;
        intros [= _ <- <- _]; auto.
    + unfold ret, say, modify. intros [= _ <- <- _]. auto.
  - unfold ret, update_self, modify. intros [= _ <- <- _]. auto.
Qed.

Lemma books_kept_refl (w : world F) : books_kept w w.
Proof. by repeat split. Qed.

(** What [handle_packet] amounts to: the packet is dropped with the books
    untouched, or an entry not flagged duplicate is stored in the reorder
    buffer, after a heartbeat has been taken into account if the packet is
    one. *)
Lemma handle_packet_shape (w : world F) (data : list byte) (addr : address) :
  seq_tables_consistent (self w) ->
  exists w',
    handle_packet data addr w = (w', Ok tt) /\
    (books_kept w w' \/
     exists w2 e,
       store_reordered e w2 = (w', Ok tt) /\
       e_duplicate_flag e = 0 /\
       (books_kept w w2 \/
        exists w1, handle_heartbeat (e_device_id e) w1 = (w2, Ok tt) /\
                   books_kept w w1)).
Proof.
  intros Hcons.
  unfold handle_packet.
  destruct (decode data) as [| |version msg_type device_id seq timestamp flags payload].
  - eexists. split; [reflexivity|]. left. by repeat split.
  - eexists. split; [reflexivity|]. left. by repeat split.
  - unfold bind at 1, update_counters at 1, modify.
    unfold bind at 1, time_time at 1.
    unfold bind at 1, say at 1, modify.
    cbn [self counters clock clock_reads sock_sent status_csv log_file console].
    unfold bind at 1.
    match goal with |- context [detect_seq_state device_id seq ?w0] =>
      destruct (detect_seq_state_returns w0 device_id seq Hcons)
        as (w1 & d & g & n & Hdet & Hframe & _);
      pose proof (detect_seq_state_flag_values w0 w1 device_id seq d g n Hdet)
        as [Hd _]
    end.
    rewrite Hdet.
    assert (Hk1 : books_kept w w1).
    { destruct Hframe as (F1 & F2 & F3 & _ & _ & F6 & F7 & _). by repeat split. }
    clear Hdet Hframe.
    destruct (truthy d) eqn:Ed; [eexists; split; [reflexivity|left; exact Hk1]|].
    assert (d = 0) as -> by (destruct Hd as [->| ->]; [reflexivity|discriminate Ed]).
    assert (Hgap : exists w2,
      (if truthy g then
         say (GapDetected device_id n) ;;;
         s <- gets self ;;
         match last_values s !! device_id with
         | Some predicted_values => say (PredictedValues device_id predicted_values)
         | None => ret tt
         end ;;;
         update_counters (fun m =>
           mk_metrics (total_packets m) (total_readings m) (duplicate_count m)
                      (gap_count m + n) (total_bytes m))
       else ret tt) w1 = (w2, Ok tt) /\ books_kept w w2).
    { destruct (truthy g); [|by eexists].
      unfold bind at 1, say at 1, modify. unfold bind at 1, gets at 1.
      cbn [self]. destruct (last_values (self w1) !! device_id);
        (eexists; split; [reflexivity|]); exact Hk1. }
    destruct Hgap as (w2 & Hgap & Hk2).
    unfold bind at 1. rewrite Hgap. clear Hgap Hk1.
    destruct (msg_type =? 1); [|destruct (msg_type =? 2)].
    + rewrite parse_values_words. unfold bind at 1, lift at 1, ret at 1.
      unfold bind at 1, update_self at 1, modify.
      unfold bind at 1, update_counters at 1, modify.
      unfold bind at 1, say at 1, modify.
      cbn [self counters clock clock_reads sock_sent status_csv log_file console].
      unfold bind at 1.
      match goal with |- context [store_reordered ?e] => set (entry := e) end.
      destruct (negb (Z.land flags 2 =? 0)).
      * unfold send_ack, bind at 1, modify. unfold say at 1, modify.
        cbn [self counters clock clock_reads sock_sent status_csv log_file console].
        match goal with |- context [store_reordered entry ?w3] =>
          destruct (store_reordered_keeps w3 entry) as (w' & Hst & _);
          exists w'; split; [exact Hst|]; right; exists w3, entry
        end.
        split; [exact Hst|]. split; [reflexivity|]. left. exact Hk2.
      * unfold ret at 1.
        match goal with |- context [store_reordered entry ?w3] =>
          destruct (store_reordered_keeps w3 entry) as (w' & Hst & _);
          exists w'; split; [exact Hst|]; right; exists w3, entry
        end.
        split; [exact Hst|]. split; [reflexivity|]. left. exact Hk2.
    + destruct (handle_heartbeat_keeps w2 device_id) as (w3 & Hhb & _).
      unfold bind at 1. rewrite Hhb.
      match goal with |- context [store_reordered ?e w3] =>
        destruct (store_reordered_keeps w3 e) as (w' & Hst & _);
        exists w'; split; [exact Hst|]; right; exists w3, e
      end.
      split; [exact Hst|]. split; [reflexivity|]. right.
      exists w2. split; [exact Hhb|exact Hk2].
    + eexists. split; [reflexivity|]. left. exact Hk2.
Qed.

Lemma buffers_bounded_init (clk : nat -> F) : buffers_bounded (self (init clk)).
Proof. intros d buf Hb. simpl in Hb. by rewrite lookup_empty in Hb. Qed.

Lemma heartbeats_bounded_init (clk : nat -> F) : heartbeats_bounded (self (init clk)).
Proof.
  intros d. cbn. split.
  - intros times Ht. by rewrite lookup_empty in Ht.
  - rewrite !lookup_empty. split; intros [x Hx]; discriminate Hx.
Qed.

(** Storing an entry that is not flagged duplicate keeps the buffers
    bounded: the device's buffer is emptied when it reaches five. *)
Lemma store_reordered_bounded (w w' : world F) (e : entry) :
  store_reordered e w = (w', Ok tt) ->
  e_duplicate_flag e = 0 ->
  buffers_bounded (self w) ->
  buffers_bounded (self w') /\
  device_heartbeats (self w') = device_heartbeats (self w) /\
  device_status (self w') = device_status (self w).
Proof.
  rewrite store_reordered_run. cbv zeta. intros Hrun Hdup Hb.
  set (pending := default [] (reorder_buffer (self w) !! e_device_id e) ++ [e]) in *.
  assert (Hpend : Forall (fun x => e_device_id x = e_device_id e /\
                                   e_duplicate_flag x = 0) pending).
  { unfold pending. apply Forall_app. split; [|by repeat constructor].
    destruct (reorder_buffer (self w) !! e_device_id e) as [buf|] eqn:Eb; [|constructor].
    exact (proj2 (Hb _ _ Eb)). }
  destruct (Nat.leb_spec 5 (length pending)) as [Hge|Hlt];
    injection Hrun as <-; (split; [|by split]);
    intros d buf; cbn [self reorder_buffer with_reorder_buffer];
    (destruct (decide (d = e_device_id e)) as [->|Hd];
     [rewrite lookup_insert_eq; intros [= <-]
     |rewrite lookup_insert_ne by done; apply Hb]).
  - split; [simpl; lia|constructor].
  - split; [exact Hlt|exact Hpend].
Qed.

(** A heartbeat keeps the windows bounded. *)
Lemma handle_heartbeat_bounded (w w' : world F) device_id :
  handle_heartbeat device_id w = (w', Ok tt) ->
  heartbeats_bounded (self w) ->
  heartbeats_bounded (self w') /\
  reorder_buffer (self w') = reorder_buffer (self w).
Proof.
  rewrite handle_heartbeat_run. cbv zeta. intros Hrun Hh.
  set (last_times := default [] (device_heartbeats (self w) !! device_id)
                     ++ [clock w (clock_reads w)]) in *.
  assert (Hlen : (1 <= length (drop (length last_times - 10) last_times) <= 10)%nat).
  { rewrite length_drop. unfold last_times. rewrite length_app. simpl. lia. }
  match type of Hrun with context [if ?c then with_device_status _ _ else _] =>
    destruct c eqn:Eemit
  end; injection Hrun as <-; (split; [|reflexivity]); intros d;
    cbn [self device_heartbeats device_status with_device_status with_device_heartbeats];
    (destruct (decide (d = device_id)) as [->|Hd];
     [rewrite ?lookup_insert_eq|rewrite ?lookup_insert_ne by done; apply Hh]).
  - split; [by intros times [= <-]|]. split; eauto.
  - split; [by intros times [= <-]|].
    apply orb_false_iff in Eemit as [_ Eknown].
    apply bool_decide_eq_false in Eknown.
    split; intros _; [|eauto].
    destruct (device_status (self w) !! device_id); [eauto|done].
Qed.

(** The three invariants together are kept by [handle_packet], which
    returns normally. *)
Lemma handle_packet_invariants (w : world F) (data : list byte) (addr : address) :
  server_invariant (self w) -> buffers_bounded (self w) -> heartbeats_bounded (self w) ->
  exists w',
    handle_packet data addr w = (w', Ok tt) /\
    server_invariant (self w') /\ buffers_bounded (self w') /\
    heartbeats_bounded (self w').
Proof.
  intros Hinv Hb Hh.
  destruct (handle_packet_total w data addr Hinv) as (w' & Hrun & Hinv').
  destruct (handle_packet_shape w data addr (proj1 Hinv)) as (w'' & Hrun' & Hshape).
  rewrite Hrun in Hrun'. injection Hrun' as <-.
  exists w'. split; [exact Hrun|]. split; [exact Hinv'|].
  assert (Hkept : forall w2, books_kept w w2 ->
                  buffers_bounded (self w2) /\ heartbeats_bounded (self w2)).
  { intros w2 (K1 & _ & K3 & K4 & _). split.
    - intros d buf. rewrite K1. apply Hb.
    - intros d. rewrite K3, K4. apply Hh. }
  destruct Hshape as [Hk|(w2 & e & Hst & Hdup & Hbefore)]; [by apply Hkept|].
  assert (H2 : buffers_bounded (self w2) /\ heartbeats_bounded (self w2)).
  { destruct Hbefore as [Hk|(w1 & Hhb & Hk)]; [by apply Hkept|].
    destruct (Hkept w1 Hk) as [Hb1 Hh1].
    destruct (handle_heartbeat_bounded w1 w2 _ Hhb Hh1) as [Hh2 Hsame].
    split; [|exact Hh2]. intros d buf. rewrite Hsame. apply Hb1. }
  destruct H2 as [Hb2 Hh2].
  destruct (store_reordered_bounded w2 w' e Hst Hdup Hb2) as (Hb' & K3 & K4).
  split; [exact Hb'|]. intros d. rewrite K3, K4. apply Hh2.
Qed.

Lemma queue_worker_invariants queue : forall (w : world F),
  server_invariant (self w) -> buffers_bounded (self w) -> heartbeats_bounded (self w) ->
  exists w',
    queue_worker queue w = (w', Ok tt) /\
    server_invariant (self w') /\ buffers_bounded (self w') /\
    heartbeats_bounded (self w').
Proof.
  induction queue as [|[data addr] rest IH]; intros w Hinv Hb Hh.
  - exists w. split; [reflexivity|]. split; [exact Hinv|]. by split.
  - destruct (handle_packet_invariants w data addr Hinv Hb Hh)
      as (w1 & Hrun & Hinv1 & Hb1 & Hh1).
    destruct (IH w1 Hinv1 Hb1 Hh1) as (w' & Hrest & Hall).
    exists w'. split; [|exact Hall].
    unfold queue_worker in *. cbn [for_each fst snd]. unfold bind. by rewrite Hrun.
Qed.

Lemma reached_invariants (clk : nat -> F) queue :
  queue_worker queue (init clk) = (reached clk queue, Ok tt) /\
  server_invariant (self (reached clk queue)) /\
  buffers_bounded (self (reached clk queue)) /\
  heartbeats_bounded (self (reached clk queue)).
Proof.
  destruct (queue_worker_invariants queue (init clk))
    as (w' & Hrun & Hall);
    [apply server_invariant_init|apply buffers_bounded_init|apply heartbeats_bounded_init|].
  unfold reached. rewrite Hrun. by split.
Qed.

(** X6. The server's worker never raises.  Whatever datagrams arrive, in
    whatever order, each call of [handle_packet] returns normally, the next
    datagram is handled, and the sequence dicts stay consistent with 16-bit
    last sequence numbers: the [KeyError], [IndexError] and [struct.error]
    that the subscripts and [struct.unpack] could raise never occur. *)
Theorem server_never_raises (clk : nat -> F) (queue : list (list byte * address))
    (data : list byte) (addr : address) :
  queue_worker queue (init clk) = (reached clk queue, Ok tt) /\
  server_invariant (self (reached clk queue)) /\
  exists w', handle_packet data addr (reached clk queue) = (w', Ok tt).
Proof.
  destruct (reached_invariants clk queue) as (Hrun & Hinv & _).
  split; [exact Hrun|]. split; [exact Hinv|].
  destruct (handle_packet_total (reached clk queue) data addr Hinv) as (w' & Hh & _).
  eauto.
Qed.

(** X7. The reorder buffers stay short.  In every state the server
    reaches each device's buffer holds at most 4 entries, all of that
    device, none flagged duplicate: a duplicate returns before the buffer,
    and the fifth entry triggers the flush.  So the test
    [if not duplicate_flag] in [flush_reordered] always passes. *)
Theorem reorder_buffers_stay_short (clk : nat -> F)
    (queue : list (list byte * address)) (device_id : Z) :
  match reorder_buffer (self (reached clk queue)) !! device_id with
  | Some buf =>
      (length buf <= 4)%nat /\
      Forall (fun e => e_device_id e = device_id /\ truthy (e_duplicate_flag e) = false) buf
  | None => True
  end.
Proof.
  destruct (reached_invariants clk queue) as (_ & _ & Hb & _).
  destruct (reorder_buffer (self (reached clk queue)) !! device_id) as [b|] eqn:Eb;
    [|exact I].
  destruct (Hb _ _ Eb) as [Hlen Hall]. split; [lia|].
  eapply Forall_impl; [exact Hall|]. intros e [He Hd]. split; [exact He|].
  by rewrite Hd.
Qed.

(** X8. The heartbeat windows stay bounded.  In every state the server
    reaches each device that has sent a heartbeat has between 1 and 10
    timestamps stored and has a status, and a device without stored
    timestamps has no status. *)
Theorem heartbeat_windows_stay_bounded (clk : nat -> F)
    (queue : list (list byte * address)) (device_id : Z) :
  match device_heartbeats (self (reached clk queue)) !! device_id with
  | Some times =>
      (1 <= length times <= 10)%nat /\
      is_Some (device_status (self (reached clk queue)) !! device_id)
  | None => device_status (self (reached clk queue)) !! device_id = None
  end.
Proof.
  destruct (reached_invariants clk queue) as (_ & _ & _ & Hh).
  destruct (Hh device_id) as [Hlen Hdom].
  destruct (device_heartbeats (self (reached clk queue)) !! device_id) as [times|].
  - split; [by apply Hlen|]. apply Hdom. eauto.
  - destruct (device_status (self (reached clk queue)) !! device_id) eqn:Es; [|done].
    assert (Hs : is_Some (Some s)) by eauto.
    apply Hdom in Hs. destruct Hs as [x Hx]. discriminate Hx.
Qed.

End Reachable.

(** ** The telemetry log *)
Section LogRows.
Context {F : Type} {B : Builtins F}.
Import Server.

Lemma rows_from_all_logged (clk : nat -> F) n es :
  Forall (fun e => e_duplicate_flag e = 0) es ->
  r_timestamp_sent <$> rows_from clk n es = e_timestamp <$> es /\
  r_device_id <$> rows_from clk n es = e_device_id <$> es.
Proof.
  intros Hall. revert n. induction Hall as [|e rest Hd _ IH]; intros n.
  - by split.
  - cbn [rows_from]. rewrite Hd. cbn [truthy Z.eqb negb app fmap list_fmap].
    destruct (IH (S n)) as [-> ->]. by split.
Qed.

(** X9. The telemetry log grows five rows at a time.  In any state the
    server reaches, handling one more datagram either leaves the log as it
    is or appends exactly five rows, all of one device and in ascending
    order of their send timestamps. *)
Theorem log_grows_five_rows_at_a_time (clk : nat -> F)
    (queue : list (list byte * address)) (data : list byte) (addr : address) :
  exists w',
    handle_packet data addr (reached clk queue) = (w', Ok tt) /\
    (log_file w' = log_file (reached clk queue) \/
     exists rows device_id,
       log_file w' = log_file (reached clk queue) ++ rows /\
       length rows = 5%nat /\
       Forall (fun r => r_device_id r = device_id) rows /\
       StronglySorted Z.le (r_timestamp_sent <$> rows)).
Proof.
  destruct (reached_invariants clk queue) as (_ & Hinv & Hb & Hh).
  set (w := reached clk queue) in *.
  destruct (handle_packet_shape w data addr (proj1 Hinv)) as (w' & Hrun & Hshape).
  exists w'. split; [exact Hrun|].
  destruct Hshape as [(_ & K2 & _)|(w2 & e & Hst & Hdup & Hbefore)]; [by left|].
  assert (H2 : reorder_buffer (self w2) = reorder_buffer (self w) /\
               log_file w2 = log_file w).
  { destruct Hbefore as [(K1 & K2 & _)|(w1 & Hhb & K1 & K2 & _)]; [by split|].
    rewrite handle_heartbeat_run in Hhb. cbv zeta in Hhb.
    injection Hhb as <-. cbn [self log_file].
    match goal with |- context [if ?c then with_device_status _ _ else _] =>
      destruct c end; by split. }
  destruct H2 as [Hbuf Hlog].
  rewrite store_reordered_run in Hst. cbv zeta in Hst.
  set (pending := default [] (reorder_buffer (self w2) !! e_device_id e) ++ [e]) in *.
  assert (Hpend : (length pending <= 5)%nat /\
                  Forall (fun x => e_device_id x = e_device_id e /\
                                   e_duplicate_flag x = 0) pending).
  { unfold pending. rewrite Hbuf, length_app, Forall_app. cbn [length].
    destruct (reorder_buffer (self w) !! e_device_id e) as [buf|] eqn:Eb.
    - destruct (Hb _ _ Eb) as [Hlen Hall]. cbn [default id].
      split; [lia|]. split; [exact Hall|by repeat constructor].
    - cbn. split; [lia|]. split; [constructor|by repeat constructor]. }
  destruct Hpend as [Hlen Hall].
  destruct (Nat.leb_spec 5 (length pending)) as [Hge|Hlt];
    injection Hst as <-; cbn [log_file]; rewrite Hlog; [|by left].
  right. eexists _, (e_device_id e). split; [reflexivity|].
  assert (Hsorted_all : Forall (fun x => e_device_id x = e_device_id e /\
                                         e_duplicate_flag x = 0)
                               (sort_by e_timestamp pending))
    by (by rewrite sort_by_perm).
  destruct (rows_from_all_logged (clock w2) (clock_reads w2)
              (sort_by e_timestamp pending)) as [Hts Hdev].
  { eapply Forall_impl; [exact Hsorted_all|]. by intros x [_ Hx]. }
  split; [|split].
  - rewrite <- (length_fmap r_timestamp_sent), Hts, length_fmap.
    rewrite (Permutation_length (sort_by_perm e_timestamp pending)). lia.
  - assert (Hd : Forall (fun d => d = e_device_id e)
                        (r_device_id <$> rows_from (clock w2) (clock_reads w2)
                                                   (sort_by e_timestamp pending))).
    { rewrite Hdev. apply Forall_fmap.
      eapply Forall_impl; [exact Hsorted_all|]. by intros x [Hx _]. }
    apply Forall_fmap in Hd. exact Hd.
  - rewrite Hts. apply StronglySorted_fmap with (R1 := key_le e_timestamp).
    + intros x y Hxy. exact Hxy.
    + apply sort_by_sorted.
Qed.

End LogRows.

(** ** What the base-class sensor puts on the wire *)
Section SensorWire.
Context {F : Type} {B : Builtins F}.
Import Sensor.

(** What [send_heartbeat] does when the header fields fit their formats. *)
Lemma send_heartbeat_run (w : world F) :
  0 <= device_id (self w) < 65536 ->
  0 <= int_of_float (clock w (clock_reads w)) < 2 ^ 32 ->
  let seq' := Z.land (seq (self w) + 1) 0xFFFF in
  exists header,
    pack_header 18 (device_id (self w)) seq'
                (int_of_float (clock w (clock_reads w))) 0 = Some header /\
    send_heartbeat w
    = (mk_world (mk_sensor (device_id (self w)) (batch_size (self w))
                           (batch_buffer (self w)) seq'
                           (clock w (S (clock_reads w))) (last_data_time (self w)))
                (clock w) (S (S (clock_reads w))) (sock_sent w ++ [header])
                (sock_inbox w)
                (console w ++ [Heartbeat (device_id (self w)) seq']), Ok tt).
Proof.
  intros Hdev Hts seq'.
  destruct (build_packet_ok w 2 [] 0 Hdev Hts ltac:(lia)) as (header & Hpack & Hbuild).
  exists header. split; [exact Hpack|].
  unfold send_heartbeat. unfold bind at 1. rewrite Hbuild.
  unfold bind, sendto, gets, say, time_time, update_self, modify, ret.
  cbn [self clock clock_reads sock_sent sock_inbox console fst snd
       with_last_heartbeat_time with_seq batch_buffer device_id seq batch_size
       last_data_time last_heartbeat_time length].
  rewrite !app_nil_r. reflexivity.
Qed.

(** What [send_batch_packet] does on a full batch of at most 47 readings
    that fit their format: no truncation, no warning. *)
Lemma send_batch_packet_run (w : world F) :
  batch_size (self w) <= Z.of_nat (length (batch_buffer (self w))) ->
  (length (batch_buffer (self w)) <= 47)%nat ->
  Forall (fun v => 0 <= v < 2 ^ 32) (batch_buffer (self w)) ->
  0 <= device_id (self w) < 65536 ->
  0 <= int_of_float (clock w (clock_reads w)) < 2 ^ 32 ->
  let seq' := Z.land (seq (self w) + 1) 0xFFFF in
  exists header,
    pack_header 17 (device_id (self w)) seq'
                (int_of_float (clock w (clock_reads w))) 1 = Some header /\
    send_batch_packet w
    = (mk_world (mk_sensor (device_id (self w)) (batch_size (self w)) [] seq'
                           (last_heartbeat_time (self w)) (clock w (S (clock_reads w))))
                (clock w) (S (S (clock_reads w)))
                (sock_sent w ++ [header ++ concat (be_bytes 4 <$> batch_buffer (self w))])
                (sock_inbox w)
                (console w ++ [BatchData (device_id (self w)) seq' (batch_buffer (self w))]),
       Ok true).
Proof.
  intros Hfull Hlen Hr Hdev Hts seq'.
  pose proof (payload_join_Some _ Hr) as Hjoin.
  pose proof (length_payload _ _ Hjoin) as Hpl.
  destruct (build_packet_ok w 1 (concat (be_bytes 4 <$> batch_buffer (self w))) 1
                            Hdev Hts ltac:(lia)) as (header & Hpack & Hbuild).
  exists header. split; [exact Hpack|].
  unfold send_batch_packet. unfold bind at 1. unfold gets at 1.
  replace (Z.of_nat (length (batch_buffer (self w))) <? batch_size (self w))
    with false by (symmetry; apply Z.ltb_ge; lia).
  rewrite payload_loop_join, Hjoin. unfold lift at 1.
  unfold bind at 1. unfold ret at 1.
  unfold bind at 1.
  replace (check_payload_size (concat (be_bytes 4 <$> batch_buffer (self w))))
    with true by (symmetry; apply check_payload_size_spec; lia).
  cbn [negb]. unfold ret at 1. unfold bind at 1. rewrite Hbuild.
  replace (200 <? Z.of_nat HEADER_SIZE
                  + Z.of_nat (length (concat (be_bytes 4 <$> batch_buffer (self w)))))
    with false by (symmetry; apply Z.ltb_ge; unfold HEADER_SIZE; lia).
  unfold bind, sendto, gets, say, time_time, update_self, modify, ret.
  cbn [self clock clock_reads sock_sent sock_inbox console fst snd
       with_last_data_time with_batch_buffer with_seq batch_buffer device_id seq
       batch_size last_data_time last_heartbeat_time].
  rewrite !app_nil_r. reflexivity.
Qed.

(** Both [send_batch_packet] methods leave a batch that is not full alone. *)
Lemma send_batch_packet_not_full (w : world F) :
  Z.of_nat (length (batch_buffer (self w))) < batch_size (self w) ->
  send_batch_packet w = (w, Ok false).
Proof.
  intros Hlt. unfold send_batch_packet, bind, gets.
  replace (Z.of_nat (length (batch_buffer (self w))) <? batch_size (self w))
    with true by (symmetry; apply Z.ltb_lt; lia).
  reflexivity.
Qed.

End SensorWire.

Section HeartbeatPacket.
Context {F : Type} {B : Builtins F}.
Import Sensor.

(** X10. [send_heartbeat], with a device id and a clock reading that fit
    the header: it sends one datagram of exactly 10 bytes, which the
    server decodes as version 1, type 2, the sensor's id, the next
    sequence number (modulo 65536), the clock reading truncated to an int,
    flags 0 and an empty payload.  The buffered readings and
    [last_data_time] stay as they were; [last_heartbeat_time] becomes the
    clock reading after the one in the header. *)
Theorem heartbeat_is_a_bare_header (w : world F) :
  0 <= device_id (self w) < 65536 ->
  0 <= int_of_float (clock w (clock_reads w)) < 2 ^ 32 ->
  exists pkt w',
    send_heartbeat w = (w', Ok tt) /\
    sock_sent w' = sock_sent w ++ [pkt] /\
    length pkt = 10%nat /\
    Server.decode pkt
    = Server.Header 1 2 (device_id (self w)) ((seq (self w) + 1) mod 65536)
                    (int_of_float (clock w (clock_reads w))) 0 [] /\
    seq (self w') = (seq (self w) + 1) mod 65536 /\
    batch_buffer (self w') = batch_buffer (self w) /\
    last_data_time (self w') = last_data_time (self w) /\
    last_heartbeat_time (self w') = clock w (S (clock_reads w)).
Proof.
  intros Hdev Hts.
  destruct (send_heartbeat_run w Hdev Hts) as (header & Hpack & Hrun).
  rewrite land_0xFFFF in Hpack, Hrun.
  exists header. eexists. split; [exact Hrun|].
  cbn [sock_sent self seq batch_buffer last_data_time last_heartbeat_time].
  split; [reflexivity|].
  split; [exact (length_pack_header _ _ _ _ _ _ Hpack)|].
  split; [|done].
  rewrite <- (app_nil_r header).
  exact (decode_packed _ _ _ _ _ _ [] Hpack).
Qed.

End HeartbeatPacket.

(** The freshly constructed sample sensor sends its first heartbeat. *)
Lemma heartbeat_is_a_bare_header_witness :
  (0 <= Sensor.device_id (Sensor.self sample_sensor) < 65536 /\
   0 <= int_of_float (Sensor.clock sample_sensor (Sensor.clock_reads sample_sensor))
     < 2 ^ 32) /\
  exists pkt w',
    Sensor.send_heartbeat sample_sensor = (w', Ok tt) /\
    Sensor.sock_sent w' = Sensor.sock_sent sample_sensor ++ [pkt] /\
    length pkt = 10%nat /\
    Server.decode pkt
    = Server.Header 1 2 (Sensor.device_id (Sensor.self sample_sensor))
                    ((Sensor.seq (Sensor.self sample_sensor) + 1) mod 65536)
                    (int_of_float (Sensor.clock sample_sensor
                                     (Sensor.clock_reads sample_sensor))) 0 [] /\
    Sensor.seq (Sensor.self w') = (Sensor.seq (Sensor.self sample_sensor) + 1) mod 65536 /\
    Sensor.batch_buffer (Sensor.self w') = Sensor.batch_buffer (Sensor.self sample_sensor) /\
    Sensor.last_data_time (Sensor.self w') = Sensor.last_data_time (Sensor.self sample_sensor) /\
    Sensor.last_heartbeat_time (Sensor.self w')
    = Sensor.clock sample_sensor (S (Sensor.clock_reads sample_sensor)).
Proof.
  assert (H1 : 0 <= Sensor.device_id (Sensor.self sample_sensor) < 65536)
    by (vm_compute; split; [discriminate|reflexivity]).
  assert (H2 : 0 <= int_of_float (Sensor.clock sample_sensor
                                    (Sensor.clock_reads sample_sensor)) < 2 ^ 32)
    by (vm_compute; split; [discriminate|reflexivity]).
  split; [split; [exact H1|exact H2]|].
  exact (heartbeat_is_a_bare_header sample_sensor H1 H2).
Defined.

(** ** The reporting loop of the base-class sensor *)

(** Settles the conjuncts that hold by assumption or on sight, up to the
    first that does not. *)
Ltac conjuncts :=
  repeat (apply conj; [first [assumption | reflexivity | exact (List.Forall_nil _)]|]).

Section WireProgress.
Context {F : Type} {B : Builtins F}.
Import Sensor.

Lemma packet_readings_data header device_id seq timestamp flags readings :
  pack_header 17 device_id seq timestamp flags = Some header ->
  Forall (fun v => 0 <= v < 2 ^ 32) readings ->
  packet_readings (header ++ concat (be_bytes 4 <$> readings)) = readings.
Proof.
  intros Hp Hr. unfold packet_readings.
  rewrite (decode_packed _ _ _ _ _ _ _ Hp).
  change (Z.land 17 15 =? 1) with true. cbn match.
  by apply words_of_payload.
Qed.

Lemma packet_readings_heartbeat header device_id seq timestamp flags :
  pack_header 18 device_id seq timestamp flags = Some header ->
  packet_readings header = [].
Proof.
  intros Hp. unfold packet_readings.
  rewrite <- (app_nil_r header), (decode_packed _ _ _ _ _ _ _ Hp). reflexivity.
Qed.

Lemma packet_seq_packed raw device_id seq timestamp flags header payload :
  pack_header raw device_id seq timestamp flags = Some header ->
  packet_seq (header ++ payload) = Some seq.
Proof.
  intros Hp. unfold packet_seq. by rewrite (decode_packed _ _ _ _ _ _ _ Hp).
Qed.

Lemma packet_device_packed raw device_id seq timestamp flags header payload :
  pack_header raw device_id seq timestamp flags = Some header ->
  packet_device (header ++ payload) = Some device_id.
Proof.
  intros Hp. unfold packet_device. by rewrite (decode_packed _ _ _ _ _ _ _ Hp).
Qed.

Lemma wire_progress_trans (w w1 w2 : world F) new1 new2 reported1 reported2 :
  wire_progress w w1 new1 reported1 ->
  wire_progress w1 w2 new2 reported2 ->
  wire_progress w w2 (new1 ++ new2) (reported1 ++ reported2).
Proof.
  intros (Hc1 & Hi1 & Hd1 & Hb1 & Hs1 & Hl1 & Hr1 & Hq1 & Hn1 & Hv1)
         (Hc2 & Hi2 & Hd2 & Hb2 & Hs2 & Hl2 & Hr2 & Hq2 & Hn2 & Hv2).
  unfold wire_progress.
  split; [congruence|]. split; [congruence|]. split; [congruence|].
  split; [congruence|].
  split; [by rewrite Hs2, Hs1, app_assoc|].
  split; [by apply Forall_app|].
  split.
  { rewrite fmap_app, concat_app, <- app_assoc, Hr2, app_assoc, Hr1.
    by rewrite app_assoc. }
  assert (Hmod : forall k,
             ((seq (self w) + Z.of_nat (length new1)) mod 65536 + k) mod 65536
             = (seq (self w) + (Z.of_nat (length new1) + k)) mod 65536).
  { intros k. rewrite Zplus_mod_idemp_l. f_equal. lia. }
  split.
  - rewrite fmap_app, Hq1, Hq2, length_app, seq_app, fmap_app. f_equal.
    rewrite Hn1.
    replace (List.seq (0 + length new1) (length new2))
      with (Nat.add (length new1) <$> List.seq 0 (length new2))
      by (rewrite fmap_add_seq; f_equal; lia).
    rewrite <- list_fmap_compose.
    apply list_fmap_ext. intros _ k _. cbn. f_equal.
    rewrite <- Z.add_assoc, Hmod. f_equal. lia.
  - split; [rewrite Hn2, Hn1, Hmod, length_app; f_equal; lia|].
    apply Forall_app. split; [exact Hv1|]. by rewrite <- Hd1.
Qed.

(** Reading the clock. *)
Lemma time_time_progress (w : world F) :
  sensor_ready w ->
  sensor_ready (fst (time_time w)) /\ wire_progress w (fst (time_time w)) [] [].
Proof.
  intros (Hbb & Hr & Hdev & Hseq & Hts). split.
  - split; [exact Hbb|]. conjuncts. exact Hts.
  - unfold wire_progress. cbn.
    rewrite !app_nil_r, Z.add_0_r, Z.mod_small by lia. conjuncts.
    exact (List.Forall_nil _).
Qed.

(** Sending a heartbeat. *)
Lemma heartbeat_progress (w : world F) :
  sensor_ready w ->
  exists w' pkt,
    send_heartbeat w = (w', Ok tt) /\ sensor_ready w' /\ wire_progress w w' [pkt] [].
Proof.
  intros (Hbb & Hr & Hdev & Hseq & Hts).
  destruct (send_heartbeat_run w Hdev (Hts _)) as (header & Hpack & Hrun).
  rewrite land_0xFFFF in Hpack, Hrun.
  assert (Hseq' : 0 <= (seq (self w) + 1) mod 65536 < 65536)
    by (apply Z.mod_pos_bound; lia).
  eexists. exists header. split; [exact Hrun|]. split.
  - split; [exact Hbb|]. conjuncts. exact Hts.
  - unfold wire_progress.
    cbn [clock sock_inbox self device_id batch_size sock_sent batch_buffer seq
         fmap list_fmap concat length].
    rewrite (packet_readings_heartbeat _ _ _ _ _ Hpack).
    assert (Hps : packet_seq header = Some ((seq (self w) + 1) mod 65536)).
    { rewrite <- (app_nil_r header). exact (packet_seq_packed _ _ _ _ _ _ [] Hpack). }
    rewrite Hps.
    cbn [app List.seq fmap list_fmap Z.of_nat]. rewrite !app_nil_r, Z.add_0_r.
    conjuncts. split.
    { apply Forall_singleton. rewrite (length_pack_header _ _ _ _ _ _ Hpack).
      unfold HEADER_SIZE. lia. }
    conjuncts. apply Forall_singleton.
    rewrite <- (app_nil_r header). exact (packet_device_packed _ _ _ _ _ _ [] Hpack).
Qed.

(** Buffering a reading and trying to send. *)
Lemma report_progress (w : world F) (reading : Z) :
  sensor_ready w ->
  0 <= reading < 2 ^ 32 ->
  exists w' sent new,
    report send_batch_packet reading w = (w', Ok sent) /\
    sensor_ready w' /\ wire_progress w w' new [reading] /\
    (length new <= 1)%nat.
Proof.
  intros ([Hcap Hshort] & Hr & Hdev & Hseq & Hts) Hreading.
  unfold MAX_READINGS_PER_BATCH, MAX_PAYLOAD_BYTES in Hcap.
  change ((200 - 10) / 4) with 47 in Hcap.
  set (w1 := mk_world (with_batch_buffer (batch_buffer (self w) ++ [reading]) (self w))
                      (clock w) (clock_reads w) (sock_sent w) (sock_inbox w) (console w)).
  assert (Hrep : report send_batch_packet reading w = send_batch_packet w1)
    by reflexivity.
  rewrite Hrep. clear Hrep.
  assert (Hl1 : length (batch_buffer (self w1)) = S (length (batch_buffer (self w))))
    by (cbn; rewrite length_app; simpl; lia).
  assert (Hr1 : Forall (fun v => 0 <= v < 2 ^ 32) (batch_buffer (self w1))).
  { cbn. apply Forall_app. split; [exact Hr|]. by apply Forall_singleton. }
  destruct (Z.lt_ge_cases (Z.of_nat (length (batch_buffer (self w1)))) (batch_size (self w1)))
    as [Hlt|Hfull].
  - rewrite (send_batch_packet_not_full w1 Hlt).
    exists w1, false, []. split; [reflexivity|]. split.
    + split; [|conjuncts; exact Hts].
      unfold batch_bounded, MAX_READINGS_PER_BATCH, MAX_PAYLOAD_BYTES.
      change ((200 - 10) / 4) with 47.
      change (batch_size (self w1)) with (batch_size (self w)) in *. lia.
    + split; [|simpl; lia].
      unfold wire_progress. cbn.
      rewrite !app_nil_r, Z.add_0_r, Z.mod_small by lia. conjuncts.
    exact (List.Forall_nil _).
  - destruct (send_batch_packet_run w1 Hfull ltac:(lia) Hr1 Hdev (Hts _))
      as (header & Hpack & Hrun).
    rewrite land_0xFFFF in Hpack, Hrun.
    assert (Hseq' : 0 <= (seq (self w) + 1) mod 65536 < 65536)
      by (apply Z.mod_pos_bound; lia).
    eexists. exists true, [header ++ concat (be_bytes 4 <$> batch_buffer (self w1))].
    split; [exact Hrun|]. split.
    + split.
      * unfold batch_bounded, MAX_READINGS_PER_BATCH, MAX_PAYLOAD_BYTES.
        change ((200 - 10) / 4) with 47. cbn. lia.
      * conjuncts. exact Hts.
    + split; [|simpl; lia].
      unfold wire_progress.
      cbn [clock sock_inbox self device_id batch_size sock_sent batch_buffer seq
           fmap list_fmap concat length].
      rewrite (packet_readings_data _ _ _ _ _ _ Hpack Hr1).
      rewrite (packet_seq_packed _ _ _ _ _ _ _ Hpack).
      pose proof (length_pack_header _ _ _ _ _ _ Hpack) as Hlh.
      pose proof (length_payload _ _ (payload_join_Some _ Hr1)) as Hlp.
      cbn [app List.seq fmap list_fmap Z.of_nat]. rewrite !app_nil_r, Z.add_0_r.
      conjuncts. split.
      { apply Forall_singleton. rewrite length_app, Hlh, Hlp.
        unfold HEADER_SIZE. lia. }
      conjuncts. apply Forall_singleton.
      exact (packet_device_packed _ _ _ _ _ _ _ Hpack).
Qed.

End WireProgress.

Section ReportingLoop.
Context {F : Type} {B : Builtins F} {T : Timing F}.
Variables (report_interval heartbeat_interval : F).
Variable generate : nat -> Z.
Import Sensor Scheduler.

Lemma taken_none (w w' : world F) (k : nat) : taken generate (w, k) (w', k) = [].
Proof. unfold taken. cbn [fst snd]. by rewrite Nat.sub_diag. Qed.

Lemma taken_one (w w' : world F) (k : nat) :
  taken generate (w, k) (w', S k) = [generate k].
Proof.
  unfold taken. cbn [fst snd]. by replace (S k - k)%nat with 1%nat by lia.
Qed.

Lemma taken_app (st st1 st2 : world F * nat) :
  (snd st <= snd st1)%nat -> (snd st1 <= snd st2)%nat ->
  taken generate st st1 ++ taken generate st1 st2 = taken generate st st2.
Proof.
  intros H1 H2. unfold taken. rewrite <- fmap_app. f_equal.
  replace (snd st2 - snd st)%nat with ((snd st1 - snd st) + (snd st2 - snd st1))%nat
    by lia.
  rewrite seq_app. do 2 f_equal. lia.
Qed.

Lemma turn_done_trans (st st1 st2 : world F * nat) new1 new2 :
  turn_done report_interval generate st st1 new1 ->
  turn_done report_interval generate st1 st2 new2 ->
  turn_done report_interval generate st st2 (new1 ++ new2).
Proof.
  intros (_ & Hp1 & Hk1) (Hready & Hp2 & Hk2).
  split; [exact Hready|]. split; [|lia].
  rewrite <- (taken_app st st1 st2 Hk1 Hk2).
  exact (wire_progress_trans _ _ _ _ _ _ _ Hp1 Hp2).
Qed.

(** A step of the sensor that makes the progress of [wire_progress], run
    by the loop without a call of [generate_reading]. *)
Lemma turn_done_sensor (w w' : world F) (k : nat) new :
  loop_ready report_interval generate (w, k) ->
  sensor_ready w' ->
  wire_progress w w' new [] ->
  turn_done report_interval generate (w, k) (w', k) new.
Proof.
  intros (_ & Hgen & Hri & Hpos) Hready' Hp.
  pose proof Hp as (Hclock & _).
  split.
  - split; [exact Hready'|]. split; [exact Hgen|]. split; [exact Hri|].
    cbn [fst]. rewrite Hclock. exact Hpos.
  - rewrite taken_none. by split.
Qed.

(** One turn of the loop. *)
Lemma run_iteration_progress (st : world F * nat) :
  loop_ready report_interval generate st ->
  exists st' new,
    run_iteration report_interval heartbeat_interval generate send_batch_packet st
    = (st', Ok tt) /\
    turn_done report_interval generate st st' new.
Proof.
  destruct st as [w k]. intros Hloop.
  pose proof Hloop as (Hready & Hgen & Hri & Hpos). cbn [fst] in Hready, Hpos.
  set (w1 := fst (time_time w)).
  set (w2 := fst (time_time w1)).
  destruct (time_time_progress w Hready) as [Hready1 Hp1]. fold w1 in Hready1, Hp1.
  destruct (time_time_progress w1 Hready1) as [Hready2 Hp2]. fold w2 in Hready2, Hp2.
  pose proof (wire_progress_trans _ _ _ _ _ _ _ Hp1 Hp2) as Hp12.
  cbn [app] in Hp12.
  set (due := fge (fsub (clock w (S (clock_reads w))) (last_heartbeat_time (self w)))
                  heartbeat_interval
              && fge (fsub (clock w (S (clock_reads w))) (last_data_time (self w)))
                     report_interval).
  assert (Hrun : run_iteration report_interval heartbeat_interval generate
                               send_batch_packet (w, k)
    = (if due then on_sensor send_heartbeat ;;; sleep report_interval
       else
         reading <- generate_reading generate ;;
         sent <- on_sensor (report send_batch_packet reading) ;;
         now <- on_sensor time_time ;;
         let sleep_time :=
           fsub report_interval (fsub now (clock w (clock_reads w))) in
         if fgt sleep_time fzero then sleep sleep_time else ret tt) (w2, k))
    by reflexivity.
  rewrite Hrun. clear Hrun. destruct due.
  - destruct (heartbeat_progress w2 Hready2) as (w' & pkt & Hhb & Hready' & Hp').
    exists (w', k), [pkt]. split.
    { unfold bind, on_sensor, sleep. cbn [fst snd]. rewrite Hhb, Hri. reflexivity. }
    apply turn_done_sensor; [exact Hloop|exact Hready'|].
    exact (wire_progress_trans _ _ _ _ _ _ _ Hp12 Hp').
  - destruct (report_progress w2 (generate k) Hready2 (Hgen k))
      as (w3 & sent & new & Hrep & Hready3 & Hp3 & _).
    destruct (time_time_progress w3 Hready3) as [Hready4 Hp4].
    pose proof (wire_progress_trans _ _ _ _ _ _ _ Hp12
                  (wire_progress_trans _ _ _ _ _ _ _ Hp3 Hp4)) as Hp.
    cbn [app] in Hp. rewrite app_nil_r in Hp.
    pose proof Hp3 as (Hclock3 & _).
    pose proof Hp12 as (Hclock2 & _).
    exists (fst (time_time w3), S k), new. split.
    { unfold bind at 1. unfold generate_reading at 1. cbn [fst snd].
      unfold bind at 1. unfold on_sensor at 1. cbn [fst snd]. rewrite Hrep.
      cbn [fst snd]. unfold bind at 1. unfold on_sensor at 1, time_time at 1.
      cbn [fst snd].
      destruct (fgt _ fzero) eqn:Egt; [|reflexivity].
      unfold sleep.
      rewrite Hclock3, Hclock2 in Egt |- *.
      by rewrite (Hpos _ _ Egt). }
    split.
    + split; [exact Hready4|]. split; [exact Hgen|]. split; [exact Hri|].
      cbn [fst]. pose proof Hp as (Hclock & _). rewrite Hclock. exact Hpos.
    + rewrite taken_one. split; [exact Hp|]. cbn [snd]. lia.
Qed.

Lemma turn_done_refl (st : world F * nat) :
  loop_ready report_interval generate st ->
  turn_done report_interval generate st st [].
Proof.
  destruct st as [w k]. intros Hloop. pose proof Hloop as (Hready & _).
  apply turn_done_sensor; [exact Hloop|exact Hready|].
  destruct Hready as (_ & _ & _ & Hseq & _). cbn [fst] in Hseq.
  unfold wire_progress. cbn.
  rewrite !app_nil_r, Z.add_0_r, Z.mod_small by lia. conjuncts.
  exact (List.Forall_nil _).
Qed.

(** The turns of [run]. *)
Lemma run_turns_progress end_time turns : forall st : world F * nat,
  loop_ready report_interval generate st ->
  exists st' new,
    run_turns report_interval heartbeat_interval generate send_batch_packet
              end_time turns st = (st', Ok tt) /\
    turn_done report_interval generate st st' new.
Proof.
  induction turns as [|turns IH]; intros [w k] Hloop.
  - exists (w, k), []. split; [reflexivity|]. by apply turn_done_refl.
  - pose proof Hloop as (Hready & _). cbn [fst] in Hready.
    destruct (time_time_progress w Hready) as [Hready1 Hp1].
    pose proof (turn_done_sensor w _ k [] Hloop Hready1 Hp1) as Hd1.
    cbn [Scheduler.run_turns]. unfold bind at 1. unfold on_sensor at 1, time_time at 1.
    cbn [fst snd].
    change (mk_world (self w) (clock w) (S (clock_reads w)) (sock_sent w)
                     (sock_inbox w) (console w)) with (fst (time_time w)).
    destruct (fgt end_time (clock w (clock_reads w))).
    + destruct (run_iteration_progress _ (proj1 Hd1)) as (st2 & new2 & Hit & Hd2).
      destruct (IH st2 (proj1 Hd2)) as (st3 & new3 & Hrest & Hd3).
      exists st3, (new2 ++ new3).
      split; [unfold bind; by rewrite Hit|].
      exact (turn_done_trans _ _ _ _ _ Hd1 (turn_done_trans _ _ _ _ _ Hd2 Hd3)).
    + exists (fst (time_time w), k), []. split; [reflexivity|exact Hd1].
Qed.

(** The turns of [run_continuous]. *)
Lemma forever_turns_progress turns : forall st : world F * nat,
  loop_ready report_interval generate st ->
  exists st' new,
    forever_turns
      (run_iteration report_interval heartbeat_interval generate send_batch_packet)
      turns st = (st', Ok tt) /\
    turn_done report_interval generate st st' new.
Proof.
  induction turns as [|turns IH]; intros st Hloop.
  - exists st, []. split; [reflexivity|]. by apply turn_done_refl.
  - destruct (run_iteration_progress st Hloop) as (st2 & new2 & Hit & Hd2).
    destruct (IH st2 (proj1 Hd2)) as (st3 & new3 & Hrest & Hd3).
    exists st3, (new2 ++ new3).
    split; [cbn [forever_turns]; unfold bind; by rewrite Hit|].
    exact (turn_done_trans _ _ _ _ _ Hd2 Hd3).
Qed.

(** The start of both loops: [time.sleep(self.device_id % 3)] returns. *)
Lemma stagger_then (k : M (world F * nat) unit) (st : world F * nat) :
  (s <- on_sensor (gets self) ;; sleep_int (device_id s mod 3) ;;; k) st = k st.
Proof.
  destruct st as [w calls].
  unfold bind at 1. unfold on_sensor at 1, gets at 1. cbn [fst snd].
  unfold bind, sleep_int.
  replace (device_id (self w) mod 3 <? 0) with false; [reflexivity|].
  symmetry. apply Z.ltb_ge. apply Z.mod_pos_bound. lia.
Qed.

(** Both loops, from their first line. *)
Lemma loops_progress (w : world F) (calls : nat) (duration : F) (turns : nat) :
  loop_ready report_interval generate (w, calls) ->
  forall r,
    r = run report_interval heartbeat_interval generate send_batch_packet
            duration turns (w, calls) \/
    r = run_continuous report_interval heartbeat_interval generate send_batch_packet
                       turns (w, calls) ->
    exists new,
      snd r = Ok tt /\ turn_done report_interval generate (w, calls) (fst r) new.
Proof.
  intros Hloop r [-> | ->].
  - pose proof Hloop as (Hready & _). cbn [fst] in Hready.
    destruct (time_time_progress w Hready) as [Hready1 Hp1].
    pose proof (turn_done_sensor w _ calls [] Hloop Hready1 Hp1) as Hd1.
    destruct (run_turns_progress (fadd (clock w (clock_reads w)) duration) turns _
                                 (proj1 Hd1))
      as (st' & new & Hrun & Hd).
    exists new.
    assert (Heq : run report_interval heartbeat_interval generate send_batch_packet
                      duration turns (w, calls) = (st', Ok tt)).
    { unfold run. unfold bind at 1. unfold on_sensor at 1, time_time at 1.
      cbn [fst snd]. rewrite stagger_then. exact Hrun. }
    rewrite Heq. split; [reflexivity|].
    exact (turn_done_trans _ _ _ _ _ Hd1 Hd).
  - destruct (forever_turns_progress turns (w, calls) Hloop)
      as (st' & new & Hrun & Hd).
    exists new.
    assert (Heq : run_continuous report_interval heartbeat_interval generate
                                 send_batch_packet turns (w, calls) = (st', Ok tt)).
    { unfold run_continuous. rewrite stagger_then. exact Hrun. }
    rewrite Heq. split; [reflexivity|exact Hd].
Qed.

End ReportingLoop.

Section ReportingLoops.
Context {F : Type} {B : Builtins F} {T : Timing F}.
Variables (report_interval heartbeat_interval : F).
Variable generate : nat -> Z.
Import Sensor Scheduler.

(** X11. The loops of [run] and [run_continuous] on a sensor of the base
    class (humidity, light), for any number of turns, whatever the clock
    does and whenever heartbeats fall due.  Started with a capped batch
    size, a buffer short of it, and readings, device id and clock
    readings that fit their packet fields, and with [time.sleep]
    accepting the report interval and the positive waits computed from
    it, each loop runs its turns without raising; every value
    [generate_reading] returned is sent exactly once and in the order of
    the calls, after the readings buffered at the start, or is still in
    the buffer; and every datagram is within 200 bytes. *)
Theorem reporting_loops_account_for_every_reading
    (w : world F) (calls : nat) (duration : F) (turns : nat) :
  loop_ready report_interval generate (w, calls) ->
  readings_accounted generate (w, calls)
    (run report_interval heartbeat_interval generate send_batch_packet
         duration turns (w, calls)) /\
  readings_accounted generate (w, calls)
    (run_continuous report_interval heartbeat_interval generate send_batch_packet
                    turns (w, calls)).
Proof.
  intros Hloop.
  pose proof (loops_progress report_interval heartbeat_interval generate w calls
                             duration turns Hloop) as Hloops.
  split.
  - destruct (Hloops _ (or_introl eq_refl)) as (new & Hok & _ & Hp & Hk).
    destruct Hp as (_ & _ & _ & _ & Hsent & Hlen & Hrd & _).
    by exists new.
  - destruct (Hloops _ (or_intror eq_refl)) as (new & Hok & _ & Hp & Hk).
    destruct Hp as (_ & _ & _ & _ & Hsent & Hlen & Hrd & _).
    by exists new.
Qed.

Lemma numbered_lookup (w w' : world F) new reported :
  wire_progress w w' new reported ->
  forall (k : nat) pkt, new !! k = Some pkt ->
    packet_seq pkt = Some ((seq (self w) + 1 + Z.of_nat k) mod 65536).
Proof.
  intros (_ & _ & _ & _ & _ & _ & _ & Hq & _) k pkt Hk.
  assert (Hl : (packet_seq <$> new) !! k = Some (packet_seq pkt))
    by (by rewrite list_lookup_fmap, Hk).
  rewrite Hq, list_lookup_fmap in Hl.
  rewrite lookup_seq_lt in Hl by (by eapply lookup_lt_Some).
  cbn in Hl. by injection Hl as <-.
Qed.

(** X12. On a sensor of the base class the sequence numbers on the wire
    have no holes and no repeats: under the same conditions, with the
    counter between 0 and 65535 at the start, the datagrams either loop
    sends, DATA and HEARTBEAT alike, carry consecutive sequence numbers
    modulo 65536, starting one above the counter. *)
Theorem reporting_loops_number_packets_consecutively
    (w : world F) (calls : nat) (duration : F) (turns : nat) :
  loop_ready report_interval generate (w, calls) ->
  numbered_consecutively (w, calls)
    (run report_interval heartbeat_interval generate send_batch_packet
         duration turns (w, calls)) /\
  numbered_consecutively (w, calls)
    (run_continuous report_interval heartbeat_interval generate send_batch_packet
                    turns (w, calls)).
Proof.
  intros Hloop.
  pose proof (loops_progress report_interval heartbeat_interval generate w calls
                             duration turns Hloop) as Hloops.
  split.
  - destruct (Hloops _ (or_introl eq_refl)) as (new & Hok & _ & Hp & _).
    exists new. split; [exact Hok|].
    split; [apply Hp|]. split; [exact (numbered_lookup _ _ _ _ Hp)|apply Hp].
  - destruct (Hloops _ (or_intror eq_refl)) as (new & Hok & _ & Hp & _).
    exists new. split; [exact Hok|].
    split; [apply Hp|]. split; [exact (numbered_lookup _ _ _ _ Hp)|apply Hp].
Qed.

End ReportingLoops.

(** Whatever one of the three [generate_reading] returns fits the four
    bytes of a reading. *)
Lemma generated_readings_fit (v : Z) :
  temperature_reading v \/ humidity_reading v \/ light_reading v ->
  0 <= v < 2 ^ 32.
Proof.
  unfold temperature_reading, humidity_reading, light_reading. lia.
Qed.

Lemma humidity_supply_fits (n : nat) : 0 <= humidity_supply n < 2 ^ 32.
Proof.
  apply generated_readings_fit. right. left.
  unfold humidity_supply, humidity_reading.
  do 7 (destruct n as [|n]; [cbn; lia|]). destruct n; cbn; lia.
Qed.

(** With rationals, [time.sleep] accepts every positive wait. *)
Lemma Q_positive_sleeps (x : Q) : fgt x fzero = true -> sleep_error x = None.
Proof.
  cbn. unfold Qgt_bool. intros Hgt. apply negb_true_iff in Hgt.
  destruct (Qle_bool 0 x) eqn:Ele; [reflexivity|].
  exfalso.
  assert (Hn1 : ~ (x <= 0)%Q) by (rewrite <- Qle_bool_iff; congruence).
  assert (Hn2 : ~ (0 <= x)%Q) by (rewrite <- Qle_bool_iff; congruence).
  apply Hn1, Qlt_le_weak, Qnot_le_lt, Hn2.
Qed.

(** The freshly built sample sensor under a clock that stands still, a
    report every second. *)
Lemma frozen_sensor_ready :
  loop_ready 1%Q humidity_supply (frozen_sensor, 0%nat).
Proof.
  split.
  { split; [apply init_batch_bounded|].
    split; [apply List.Forall_nil|].
    split; [vm_compute; split; [discriminate|reflexivity]|].
    split; [vm_compute; split; [discriminate|reflexivity]|].
    intros n. vm_compute. split; [discriminate|reflexivity]. }
  split; [exact humidity_supply_fits|].
  split; [reflexivity|].
  intros i j. apply Q_positive_sleeps.
Qed.

(** A humidity sensor reporting every second, heartbeats every 15 seconds,
    for a minute or ten turns. *)
Lemma reporting_loops_account_for_every_reading_witness :
  loop_ready 1%Q humidity_supply (frozen_sensor, 0%nat) /\
  readings_accounted humidity_supply (frozen_sensor, 0%nat)
    (Scheduler.run 1%Q 15%Q humidity_supply Sensor.send_batch_packet 60%Q 10
                   (frozen_sensor, 0%nat)) /\
  readings_accounted humidity_supply (frozen_sensor, 0%nat)
    (Scheduler.run_continuous 1%Q 15%Q humidity_supply Sensor.send_batch_packet 10
                              (frozen_sensor, 0%nat)).
Proof.
  split; [exact frozen_sensor_ready|].
  exact (reporting_loops_account_for_every_reading 1%Q 15%Q humidity_supply
           frozen_sensor 0 60%Q 10 frozen_sensor_ready).
Defined.

Lemma reporting_loops_number_packets_consecutively_witness :
  loop_ready 1%Q humidity_supply (frozen_sensor, 0%nat) /\
  numbered_consecutively (frozen_sensor, 0%nat)
    (Scheduler.run 1%Q 15%Q humidity_supply Sensor.send_batch_packet 60%Q 10
                   (frozen_sensor, 0%nat)) /\
  numbered_consecutively (frozen_sensor, 0%nat)
    (Scheduler.run_continuous 1%Q 15%Q humidity_supply Sensor.send_batch_packet 10
                              (frozen_sensor, 0%nat)).
Proof.
  split; [exact frozen_sensor_ready|].
  exact (reporting_loops_number_packets_consecutively 1%Q 15%Q humidity_supply
           frozen_sensor 0 60%Q 10 frozen_sensor_ready).
Defined.

(** Seven turns of the same run, computed: the frozen clock never lets the
    loop of [run] stop nor a heartbeat fall due, and seven readings leave
    in two packets of three, numbered 1 and 2, with one reading left in
    the buffer. *)
Example humidity_run :
  let r := Scheduler.run 1%Q 15%Q humidity_supply Sensor.send_batch_packet 60%Q 7
                         (frozen_sensor, 0%nat) in
  snd r = Ok tt /\
  snd (fst r) = 7%nat /\
  packet_readings <$> Sensor.sock_sent (fst (fst r))
  = [[2100; 7950; 2000]; [8000; 4321; 6000]] /\
  packet_seq <$> Sensor.sock_sent (fst (fst r)) = [Some 1; Some 2] /\
  Sensor.batch_buffer (Sensor.self (fst (fst r))) = [2500].
Proof. vm_compute. repeat split. Qed.

(** A negative report interval: the first heartbeat is sent, and the sleep
    after it raises [ValueError]. *)
Example negative_interval_raises :
  let r := Scheduler.run (-1)%Q 0%Q humidity_supply Sensor.send_batch_packet 60%Q 7
                         (sample_sensor, 0%nat) in
  snd r = Raise ValueError /\
  packet_seq <$> Sensor.sock_sent (fst (fst r)) = [Some 1] /\
  packet_readings <$> Sensor.sock_sent (fst (fst r)) = [[]].
Proof. vm_compute. repeat split. Qed.

(** ** A sensor and the server over a link that loses nothing *)
Section InOrderPackets.
Context {F : Type} {B : Builtins F}.
Import Server.

Lemma store_reordered_books (w : world F) (e : entry) :
  counters (fst (store_reordered e w)) = counters w /\
  tracker_kept (self w) (self (fst (store_reordered e w))) /\
  snd (store_reordered e w) = Ok tt.
Proof.
  rewrite store_reordered_run. cbv zeta.
  destruct (5 <=? _)%nat; by repeat split.
Qed.

Lemma handle_heartbeat_books (w : world F) device_id :
  counters (fst (handle_heartbeat device_id w)) = counters w /\
  tracker_kept (self w) (self (fst (handle_heartbeat device_id w))) /\
  snd (handle_heartbeat device_id w) = Ok tt.
Proof.
  rewrite handle_heartbeat_run. cbv zeta. cbn [fst snd counters self].
  match goal with |- context [if ?e then _ else _] => destruct e end;
    by repeat split.
Qed.

(** [detect_seq_state] on the number a device is expected to send next, or
    on the first number of a device. *)
Lemma detect_seq_state_expected (w : world F) device_id seq :
  (last_seq (self w) !! device_id = None \/
   exists L, last_seq (self w) !! device_id = Some L /\ 0 <= L < 65536 /\
             seq = (L + 1) mod 65536) ->
  exists w1,
    detect_seq_state device_id seq w = (w1, Ok (0, 0, 0)) /\
    counters w1 = counters w /\
    last_seq (self w1) !! device_id = Some seq.
Proof.
  intros [Hnone | (L & HL & Hr & ->)].
  - unfold detect_seq_state, bind, gets. rewrite Hnone.
    unfold update_self, modify, ret. cbn.
    eexists. split; [reflexivity|]. split; [reflexivity|]. cbn.
    apply lookup_insert_eq.
  - rewrite (detect_seq_state_next w device_id L HL Hr).
    eexists. split; [reflexivity|]. split; [reflexivity|]. cbn.
    apply lookup_insert_eq.
Qed.

(** [handle_packet] on such a packet: it is counted, its readings are
    counted, and neither a duplicate nor a gap is. *)
Lemma handle_packet_in_order (w : world F) (data : list byte) (addr : address)
    (device_id seq : Z) :
  packet_device data = Some device_id ->
  packet_seq data = Some seq ->
  server_invariant (self w) ->
  (last_seq (self w) !! device_id = None \/
   exists L, last_seq (self w) !! device_id = Some L /\ seq = (L + 1) mod 65536) ->
  exists w',
    handle_packet data addr w = (w', Ok tt) /\
    server_invariant (self w') /\
    last_seq (self w') !! device_id = Some seq /\
    duplicate_count (counters w') = duplicate_count (counters w) /\
    gap_count (counters w') = gap_count (counters w) /\
    total_packets (counters w') = total_packets (counters w) + 1 /\
    total_readings (counters w')
    = total_readings (counters w) + Z.of_nat (length (packet_readings data)).
Proof.
  intros Hdev Hseq Hinv Horder.
  destruct (handle_packet_total w data addr Hinv) as (w' & Hrun & Hinv').
  exists w'. split; [exact Hrun|]. split; [exact Hinv'|].
  assert (Hexp : last_seq (self w) !! device_id = None \/
                 exists L, last_seq (self w) !! device_id = Some L /\ 0 <= L < 65536 /\
                           seq = (L + 1) mod 65536).
  { destruct Horder as [Hnone | (L & HL & Hs)]; [by left|right].
    exists L. split; [exact HL|]. split; [exact (proj2 Hinv _ _ HL)|exact Hs]. }
  clear Horder Hinv Hinv'.
  revert Hrun. unfold packet_device, packet_seq, packet_readings in *.
  unfold handle_packet.
  destruct (decode data) as [| |version msg_type d s timestamp flags payload];
    [discriminate|discriminate|].
  injection Hdev as ->. injection Hseq as ->.
  unfold bind at 1, update_counters at 1, modify.
  unfold bind at 1, time_time at 1.
  unfold bind at 1, say at 1, modify.
  cbn [self counters clock clock_reads sock_sent status_csv log_file console].
  unfold bind at 1.
  match goal with |- context [detect_seq_state device_id seq ?w0] =>
    destruct (detect_seq_state_expected w0 device_id seq Hexp)
      as (w1 & Hdet & Hc1 & Hl1)
  end.
  rewrite Hdet. cbn [counters] in Hc1.
  change (truthy 0) with false. cbv iota.
  unfold bind at 1, ret at 1.
  destruct (msg_type =? 1); [|destruct (msg_type =? 2)].
  - rewrite parse_values_words. unfold bind at 1, lift at 1, ret at 1.
    unfold bind at 1, update_self at 1, modify.
    unfold bind at 1, update_counters at 1, modify.
    unfold bind at 1, say at 1, modify.
    cbn [self counters clock clock_reads sock_sent status_csv log_file console].
    unfold bind at 1.
    assert (Hack : exists w3,
      (if negb (Z.land flags 2 =? 0) then send_ack addr device_id seq else ret tt)
        (mk_world
           (with_last_values (<[device_id := words_of payload]> (last_values (self w1)))
                             (self w1))
           (mk_metrics (total_packets (counters w1))
                       (total_readings (counters w1) + Z.of_nat (length (words_of payload)))
                       (duplicate_count (counters w1)) (gap_count (counters w1))
                       (total_bytes (counters w1)))
           (clock w1) (clock_reads w1) (sock_sent w1) (status_csv w1) (log_file w1)
           (console w1 ++ [DeviceValues device_id (words_of payload)]))
      = (w3, Ok tt) /\
      last_seq (self w3) = last_seq (self w1) /\
      counters w3
      = mk_metrics (total_packets (counters w1))
                   (total_readings (counters w1) + Z.of_nat (length (words_of payload)))
                   (duplicate_count (counters w1)) (gap_count (counters w1))
                   (total_bytes (counters w1))).
    { destruct (negb (Z.land flags 2 =? 0)); eexists; (split; [reflexivity|]);
        by split. }
    destruct Hack as (w3 & Hack & Hl3 & Hc3). rewrite Hack.
    match goal with |- context [store_reordered ?e w3] =>
      destruct (store_reordered_books w3 e) as (Hc4 & (Hl4 & _) & Hok);
      destruct (store_reordered e w3) as [w4 o]
    end.
    cbn [fst snd] in *. subst o. intros [= <-].
    rewrite Hl4, Hl3, Hc4, Hc3, Hc1. cbn. by repeat split.
  - unfold bind at 1.
    destruct (handle_heartbeat_books w1 device_id) as (Hc3 & (Hl3 & _) & Hok3).
    destruct (handle_heartbeat device_id w1) as [w3 o3].
    cbn [fst snd] in *. subst o3.
    match goal with |- context [store_reordered ?e w3] =>
      destruct (store_reordered_books w3 e) as (Hc4 & (Hl4 & _) & Hok);
      destruct (store_reordered e w3) as [w4 o]
    end.
    cbn [fst snd] in *. subst o. intros [= <-].
    rewrite Hl4, Hl3, Hc4, Hc3, Hc1. cbn. rewrite Z.add_0_r. by repeat split.
  - unfold say, modify. intros [= <-]. cbn. rewrite Hc1. cbn.
    rewrite Z.add_0_r. by repeat split.
Qed.

End InOrderPackets.

Section LosslessLink.
Context {F : Type} {B : Builtins F} {T : Timing F}.

(** The server on a queue of datagrams of one device, numbered
    consecutively from one above what the server last saw of it. *)
Lemma in_order_queue (addr : Server.address) (device_id : Z) new :
  forall (w : Server.world F) (s : Z),
  server_invariant (Server.self w) ->
  (Server.last_seq (Server.self w) !! device_id = None \/
   Server.last_seq (Server.self w) !! device_id = Some (s mod 65536)) ->
  Forall (fun pkt => packet_device pkt = Some device_id) new ->
  packet_seq <$> new
  = (fun k : nat => Some ((s + 1 + Z.of_nat k) mod 65536)) <$> seq 0 (length new) ->
  exists w',
    queue_worker (arriving addr new) w = (w', Ok tt) /\
    Server.duplicate_count (Server.counters w')
    = Server.duplicate_count (Server.counters w) /\
    Server.gap_count (Server.counters w') = Server.gap_count (Server.counters w) /\
    Server.total_packets (Server.counters w')
    = Server.total_packets (Server.counters w) + Z.of_nat (length new) /\
    Server.total_readings (Server.counters w')
    = Server.total_readings (Server.counters w)
      + Z.of_nat (length (concat (packet_readings <$> new))).
Proof.
  induction new as [|pkt rest IH]; intros w s Hinv Hlast Hdev Hseq.
  - exists w. cbn. rewrite !Z.add_0_r. by repeat split.
  - apply Forall_cons in Hdev as [Hd Hdev].
    cbn [length seq fmap list_fmap] in Hseq.
    injection Hseq as Hs Hseq. rewrite Z.add_0_r in Hs.
    destruct (handle_packet_in_order w pkt addr device_id ((s + 1) mod 65536) Hd Hs Hinv)
      as (w1 & Hrun & Hinv1 & Hl1 & Hdc & Hgc & Htp & Htr).
    { destruct Hlast as [Hnone | HL]; [by left|right].
      exists (s mod 65536). split; [exact HL|]. by rewrite Zplus_mod_idemp_l. }
    destruct (IH w1 (s + 1) Hinv1 (or_intror Hl1) Hdev) as (w' & Hrest & Hdc' & Hgc' & Htp' & Htr').
    { rewrite Hseq, <- fmap_S_seq, <- list_fmap_compose. apply list_fmap_ext.
      intros _ k _. cbn. do 2 f_equal. lia. }
    exists w'. split.
    { unfold queue_worker, arriving in *. cbn [fmap list_fmap for_each fst snd].
      unfold bind. by rewrite Hrun. }
    rewrite Hdc', Hgc', Htp', Htr', Hdc, Hgc, Htp, Htr.
    cbn [fmap list_fmap concat length]. rewrite length_app.
    repeat split; lia.
Qed.

Variables (report_interval heartbeat_interval : F).
Variable generate : nat -> Z.

(** X13. End to end over a link that neither loses, repeats nor reorders.
    Let a sensor of the base class run either loop, under the conditions
    of X11, and let a freshly constructed server receive exactly the
    datagrams the loop sends, in the order sent.  Then the server handles
    them all without raising, counts each of them, and counts no
    duplicate and no gap, also when the sequence numbers wrap around
    65535; and the readings the server counts, with those still in the
    sensor's buffer, are as many as the sensor held at the start plus the
    calls of [generate_reading] the loop made. *)
Theorem lossless_link_shows_no_loss (w : Sensor.world F) (calls : nat)
    (duration : F) (turns : nat) (clk : nat -> F) (addr : Server.address) :
  loop_ready report_interval generate (w, calls) ->
  link_clean (w, calls) clk addr
    (Scheduler.run report_interval heartbeat_interval generate
                   Sensor.send_batch_packet duration turns (w, calls)) /\
  link_clean (w, calls) clk addr
    (Scheduler.run_continuous report_interval heartbeat_interval generate
                              Sensor.send_batch_packet turns (w, calls)).
Proof.
  intros Hloop.
  pose proof (loops_progress report_interval heartbeat_interval generate w calls
                             duration turns Hloop) as Hloops.
  assert (Hlink : forall r,
    (exists new, snd r = Ok tt /\
       turn_done report_interval generate (w, calls) (fst r) new) ->
    link_clean (w, calls) clk addr r).
  { intros r (new & Hok & _ & Hp & Hk).
    destruct Hp as (_ & _ & _ & _ & Hsent & _ & Hrd & Hq & _ & Hdev).
    cbn [fst snd] in Hsent, Hrd, Hq, Hdev, Hk.
    unfold link_clean. cbv zeta. cbn [fst snd].
    rewrite Hsent, drop_app_length.
    destruct (in_order_queue addr (Sensor.device_id (Sensor.self w)) new
                (Server.init clk) (Sensor.seq (Sensor.self w))
                (server_invariant_init clk) (or_introl eq_refl) Hdev Hq)
      as (srv & Hrun & Hdc & Hgc & Htp & Htr).
    unfold reached. rewrite Hrun. cbn [fst snd].
    rewrite Hdc, Hgc, Htp, Htr. cbn [Server.init Server.counters
      Server.duplicate_count Server.gap_count Server.total_packets
      Server.total_readings].
    split; [exact Hok|]. split; [reflexivity|]. split; [lia|].
    split; [reflexivity|]. split; [reflexivity|]. split; [exact Hk|].
    apply (f_equal length) in Hrd. unfold taken in Hrd.
    rewrite !length_app, length_fmap, length_seq in Hrd. cbn [fst snd] in Hrd. lia. }
  split; apply Hlink.
  - exact (Hloops _ (or_introl eq_refl)).
  - exact (Hloops _ (or_intror eq_refl)).
Qed.

End LosslessLink.

(** The humidity sensor of the example above and a server on a ticking
    clock. *)
Lemma lossless_link_shows_no_loss_witness :
  loop_ready 1%Q humidity_supply (frozen_sensor, 0%nat) /\
  link_clean (frozen_sensor, 0%nat) (ticking_clock 1700000000) sample_address
    (Scheduler.run 1%Q 15%Q humidity_supply Sensor.send_batch_packet 60%Q 10
                   (frozen_sensor, 0%nat)) /\
  link_clean (frozen_sensor, 0%nat) (ticking_clock 1700000000) sample_address
    (Scheduler.run_continuous 1%Q 15%Q humidity_supply Sensor.send_batch_packet 10
                              (frozen_sensor, 0%nat)).
Proof.
  split; [exact frozen_sensor_ready|].
  exact (lossless_link_shows_no_loss 1%Q 15%Q humidity_supply frozen_sensor 0 60%Q 10
           (ticking_clock 1700000000) sample_address frozen_sensor_ready).
Defined.

(** ** The acknowledgement handshake *)
Section Handshake.
Context {F : Type} {B : Builtins F}.
Import Sensor.

Lemma ack_loop_done fuel pkt retries (w : world F) :
  ack_loop fuel pkt retries true w = (w, Ok tt).
Proof. destruct fuel; cbn [ack_loop]; by rewrite andb_false_r. Qed.

Lemma startswith_ack_message n : startswith (ack_message n) ACK_bytes = true.
Proof. reflexivity. Qed.

(** [store_reordered] touches neither the socket nor the last values. *)
Lemma store_reordered_quiet (w : Server.world F) (e : Server.entry) :
  Server.sock_sent (fst (Server.store_reordered e w)) = Server.sock_sent w /\
  Server.last_values (Server.self (fst (Server.store_reordered e w)))
  = Server.last_values (Server.self w) /\
  snd (Server.store_reordered e w) = Ok tt.
Proof.
  rewrite store_reordered_run. cbv zeta.
  destruct (5 <=? _)%nat; by repeat split.
Qed.

(** X14. The handshake for a batch with a high reading.  The temperature
    sensor holds a full batch with a reading of at least 3500, and the
    next datagram on its socket is [ACK n] for the number [n] the batch
    will carry, which [int] reads back as [n].  Then [send_batch_packet]
    transmits the packet once, takes that one datagram from the socket,
    prints the acknowledgement, clears the batch and returns [True].  And
    [ACK n] is what a server answers to this packet: any server that has
    not [n] as the device's last sequence number records the batch as the
    device's last values and sends [ACK n] back to the sender. *)
Theorem high_reading_handshake (w : world F) (rest : list recv_event) :
  let buffer := batch_buffer (self w) in
  let n := (seq (self w) + 1) mod 65536 in
  batch_size (self w) <= Z.of_nat (length buffer) ->
  Forall (fun v => 0 <= v < 2 ^ 32) buffer ->
  0 <= device_id (self w) < 65536 ->
  0 <= int_of_float (clock w (clock_reads w)) < 2 ^ 32 ->
  existsb (fun v => HIGH_TEMP_THRESHOLD <=? v) buffer = true ->
  sock_inbox w = Datagram (ack_message n) :: rest ->
  int_of_bytes (drop 4 (ack_message n)) = Some n ->
  exists pkt w',
    temperature_send_batch_packet w = (w', Ok true) /\
    sock_sent w' = sock_sent w ++ [pkt] /\
    sock_inbox w' = rest /\
    batch_buffer (self w') = [] /\
    seq (self w') = n /\
    last (console w') = Some (AckReceived (device_id (self w)) n) /\
    forall (srv : Server.world F) (addr : Server.address),
      seq_tables_consistent (Server.self srv) ->
      Server.last_seq (Server.self srv) !! device_id (self w) <> Some n ->
      exists srv',
        Server.handle_packet pkt addr srv = (srv', Ok tt) /\
        Server.sock_sent srv' = Server.sock_sent srv ++ [(ack_message n, addr)] /\
        Server.last_values (Server.self srv') !! device_id (self w) = Some buffer.
Proof.
  intros buffer n Hfull Hr Hdev Hts Hhigh Hin Hint.
  pose proof (temperature_send_full w Hfull Hr Hdev Hts) as Hsend.
  cbv zeta in Hsend. fold buffer in Hsend. rewrite Hhigh, land_0xFFFF in Hsend.
  fold n in Hsend.
  destruct Hsend as (pkt & payload & w1 & _ & Hself & Hsent & Hinbox & _ & Hdec
                     & Hparse & _ & Hrun).
  assert (Hloop : ack_loop (S (length (sock_inbox w1))) pkt 0 false w1
    = (mk_world (self w1) (clock w1) (clock_reads w1) (sock_sent w1 ++ [pkt]) rest
         (console w1 ++ [BatchDataAwaitingAck (device_id (self w1)) (seq (self w1))
                                              (batch_buffer (self w1))]
                     ++ [AckReceived (device_id (self w1)) (seq (self w1))]),
       Ok tt)).
  { rewrite ack_loop_eq. change ((0 <? MAX_RETRIES) && negb false) with true.
    cbv zeta iota. rewrite Hinbox, Hin.
    rewrite startswith_ack_message, Hint.
    replace (n =? seq (self w1)) with true
      by (rewrite Hself; cbn; symmetry; apply Z.eqb_refl).
    rewrite ack_loop_done, <- app_assoc. reflexivity. }
  exists pkt. eexists. split.
  { rewrite Hrun. unfold bind at 1. rewrite Hloop.
    unfold finish_batch, bind, time_time, update_self, modify, ret.
    cbn [self clock clock_reads sock_sent sock_inbox console]. reflexivity. }
  cbn [sock_sent sock_inbox self batch_buffer seq console
       with_batch_buffer with_last_data_time].
  rewrite Hself, Hsent. cbn [with_seq seq device_id batch_buffer].
  split; [reflexivity|]. split; [reflexivity|]. split; [reflexivity|].
  split; [reflexivity|].
  split; [by rewrite app_assoc, last_snoc|].
  intros srv addr Hcons Hfresh.
  destruct (handle_packet_data srv pkt addr _ _ _ _ _ _ Hdec Hcons Hfresh)
    as (srv2 & g & Hhandle & Hvalues & _ & _ & Hack & _).
  destruct (store_reordered_quiet srv2
              (Server.mk_entry (int_of_float (clock w (clock_reads w)))
                 (device_id (self w)) n 1 payload 0 g 2
                 (Z.of_nat (length (words_of payload)))))
    as (Hq1 & Hq2 & Hok).
  rewrite <- Hhandle in Hq1, Hq2, Hok.
  exists (fst (Server.handle_packet pkt addr srv)).
  split; [by destruct (Server.handle_packet pkt addr srv) as [s o]; cbn in *; subst o|].
  rewrite Hq1, Hq2, Hack, Hvalues. split; [reflexivity|].
  rewrite parse_values_words in Hparse. by injection Hparse as ->.
Qed.

(** X15. A reply that starts with [ACK] but from which [int] reads no
    number: [send_batch_packet] of the temperature sensor raises
    [ValueError], which nothing in the sensor catches.  The packet has
    been transmitted once and the sequence counter advanced, and the batch
    is still in the buffer. *)
Theorem unreadable_ack_raises (w : world F) (data : list byte)
    (rest : list recv_event) :
  let buffer := batch_buffer (self w) in
  batch_size (self w) <= Z.of_nat (length buffer) ->
  Forall (fun v => 0 <= v < 2 ^ 32) buffer ->
  0 <= device_id (self w) < 65536 ->
  0 <= int_of_float (clock w (clock_reads w)) < 2 ^ 32 ->
  existsb (fun v => HIGH_TEMP_THRESHOLD <=? v) buffer = true ->
  sock_inbox w = Datagram data :: rest ->
  startswith data ACK_bytes = true ->
  int_of_bytes (drop 4 data) = None ->
  exists pkt w',
    temperature_send_batch_packet w = (w', Raise ValueError) /\
    sock_sent w' = sock_sent w ++ [pkt] /\
    sock_inbox w' = rest /\
    batch_buffer (self w') = buffer /\
    seq (self w') = (seq (self w) + 1) mod 65536.
Proof.
  intros buffer Hfull Hr Hdev Hts Hhigh Hin Hack Hint.
  pose proof (temperature_send_full w Hfull Hr Hdev Hts) as Hsend.
  cbv zeta in Hsend. fold buffer in Hsend. rewrite Hhigh, land_0xFFFF in Hsend.
  destruct Hsend as (pkt & payload & w1 & _ & Hself & Hsent & Hinbox & _ & _
                     & _ & _ & Hrun).
  exists pkt. eexists. split.
  { rewrite Hrun. unfold bind at 1. rewrite ack_loop_eq.
    change ((0 <? MAX_RETRIES) && negb false) with true.
    cbv zeta iota. rewrite Hinbox, Hin, Hack, Hint. reflexivity. }
  cbn [sock_sent sock_inbox self]. rewrite Hself, Hsent.
  by repeat split.
Qed.

End Handshake.

(** ** What the server does with a packet that is not a duplicate *)
Section FreshPackets.
Context {F : Type} {B : Builtins F}.
Import Server.

(** [store_reordered] changes the reorder buffers, the telemetry log, the
    console and the count of clock readings, nothing else. *)
Lemma store_reordered_frame (w : world F) (e : entry) :
  let w' := fst (store_reordered e w) in
  snd (store_reordered e w) = Ok tt /\
  counters w' = counters w /\
  sock_sent w' = sock_sent w /\
  status_csv w' = status_csv w /\
  last_values (self w') = last_values (self w) /\
  device_heartbeats (self w') = device_heartbeats (self w) /\
  device_status (self w') = device_status (self w) /\
  reorder_buffer (self w') !! e_device_id e
  = Some (let pending := default [] (reorder_buffer (self w) !! e_device_id e) in
          if (4 <=? length pending)%nat then [] else pending ++ [e]).
Proof.
  rewrite store_reordered_run. cbv zeta. rewrite length_app. cbn [length].
  replace (5 <=? length (default [] (reorder_buffer (self w) !! e_device_id e)) + 1)%nat
    with (4 <=? length (default [] (reorder_buffer (self w) !! e_device_id e)))%nat
    by (apply eq_true_iff_eq; rewrite !Nat.leb_le; lia).
  destruct (4 <=? _)%nat; cbn; rewrite lookup_insert_eq; by repeat split.
Qed.

(** The gap accounting of [handle_packet], lines 125 to 131. *)
Lemma gap_accounting_run (w : world F) (device_id gap_flag gap_count_here : Z) :
  exists w',
    (if truthy gap_flag then
       say (GapDetected device_id gap_count_here) ;;;
       s <- gets self ;;
       match last_values s !! device_id with
       | Some predicted_values => say (PredictedValues device_id predicted_values)
       | None => ret tt
       end ;;;
       update_counters (fun m =>
         mk_metrics (total_packets m) (total_readings m) (duplicate_count m)
                    (gap_count m + gap_count_here) (total_bytes m))
     else ret tt) w = (w', Ok tt) /\
    self w' = self w /\ clock w' = clock w /\ clock_reads w' = clock_reads w /\
    sock_sent w' = sock_sent w /\ status_csv w' = status_csv w /\
    log_file w' = log_file w /\
    total_readings (counters w') = total_readings (counters w) /\
    total_packets (counters w') = total_packets (counters w).
Proof.
  destruct (truthy gap_flag); [|by eexists].
  unfold bind at 1, say at 1, modify. unfold bind at 1, gets at 1.
  cbn [self]. destruct (last_values (self w) !! device_id); by eexists.
Qed.

(** X16. A DATA packet that does not repeat the device's last sequence
    number, be it in order, after a gap or stale: [handle_packet] returns;
    the words of the payload become the device's last values and are
    added to the count of readings; [ACK <seq>] goes back to the sender
    exactly when bit 1 of the flags byte is set; and the packet joins the
    device's reorder buffer, not flagged duplicate, which is emptied when
    this makes five entries. *)
Theorem data_packet_recorded (w : world F) (data : list byte) (addr : address)
    (version device_id seq timestamp flags : Z) (payload : list byte) :
  decode data = Header version 1 device_id seq timestamp flags payload ->
  seq_tables_consistent (self w) ->
  last_seq (self w) !! device_id <> Some seq ->
  let r := handle_packet data addr w in
  let values := words_of payload in
  let pending := default [] (reorder_buffer (self w) !! device_id) in
  snd r = Ok tt /\
  last_values (self (fst r)) !! device_id = Some values /\
  total_readings (counters (fst r))
  = total_readings (counters w) + Z.of_nat (length values) /\
  sock_sent (fst r)
  = sock_sent w ++ (if negb (Z.land flags 0x02 =? 0)
                    then [(ack_message seq, addr)] else []) /\
  exists gap_flag,
    reorder_buffer (self (fst r)) !! device_id
    = Some (if (4 <=? length pending)%nat then []
            else pending ++ [mk_entry timestamp device_id seq 1 payload 0 gap_flag
                                      flags (Z.of_nat (length values))]).
Proof.
  intros Hdec Hcons Hfresh r values pending.
  destruct (handle_packet_data w data addr _ _ _ _ _ _ Hdec Hcons Hfresh)
    as (w2 & g & Hhandle & Hvalues & Hbuf & _ & Hack & Hcount).
  pose proof (store_reordered_frame w2
                (mk_entry timestamp device_id seq 1 payload 0 g flags
                          (Z.of_nat (length values)))) as Hst.
  cbv zeta in Hst. cbn [e_device_id] in Hst.
  fold values in Hhandle. rewrite <- Hhandle in Hst. fold r in Hst.
  destruct Hst as (Hok & Hc & Hs & _ & Hv & _ & _ & Hb).
  rewrite Hc, Hs, Hv, Hb, Hbuf.
  split; [exact Hok|]. split; [exact Hvalues|]. split; [exact Hcount|].
  split; [exact Hack|]. by exists g.
Qed.

(** X17. A HEARTBEAT packet that does not repeat the device's last
    sequence number: [handle_packet] returns; the heartbeat is timed by
    the server's own clock, at the reading after the arrival time, not by
    the sender's timestamp; the device's window becomes the last ten of
    its old timestamps and this one, and its status is decided by the
    rule of [handle_heartbeat] on them.  A payload is ignored and an ACK
    request in the flags is not answered: the last values, the count of
    readings and the socket stay as they are. *)
Theorem heartbeat_packet_handled (w : world F) (data : list byte) (addr : address)
    (version device_id seq timestamp flags : Z) (payload : list byte) :
  decode data = Header version 2 device_id seq timestamp flags payload ->
  seq_tables_consistent (self w) ->
  last_seq (self w) !! device_id <> Some seq ->
  let r := handle_packet data addr w in
  let t := clock w (S (clock_reads w)) in
  let last_times := default [] (device_heartbeats (self w) !! device_id) ++ [t] in
  let prev := default ONLINE (device_status (self w) !! device_id) in
  snd r = Ok tt /\
  device_heartbeats (self (fst r)) !! device_id
  = Some (drop (length last_times - 10) last_times) /\
  device_status (self (fst r)) !! device_id
  = Some (if heartbeat_offline prev last_times t then OFFLINE else ONLINE) /\
  last_values (self (fst r)) = last_values (self w) /\
  total_readings (counters (fst r)) = total_readings (counters w) /\
  sock_sent (fst r) = sock_sent w.
Proof.
  intros Hdec Hcons Hfresh r t last_times prev.
  set (w0 := received w data addr version 2 device_id seq timestamp flags).
  destruct (detect_seq_state_fresh w0 device_id seq Hcons Hfresh)
    as (w1 & g & n & Hdet & Hframe).
  destruct Hframe as (_ & F2 & F3 & F4 & F5 & _ & _ & F8 & F9 & _ & F11 & _).
  cbn [w0 received self counters sock_sent clock clock_reads total_readings]
    in F2, F3, F4, F5, F8, F9, F11.
  destruct (gap_accounting_run w1 device_id g n)
    as (w2 & Hgap & G1 & G2 & G3 & G4 & _ & _ & G7 & _).
  assert (Hrun : r = (handle_heartbeat device_id ;;;
                      store_reordered (mk_entry timestamp device_id seq 2 payload 0 g
                                                flags 0)) w2).
  { unfold r, handle_packet. rewrite Hdec.
    unfold bind at 1, update_counters at 1, modify.
    unfold bind at 1, time_time at 1.
    unfold bind at 1, say at 1, modify.
    cbn [self counters clock clock_reads sock_sent status_csv log_file console].
    unfold bind at 1. fold w0. unfold received in w0. fold w0. rewrite Hdet.
    change (truthy 0) with false. change (2 =? 1) with false.
    change (2 =? 2) with true. cbv iota.
    unfold bind at 1. rewrite Hgap. reflexivity. }
  rewrite Hrun. unfold bind.
  pose proof (handle_heartbeat_run w2 device_id) as Hhb. cbv zeta in Hhb.
  rewrite G1, G2, G3, F2, F3, F8, F9 in Hhb.
  fold t in Hhb. fold last_times in Hhb. fold prev in Hhb.
  rewrite Hhb. clear Hhb.
  match goal with |- context [store_reordered ?e ?w3] =>
    pose proof (store_reordered_frame w3 e) as Hst;
    destruct (store_reordered e w3) as [w4 o]
  end.
  cbv zeta in Hst. cbn [fst snd] in Hst |- *.
  destruct Hst as (Hok & Hc & Hs & _ & Hv & Hh & Hd & _).
  rewrite Hok, Hc, Hs, Hv, Hh, Hd.
  cbn [self counters sock_sent].
  rewrite G4, G7, F5, F11.
  set (st := if heartbeat_offline prev last_times t then OFFLINE else ONLINE).
  destruct (negb (status_eqb prev st)
            || bool_decide (device_status (self w) !! device_id = None)) eqn:Eemit;
    cbn [with_device_status with_device_heartbeats device_heartbeats device_status
         last_values].
  - rewrite !lookup_insert_eq, F4. by repeat split.
  - rewrite lookup_insert_eq, F4.
    apply orb_false_iff in Eemit as [Hsame Hknown].
    apply negb_false_iff, status_eqb_eq in Hsame.
    apply bool_decide_eq_false in Hknown.
    split; [reflexivity|]. split; [reflexivity|]. split; [|by repeat split].
    rewrite F3. unfold prev in Hsame.
    destruct (device_status (self w) !! device_id) as [x|]; [|done].
    cbn in Hsame. by rewrite Hsame.
Qed.

End FreshPackets.

(** ** Instances *)

(** The server has 15 as the last number of device 7 and receives a DATA
    packet numbered 15 that asks for an ACK. *)
Lemma duplicate_never_buffered_witness :
  let w := tracking (ticking_clock 0) 7 15 in
  Server.decode ack_data_packet
  = Server.Header 1 1 7 15 1700000000 2 (be_bytes 4 2500) /\
  seq_tables_consistent (Server.self w) /\
  Server.last_seq (Server.self w) !! 7 = Some 15 /\
  exists w',
    Server.handle_packet ack_data_packet sample_address w = (w', Ok tt) /\
    Server.reorder_buffer (Server.self w') = Server.reorder_buffer (Server.self w) /\
    Server.log_file w' = Server.log_file w /\
    Server.sock_sent w' = Server.sock_sent w /\
    Server.last_seq (Server.self w') = Server.last_seq (Server.self w) /\
    Server.duplicate_count (Server.counters w')
    = Server.duplicate_count (Server.counters w) + 1 /\
    last (Server.console w') = Some (Server.DuplicatePacket 7 15).
Proof.
  intros w.
  assert (H1 : Server.decode ack_data_packet
               = Server.Header 1 1 7 15 1700000000 2 (be_bytes 4 2500))
    by (vm_compute; reflexivity).
  assert (H2 : seq_tables_consistent (Server.self w))
    by apply seq_tables_consistent_tracking.
  assert (H3 : Server.last_seq (Server.self w) !! 7 = Some 15)
    by (vm_compute; reflexivity).
  repeat (split; [assumption|]).
  exact (duplicate_never_buffered w ack_data_packet sample_address _ _ _ _ _ _ _
           H1 H2 H3).
Defined.

(** The third reading of a batch with a high reading, no ACK coming. *)
Lemma temperature_report_fits_witness :
  let w := warming_sensor in
  let r := Sensor.report Sensor.temperature_send_batch_packet 2200 w in
  batch_bounded w /\
  Forall (fun v => 0 <= v < 2 ^ 32) (Sensor.batch_buffer (Sensor.self w) ++ [2200]) /\
  0 <= Sensor.device_id (Sensor.self w) < 65536 /\
  0 <= int_of_float (Sensor.clock w (Sensor.clock_reads w)) < 2 ^ 32 /\
  exists n pkt,
    Sensor.sock_sent (fst r) = Sensor.sock_sent w ++ replicate n pkt /\
    (length pkt <= 200)%nat /\
    forall sent, snd r = Ok sent -> batch_bounded (fst r).
Proof.
  intros w r.
  assert (H1 : batch_bounded w) by (split; vm_compute; [discriminate|reflexivity]).
  assert (H2 : Forall (fun v => 0 <= v < 2 ^ 32)
                      (Sensor.batch_buffer (Sensor.self w) ++ [2200])).
  { cbn. repeat (apply List.Forall_cons; [lia|]). apply List.Forall_nil. }
  assert (H3 : 0 <= Sensor.device_id (Sensor.self w) < 65536) by (simpl; lia).
  assert (H4 : 0 <= int_of_float (Sensor.clock w (Sensor.clock_reads w)) < 2 ^ 32)
    by (vm_compute; split; [discriminate|reflexivity]).
  repeat (split; [assumption|]).
  exact (temperature_report_fits w 2200 H1 H2 H3 H4).
Defined.

(** A fresh server receives the DATA packet numbered 15. *)
Lemma data_packet_recorded_witness :
  let w := Server.init (ticking_clock 1700000005) in
  let r := Server.handle_packet ack_data_packet sample_address w in
  let values := words_of (be_bytes 4 2500) in
  let pending := default [] (Server.reorder_buffer (Server.self w) !! 7) in
  Server.decode ack_data_packet
  = Server.Header 1 1 7 15 1700000000 2 (be_bytes 4 2500) /\
  seq_tables_consistent (Server.self w) /\
  Server.last_seq (Server.self w) !! 7 <> Some 15 /\
  snd r = Ok tt /\
  Server.last_values (Server.self (fst r)) !! 7 = Some values /\
  Server.total_readings (Server.counters (fst r))
  = Server.total_readings (Server.counters w) + Z.of_nat (length values) /\
  Server.sock_sent (fst r)
  = Server.sock_sent w ++ (if negb (Z.land 2 0x02 =? 0)
                           then [(ack_message 15, sample_address)] else []) /\
  exists gap_flag,
    Server.reorder_buffer (Server.self (fst r)) !! 7
    = Some (if (4 <=? length pending)%nat then []
            else pending ++ [Server.mk_entry 1700000000 7 15 1 (be_bytes 4 2500) 0
                                             gap_flag 2 (Z.of_nat (length values))]).
Proof.
  intros w r values pending.
  assert (H1 : Server.decode ack_data_packet
               = Server.Header 1 1 7 15 1700000000 2 (be_bytes 4 2500))
    by (vm_compute; reflexivity).
  assert (H2 : seq_tables_consistent (Server.self w))
    by apply seq_tables_consistent_init.
  assert (H3 : Server.last_seq (Server.self w) !! 7 <> Some 15)
    by (vm_compute; discriminate).
  repeat (split; [assumption|]).
  exact (data_packet_recorded w ack_data_packet sample_address _ _ _ _ _ _ H1 H2 H3).
Defined.

(** A fresh server receives the HEARTBEAT packet numbered 15. *)
Lemma heartbeat_packet_handled_witness :
  let w := Server.init (ticking_clock 1700000005) in
  let r := Server.handle_packet heartbeat_packet sample_address w in
  let t := Server.clock w (S (Server.clock_reads w)) in
  let last_times := default [] (Server.device_heartbeats (Server.self w) !! 7) ++ [t] in
  let prev := default Server.ONLINE (Server.device_status (Server.self w) !! 7) in
  Server.decode heartbeat_packet
  = Server.Header 1 2 7 15 1700000000 2 (be_bytes 4 2500) /\
  seq_tables_consistent (Server.self w) /\
  Server.last_seq (Server.self w) !! 7 <> Some 15 /\
  snd r = Ok tt /\
  Server.device_heartbeats (Server.self (fst r)) !! 7
  = Some (drop (length last_times - 10) last_times) /\
  Server.device_status (Server.self (fst r)) !! 7
  = Some (if heartbeat_offline prev last_times t
          then Server.OFFLINE else Server.ONLINE) /\
  Server.last_values (Server.self (fst r)) = Server.last_values (Server.self w) /\
  Server.total_readings (Server.counters (fst r))
  = Server.total_readings (Server.counters w) /\
  Server.sock_sent (fst r) = Server.sock_sent w.
Proof.
  intros w r t last_times prev.
  assert (H1 : Server.decode heartbeat_packet
               = Server.Header 1 2 7 15 1700000000 2 (be_bytes 4 2500))
    by (vm_compute; reflexivity).
  assert (H2 : seq_tables_consistent (Server.self w))
    by apply seq_tables_consistent_init.
  assert (H3 : Server.last_seq (Server.self w) !! 7 <> Some 15)
    by (vm_compute; discriminate).
  repeat (split; [assumption|]).
  exact (heartbeat_packet_handled w heartbeat_packet sample_address _ _ _ _ _ _
           H1 H2 H3).
Defined.

(** Packet 42 of the hot sensor, acknowledged at once. *)
Lemma high_reading_handshake_witness :
  let w := acknowledged_sensor in
  let buffer := Sensor.batch_buffer (Sensor.self w) in
  let n := (Sensor.seq (Sensor.self w) + 1) mod 65536 in
  Sensor.batch_size (Sensor.self w) <= Z.of_nat (length buffer) /\
  Forall (fun v => 0 <= v < 2 ^ 32) buffer /\
  0 <= Sensor.device_id (Sensor.self w) < 65536 /\
  0 <= int_of_float (Sensor.clock w (Sensor.clock_reads w)) < 2 ^ 32 /\
  existsb (fun v => Sensor.HIGH_TEMP_THRESHOLD <=? v) buffer = true /\
  Sensor.sock_inbox w = Sensor.Datagram (ack_message n) :: [] /\
  int_of_bytes (drop 4 (ack_message n)) = Some n /\
  exists pkt w',
    Sensor.temperature_send_batch_packet w = (w', Ok true) /\
    Sensor.sock_sent w' = Sensor.sock_sent w ++ [pkt] /\
    Sensor.sock_inbox w' = [] /\
    Sensor.batch_buffer (Sensor.self w') = [] /\
    Sensor.seq (Sensor.self w') = n /\
    last (Sensor.console w')
    = Some (Sensor.AckReceived (Sensor.device_id (Sensor.self w)) n) /\
    forall (srv : Server.world Q) (addr : Server.address),
      seq_tables_consistent (Server.self srv) ->
      Server.last_seq (Server.self srv) !! Sensor.device_id (Sensor.self w) <> Some n ->
      exists srv',
        Server.handle_packet pkt addr srv = (srv', Ok tt) /\
        Server.sock_sent srv' = Server.sock_sent srv ++ [(ack_message n, addr)] /\
        Server.last_values (Server.self srv') !! Sensor.device_id (Sensor.self w)
        = Some buffer.
Proof.
  intros w buffer n.
  assert (H1 : Sensor.batch_size (Sensor.self w) <= Z.of_nat (length buffer))
    by (vm_compute; discriminate).
  assert (H2 : Forall (fun v => 0 <= v < 2 ^ 32) buffer).
  { cbn. repeat (apply List.Forall_cons; [lia|]). apply List.Forall_nil. }
  assert (H3 : 0 <= Sensor.device_id (Sensor.self w) < 65536) by (simpl; lia).
  assert (H4 : 0 <= int_of_float (Sensor.clock w (Sensor.clock_reads w)) < 2 ^ 32)
    by (vm_compute; split; [discriminate|reflexivity]).
  assert (H5 : existsb (fun v => Sensor.HIGH_TEMP_THRESHOLD <=? v) buffer = true)
    by reflexivity.
  assert (H6 : Sensor.sock_inbox w = Sensor.Datagram (ack_message n) :: [])
    by reflexivity.
  assert (H7 : int_of_bytes (drop 4 (ack_message n)) = Some n)
    by (vm_compute; reflexivity).
  repeat (split; [assumption|]).
  exact (high_reading_handshake w [] H1 H2 H3 H4 H5 H6 H7).
Defined.

(** The hot sensor receives [ACK ok]. *)
Lemma unreadable_ack_raises_witness :
  let w := confused_sensor in
  let data := ACK_bytes ++ [x20; x6f; x6b] in
  let buffer := Sensor.batch_buffer (Sensor.self w) in
  Sensor.batch_size (Sensor.self w) <= Z.of_nat (length buffer) /\
  Forall (fun v => 0 <= v < 2 ^ 32) buffer /\
  0 <= Sensor.device_id (Sensor.self w) < 65536 /\
  0 <= int_of_float (Sensor.clock w (Sensor.clock_reads w)) < 2 ^ 32 /\
  existsb (fun v => Sensor.HIGH_TEMP_THRESHOLD <=? v) buffer = true /\
  Sensor.sock_inbox w = Sensor.Datagram data :: [Sensor.Timeout] /\
  startswith data ACK_bytes = true /\
  int_of_bytes (drop 4 data) = None /\
  exists pkt w',
    Sensor.temperature_send_batch_packet w = (w', Raise ValueError) /\
    Sensor.sock_sent w' = Sensor.sock_sent w ++ [pkt] /\
    Sensor.sock_inbox w' = [Sensor.Timeout] /\
    Sensor.batch_buffer (Sensor.self w') = buffer /\
    Sensor.seq (Sensor.self w') = (Sensor.seq (Sensor.self w) + 1) mod 65536.
Proof.
  intros w data buffer.
  assert (H1 : Sensor.batch_size (Sensor.self w) <= Z.of_nat (length buffer))
    by (vm_compute; discriminate).
  assert (H2 : Forall (fun v => 0 <= v < 2 ^ 32) buffer).
  { cbn. repeat (apply List.Forall_cons; [lia|]). apply List.Forall_nil. }
  assert (H3 : 0 <= Sensor.device_id (Sensor.self w) < 65536) by (simpl; lia).
  assert (H4 : 0 <= int_of_float (Sensor.clock w (Sensor.clock_reads w)) < 2 ^ 32)
    by (vm_compute; split; [discriminate|reflexivity]).
  assert (H5 : existsb (fun v => Sensor.HIGH_TEMP_THRESHOLD <=? v) buffer = true)
    by reflexivity.
  assert (H6 : Sensor.sock_inbox w = Sensor.Datagram data :: [Sensor.Timeout])
    by reflexivity.
  assert (H7 : startswith data ACK_bytes = true) by reflexivity.
  assert (H8 : int_of_bytes (drop 4 data) = None) by reflexivity.
  repeat (split; [assumption|]).
  exact (unreadable_ack_raises w data [Sensor.Timeout] H1 H2 H3 H4 H5 H6 H7 H8).
Defined.

(** ** Readings of the temperature sensor *)
Section TemperatureReadings.
Context {F : Type} {B : Builtins F}.
Import Sensor.

Lemma need_ack_at_maximum (buffer : list Z) :
  Forall temperature_reading buffer ->
  existsb (fun v => HIGH_TEMP_THRESHOLD <=? v) buffer = bool_decide (3500 ∈ buffer).
Proof.
  intros Hr. apply eq_true_iff_eq.
  rewrite existsb_exists, bool_decide_eq_true. unfold HIGH_TEMP_THRESHOLD. split.
  - intros (v & Hv & Hge). apply list_elem_of_In in Hv. apply Z.leb_le in Hge.
    rewrite Forall_forall in Hr. pose proof (Hr v Hv) as [_ Hle].
    by replace 3500 with v by lia.
  - intros Hin. exists 3500. by rewrite <- list_elem_of_In.
Qed.

(** X20. [TemperatureSensor.generate_reading] returns values from 1500 to
    3500, and the threshold for an acknowledged send is 3500: so with a
    full batch of such readings the packet asks for an ACK (flags 0x02)
    exactly when some reading is the maximum 3500 itself; a batch without
    it goes out once with flags 0, no reply is awaited, and the call
    returns [True]. *)
Theorem only_the_maximum_asks_for_ack (w : world F) :
  batch_size (self w) <= Z.of_nat (length (batch_buffer (self w))) ->
  Forall temperature_reading (batch_buffer (self w)) ->
  0 <= device_id (self w) < 65536 ->
  0 <= int_of_float (clock w (clock_reads w)) < 2 ^ 32 ->
  let buffer := batch_buffer (self w) in
  let r := temperature_send_batch_packet w in
  exists pkt version device_id seq' timestamp flags payload n,
    sock_sent (fst r) = sock_sent w ++ replicate (S n) pkt /\
    Server.decode pkt
    = Server.Header version 1 device_id seq' timestamp flags payload /\
    Server.parse_values payload = Some buffer /\
    flags = (if bool_decide (3500 ∈ buffer) then 0x02 else 0x00) /\
    (3500 ∉ buffer ->
       n = 0%nat /\ snd r = Ok true /\ sock_inbox (fst r) = sock_inbox w).
Proof.
  intros Hfull Htemp Hdev Hts buffer r.
  assert (Hr : Forall (fun v => 0 <= v < 2 ^ 32) (batch_buffer (self w))).
  { eapply Forall_impl; [exact Htemp|]. intros v [H1 H2]. lia. }
  pose proof (temperature_send_full w Hfull Hr Hdev Hts) as Hsend.
  cbv zeta in Hsend. rewrite (need_ack_at_maximum _ Htemp) in Hsend.
  fold buffer in Hsend.
  destruct Hsend as (pkt & payload & w1 & _ & _ & Hsent & Hinbox & _ & Hdec
                     & Hparse & _ & Hrun).
  unfold r. rewrite Hrun. clear Hrun.
  destruct (bool_decide (3500 ∈ buffer)) eqn:Emax.
  - pose proof (finish_batch_after (ack_loop (S (length (sock_inbox w1))) pkt 0 false) w1)
      as (Hs & _).
    destruct (ack_loop_sends (S (length (sock_inbox w1))) pkt 0 false w1)
      as (_ & _ & _ & n & Hn & Hpos).
    specialize (Hpos ltac:(unfold MAX_RETRIES; lia) eq_refl ltac:(lia)).
    destruct n as [|n]; [lia|].
    eexists pkt, _, _, _, _, _, _, n.
    split; [by rewrite Hs, Hn, Hsent|].
    split; [exact Hdec|]. split; [exact Hparse|]. split; [reflexivity|].
    apply bool_decide_eq_true in Emax. intros Hnot. by destruct Hnot.
  - eexists pkt, _, _, _, _, _, _, 0%nat.
    split; [cbn; by rewrite Hsent|].
    split; [exact Hdec|]. split; [exact Hparse|]. split; [reflexivity|].
    intros _. split; [reflexivity|]. cbn. by rewrite Hinbox.
Qed.

End TemperatureReadings.

(** A batch whose highest reading is 3499. *)
Lemma only_the_maximum_asks_for_ack_witness :
  let w := mild_sensor in
  let buffer := Sensor.batch_buffer (Sensor.self w) in
  let r := Sensor.temperature_send_batch_packet w in
  Sensor.batch_size (Sensor.self w) <= Z.of_nat (length buffer) /\
  Forall temperature_reading buffer /\
  0 <= Sensor.device_id (Sensor.self w) < 65536 /\
  0 <= int_of_float (Sensor.clock w (Sensor.clock_reads w)) < 2 ^ 32 /\
  exists pkt version device_id seq' timestamp flags payload n,
    Sensor.sock_sent (fst r) = Sensor.sock_sent w ++ replicate (S n) pkt /\
    Server.decode pkt
    = Server.Header version 1 device_id seq' timestamp flags payload /\
    Server.parse_values payload = Some buffer /\
    flags = (if bool_decide (3500 ∈ buffer) then 0x02 else 0x00) /\
    (3500 ∉ buffer ->
       n = 0%nat /\ snd r = Ok true /\ Sensor.sock_inbox (fst r) = Sensor.sock_inbox w).
Proof.
  intros w buffer r.
  assert (H1 : Sensor.batch_size (Sensor.self w) <= Z.of_nat (length buffer))
    by (vm_compute; discriminate).
  assert (H2 : Forall temperature_reading buffer).
  { cbn. unfold temperature_reading.
    repeat (apply List.Forall_cons; [lia|]). apply List.Forall_nil. }
  assert (H3 : 0 <= Sensor.device_id (Sensor.self w) < 65536) by (simpl; lia).
  assert (H4 : 0 <= int_of_float (Sensor.clock w (Sensor.clock_reads w)) < 2 ^ 32)
    by (vm_compute; split; [discriminate|reflexivity]).
  repeat (split; [assumption|]).
  exact (only_the_maximum_asks_for_ack w H1 H2 H3 H4).
Defined.

(** A run under a ticking clock with heartbeats due every 6 seconds: the
    second, fourth and sixth turn send a heartbeat and take no reading,
    and heartbeats and data share one run of sequence numbers. *)
Example humidity_run_with_heartbeats :
  let r := Scheduler.run 1%Q 6%Q humidity_supply Sensor.send_batch_packet 60%Q 7
                         (sample_sensor, 0%nat) in
  snd r = Ok tt /\
  snd (fst r) = 4%nat /\
  packet_readings <$> Sensor.sock_sent (fst (fst r))
  = [[]; []; [2100; 7950; 2000]; []] /\
  packet_seq <$> Sensor.sock_sent (fst (fst r)) = [Some 1; Some 2; Some 3; Some 4] /\
  Sensor.batch_buffer (Sensor.self (fst (fst r))) = [8000].
Proof. vm_compute. repeat split. Qed.
